(** * PC-BASIC display core: pixel pages and the text screen

    A shallow embedding of [pcbasic/basic/display/pixels.py] and
    [pcbasic/basic/display/textscreen.py], and of the dispatch of
    [pcbasic/basic/functions.py] that calls into them.  Python integers are
    [Z], rows and columns of the text screen count from 1, pixel coordinates
    from 0.  Classes become records, methods become functions that take the
    object and return the updated object; a method that can raise returns an
    [outcome] that carries the object as it is when the exception leaves the
    method. *)

From stdpp Require Import base list numbers.
From Stdlib Require Import ZArith Lia Bool Strings.Byte.
From Stdlib Require Strings.String.

Local Open Scope Z_scope.

(** ** [bytematrix.ByteMatrix] *)

Module ByteMatrix.

(** Modelled from the spec: the class [bytematrix.ByteMatrix] is used by
    [pixels.py] but its module is not among the sources.  The spec describes
    the buffer as "one dense 2D grid of unsigned integer pixel attributes,
    dimensions height x width", whose out-of-bounds reads and writes are
    caught by the page ([IndexError]).  A matrix is its two dimensions and
    its rows; a cell keeps the value it is given. *)
Record t : Type := Build {
  _height : Z;
  _width : Z;
  _rows : list (list Z)
}.

(** A matrix is well formed when it has [_height] rows of [_width] cells. *)
Definition wf (m : t) : Prop :=
  0 <= _height m /\ 0 <= _width m /\
  length (_rows m) = Z.to_nat (_height m) /\
  Forall (fun row => length row = Z.to_nat (_width m)) (_rows m).

(** The cell of a grid of rows, when it exists. *)
Definition cell (rows : list (list Z)) (i j : nat) : option Z :=
  rows !! i ≫= fun row => row !! j.

(** Modelled from the spec: the constructor of the missing class,
    [ByteMatrix(height, width)], gives a grid of zeros. *)
Definition new (height width : Z) : t :=
  Build height width
    (replicate (Z.to_nat height) (replicate (Z.to_nat width) 0)).

(** A cell index is valid when it lies on the grid; any other index
    raises [IndexError]. *)
Definition valid_index (m : t) (y x : Z) : bool :=
  (0 <=? y) && (y <? _height m) && (0 <=? x) && (x <? _width m).

(** Modelled from the spec: [__getitem__] of the missing class for a cell,
    [m[y, x]]; [None] stands for [IndexError]. *)
Definition getitem (m : t) (y x : Z) : option Z :=
  if valid_index m y x then
    _rows m !! Z.to_nat y ≫= fun row => row !! Z.to_nat x
  else None.

(** Modelled from the spec: [__setitem__] of the missing class for a cell,
    [m[y, x] = value]; [None] stands for [IndexError]. *)
Definition setitem (m : t) (y x value : Z) : option t :=
  if valid_index m y x then
    Some (Build (_height m) (_width m)
            (alter (fun row => <[Z.to_nat x := value]> row)
                   (Z.to_nat y) (_rows m)))
  else None.

(** A half-open index range [lo:hi] of a sequence, clipped to the
    sequence (the grid clips, it does not count from the end). *)
Definition slice {A} (lo hi : Z) (l : list A) : list A :=
  take (Z.to_nat (hi - Z.max 0 lo)) (drop (Z.to_nat lo) l).

(** The number of indices of [lo:hi] on an axis of [size] cells. *)
Definition slice_size (lo hi size : Z) : Z :=
  Z.max 0 (Z.min hi size - Z.max 0 lo).

(** Modelled from the spec: [__getitem__] of the missing class for a
    rectangle, [m[y0:y1, x0:x1]]: the sub-matrix, a fresh object. *)
Definition getslice (m : t) (y0 y1 x0 x1 : Z) : t :=
  Build (slice_size y0 y1 (_height m)) (slice_size x0 x1 (_width m))
        ((fun row : list Z => slice x0 x1 row) <$> slice y0 y1 (_rows m)).

Definition in_slice (lo hi : Z) (i : nat) : bool :=
  (lo <=? Z.of_nat i) && (Z.of_nat i <? hi).

(** Modelled from the spec: [__setitem__] of the missing class for a
    rectangle, [m[y0:y1, x0:x1] = value] with a matrix [value]: the cells of
    the rectangle take the cells of [value]; the shapes must agree ([None]
    stands for the exception otherwise). *)
Definition setslice (m : t) (y0 y1 x0 x1 : Z) (value : t) : option t :=
  if (slice_size y0 y1 (_height m) =? _height value)
     && (slice_size x0 x1 (_width m) =? _width value)
  then
    Some (Build (_height m) (_width m)
      (imap (fun i row =>
         if in_slice y0 y1 i then
           imap (fun j cell =>
             if in_slice x0 x1 j then
               default cell
                 (_rows value !! (i - Z.to_nat y0)%nat
                    ≫= fun vrow => vrow !! (j - Z.to_nat x0)%nat)
             else cell) row
         else row) (_rows m)))
  else None.

(** Modelled from the spec: the operators [&], [|] and [^] of the missing
    class ("all bitwise between the destination rectangle and the supplied
    same-shaped source grid"), element by element; [None] when the shapes
    differ. *)
Definition elementwise (f : Z -> Z -> Z) (a b : t) : option t :=
  if (_height a =? _height b) && (_width a =? _width b) then
    Some (Build (_height a) (_width a)
            (zip_with (zip_with f) (_rows a) (_rows b)))
  else None.

(** Modelled from the spec: [m ^ n] of the missing class for an integer
    [n] ("complement under mask"): every cell combined with [n]. *)
Definition xor_scalar (m : t) (n : Z) : t :=
  Build (_height m) (_width m)
    ((fun row : list Z => (fun c => Z.lxor c n) <$> row) <$> _rows m).

End ByteMatrix.

(** ** [pixels.PixelPage] *)

Module PixelPage.

(** The drawing-mode tokens [tk.PSET], [tk.PRESET], [tk.AND], [tk.OR] and
    [tk.XOR] that key the operations table. *)
Inductive operation_token : Type := PSET | PRESET | AND | OR | XOR.

(** The page; [_operations] is rebuilt from [_mask] (see
    [_init_operations]) and so is not a field of its own. *)
Record t : Type := Build {
  _buffer : ByteMatrix.t;
  width : Z;
  height : Z;
  _mask : Z
}.

Definition __init__ (width height bitsperpixel : Z) : t :=
  Build (ByteMatrix.new height width) width height
        (Z.shiftl 1 bitsperpixel - 1).

(** The table of closures, as a function of the token: the first argument
    is the destination rectangle, the second the source array. *)
Definition _init_operations (mask : Z) (token : operation_token)
    (_x _y : ByteMatrix.t) : option ByteMatrix.t :=
  match token with
  | PSET => Some _y
  | PRESET => Some (ByteMatrix.xor_scalar _y mask)
  | AND => ByteMatrix.elementwise Z.land _x _y
  | OR => ByteMatrix.elementwise Z.lor _x _y
  | XOR => ByteMatrix.elementwise Z.lxor _x _y
  end.

Definition _operations (self : t) := _init_operations (_mask self).

Definition set_buffer (self : t) (b : ByteMatrix.t) : t :=
  Build b (width self) (height self) (_mask self).

(** [put_pixel]: the page afterwards and the returned value, [None] when
    [IndexError] was caught. *)
Definition put_pixel (self : t) (x y attr : Z) : t * option ByteMatrix.t :=
  match ByteMatrix.setitem (_buffer self) y x attr with
  | Some b => (set_buffer self b, Some (ByteMatrix.getslice b y (y + 1) x (x + 1)))
  | None => (self, None)
  end.

Definition get_pixel (self : t) (x y : Z) : Z :=
  match ByteMatrix.getitem (_buffer self) y x with
  | Some attr => attr
  | None => 0
  end.

Definition get_rect (self : t) (x0 y0 x1 y1 : Z) : ByteMatrix.t :=
  ByteMatrix.getslice (_buffer self) y0 (y1 + 1) x0 (x1 + 1).

(** [put_rect]: the page afterwards and the returned result; [None] when
    the matrix operations raise. *)
Definition put_rect (self : t) (x0 y0 x1 y1 : Z) (array : ByteMatrix.t)
    (token : operation_token) : option (t * ByteMatrix.t) :=
  result ← _operations self token
              (ByteMatrix.getslice (_buffer self) y0 (y1 + 1) x0 (x1 + 1)) array;
  b ← ByteMatrix.setslice (_buffer self) y0 (y1 + 1) x0 (x1 + 1) result;
  Some (set_buffer self b, result).

(** The buffer of a page has the page's dimensions. *)
Definition wf (self : t) : Prop :=
  ByteMatrix.wf (_buffer self) /\
  ByteMatrix._height (_buffer self) = height self /\
  ByteMatrix._width (_buffer self) = width self.

End PixelPage.

(** ** Collaborators of the text screen *)

(** The fields of the video mode object that the text screen reads. *)
Record Mode : Type := {
  width : Z;
  height : Z;
  is_text_mode : bool
}.

Module ScrollArea.

(** Text viewport / scroll area. *)
Record t : Type := Build {
  _height : Z;
  _active : bool;
  _top : Z;
  _bottom : Z
}.

Definition active (self : t) : bool := _active self.
Definition bounds (self : t) : Z * Z := (_top self, _bottom self).
Definition top (self : t) : Z := _top self.
Definition bottom (self : t) : Z := _bottom self.

(** [set]: [_top] and [_bottom] are inclusive and count rows from 1. *)
Definition set (self : t) (start stop : Z) : t :=
  Build (_height self) true start stop.

(** [unset]: the scroll area normally excludes the bottom bar. *)
Definition unset (self : t) : t :=
  let self := set self 1 (_height self - 1) in
  Build (_height self) false (_top self) (_bottom self).

Definition __init__ (mode : Mode) : t :=
  unset (Build (height mode) false 0 0).

Definition init_mode (self : t) (mode : Mode) : t :=
  let self := Build (height mode) (_active self) (_top self) (_bottom self) in
  if _bottom self =? _height self then set self 1 (_height self)
  else unset self.

End ScrollArea.

(** The position that an index [i] names in a Python list of [len]
    elements: [0 <= i < len] counts from the front, [-len <= i < 0] from the
    end; any other index raises [IndexError] ([None]). *)
Definition py_index (len : nat) (i : Z) : option nat :=
  if (0 <=? i) && (i <? Z.of_nat len) then Some (Z.to_nat i)
  else if (- Z.of_nat len <=? i) && (i <? 0) then Some (Z.to_nat (Z.of_nat len + i))
  else None.

Module BottomBar.

(** Key guide bar at the bottom line: 80 cells of a character and its
    reverse flag, whatever the screen width. *)
Record t : Type := Build {
  _contents : list (byte * bool);
  visible : bool
}.

Definition clear (self : t) : t :=
  Build (replicate 80%nat (" "%byte, false)) (visible self).

Definition __init__ : t :=
  Build (replicate 80%nat (" "%byte, false)) false.


(** [write]: write chars on the virtual bottom bar, the [i]-th at index
    [col + i].  The second component tells whether the loop ran to its end:
    it is [false] when an assignment raised [IndexError], and the cells
    written before that stay written. *)
Fixpoint write (self : t) (s : list byte) (col : Z) (reverse : bool) : t * bool :=
  match s with
  | [] => (self, true)
  | c :: s =>
    match py_index (length (_contents self)) col with
    | Some k =>
      write (Build (<[k := (c, reverse)]> (_contents self)) (visible self))
            s (col + 1) reverse
    | None => (self, false)
    end
  end.

(** [get_char_reverse]: retrieve char and reverse attribute; [None] stands
    for [IndexError]. *)
Definition get_char_reverse (self : t) (col : Z) : option (byte * bool) :=
  py_index (length (_contents self)) col ≫= fun k => _contents self !! k.

End BottomBar.

Module Cursor.

(** Modelled from the spec: the cursor object is a collaborator whose
    class is not among the sources; the spec gives its contract as
    [move(row, col[, attr, width])], [set_visibility(bool)] and
    [set_shape(start, stop)].  The model keeps what these calls set. *)
Record t : Type := Build {
  row : Z;
  col : Z;
  attr : Z;
  cell_width : Z;
  visible : bool;
  shape : Z * Z
}.

Definition move (self : t) (new_row new_col : Z) (new_attr new_width : option Z) : t :=
  Build new_row new_col (default (attr self) new_attr)
        (default (cell_width self) new_width) (visible self) (shape self).

Definition set_visibility (self : t) (on : bool) : t :=
  Build (row self) (col self) (attr self) (cell_width self) on (shape self).

Definition set_shape (self : t) (start stop : Z) : t :=
  Build (row self) (col self) (attr self) (cell_width self) (visible self)
        (start, stop).

End Cursor.

Module TextPage.

(** The methods of the active text page that the screen calls (the
    "TextPage contract" of the spec): the screen is written against this
    interface and never looks inside a page.  Characters are bytes,
    attributes integers; [insert_char_attr] returns the character that
    drops off the end of the row.  The methods are taken to return: the
    screen catches nothing, so a page method that raised would end the
    screen's method with it. *)
Class Ops (P : Type) : Type := {
  put_char_attr : P -> Z -> Z -> byte -> Z -> bool -> P;
  delete_char_attr : P -> Z -> Z -> Z -> option (byte * Z) -> P;
  insert_char_attr : P -> Z -> Z -> byte -> Z -> P * byte;
  scroll_up : P -> Z -> Z -> Z -> P;
  scroll_down : P -> Z -> Z -> Z -> P;
  set_wrap : P -> Z -> bool -> P;
  wraps : P -> Z -> bool;
  set_row_length : P -> Z -> Z -> P;
  row_length : P -> Z -> Z;
  get_char : P -> Z -> Z -> byte;
  get_attr : P -> Z -> Z -> Z;
  get_charwidth : P -> Z -> Z -> Z;
  find_start_of_line : P -> Z -> Z;
  find_end_of_line : P -> Z -> Z
}.


(** The further page methods that the clearing, key-bar and SCREEN
    operations call.  [put_char_attr_default] is [put_char_attr] called with
    four arguments, [adjust_end] left to the default of the page class. *)
Class MoreOps (P : Type) : Type := {
  clear_rows : P -> Z -> Z -> Z -> P;
  clear_row_from : P -> Z -> Z -> Z -> P;
  get_byte : P -> Z -> Z -> Z;
  put_char_attr_default : P -> Z -> Z -> byte -> Z -> P
}.

End TextPage.

(** ** Runtime errors *)

(** The exceptions that leave the screen's callbacks: the BASIC error
    "illegal function call" of [error.throw_if] and [error.range_check], and
    the Python errors of an ill-formed call. *)
Inductive exception : Type :=
  | IFC
  | TypeError
  | ValueError.

(** What a method that can raise leaves behind: its return value or the
    exception, and in both cases the object as mutated so far. *)
Inductive outcome (S A : Type) : Type :=
  | Returned (a : A) (s : S)
  | Raised (e : exception) (s : S).
Arguments Returned {S A} a s.
Arguments Raised {S A} e s.

Definition M (S A : Type) : Type := S -> outcome S A.

#[global] Instance M_ret {S} : MRet (M S) := fun A a s => Returned a s.
#[global] Instance M_bind {S} : MBind (M S) := fun A B f m s =>
  match m s with
  | Returned a s' => f a s'
  | Raised e s' => Raised e s'
  end.

Definition get_self {S} : M S S := fun s => Returned s s.
Definition update {S} (f : S -> S) : M S unit := fun s => Returned tt (f s).
Definition raise {S A} (e : exception) : M S A := fun s => Raised e s.


(** The methods around the bottom bar and the page list can also end in
    Python's [IndexError]; their outcomes carry the object likewise. *)
Inductive failure : Type :=
  | Exception (e : exception)
  | IndexError.

Inductive result (S A : Type) : Type :=
  | Done (a : A) (s : S)
  | Failed (e : failure) (s : S).
Arguments Done {S A} a s.
Arguments Failed {S A} e s.

Module error.

(** Modelled from the spec: the module [error] is not among the sources.
    [throw_if(cond)] raises the illegal-function-call error when [cond]
    holds; [range_check(lower, upper, v, ...)] raises it unless every given
    value lies in the inclusive range (the spec: "all range checks are
    inclusive"); an omitted value ([None]) is not checked. *)
Definition throw_if {S} (cond : bool) : M S unit :=
  if cond then raise IFC else mret tt.

Definition in_range (lower upper : Z) (v : option Z) : bool :=
  match v with
  | Some n => (lower <=? n) && (n <=? upper)
  | None => true
  end.

Definition range_check {S} (lower upper : Z) (allvars : list (option Z)) : M S unit :=
  if forallb (in_range lower upper) allvars then mret tt else raise IFC.

End error.

(** ** [textscreen.TextScreen] *)

Module TextScreen.

(** The text screen over a page type [P].  [_apage] is the active page
    (the element of [_pages] that [init_mode] and [set_page] select); the
    queues, the value factory and the page numbers take no part in the
    operations below and are left out. *)
Record t (P : Type) : Type := Build {
  _tandytext : bool;
  _cursor : Cursor.t;
  current_row : Z;
  current_col : Z;
  overflow : bool;
  scroll_area : ScrollArea.t;
  _bottom_row_allowed : bool;
  _bottom_bar : BottomBar.t;
  mode : Mode;
  _attr : Z;
  _apage : P
}.
Arguments Build {P}.
Arguments _tandytext {P}.
Arguments _cursor {P}.
Arguments current_row {P}.
Arguments current_col {P}.
Arguments overflow {P}.
Arguments scroll_area {P}.
Arguments _bottom_row_allowed {P}.
Arguments _bottom_bar {P}.
Arguments mode {P}.
Arguments _attr {P}.
Arguments _apage {P}.

Section Methods.

Context {P : Type} `{TextPage.Ops P}.
Implicit Type self : t P.

(** *** Attribute assignment, one function per assigned field *)

Definition set__cursor self (v : Cursor.t) : t P :=
  let 'Build a _ c d e f g h i j k := self in Build a v c d e f g h i j k.

Definition set_current_row self (v : Z) : t P :=
  let 'Build a b _ d e f g h i j k := self in Build a b v d e f g h i j k.

Definition set_current_col self (v : Z) : t P :=
  let 'Build a b c _ e f g h i j k := self in Build a b c v e f g h i j k.

Definition set_overflow self (v : bool) : t P :=
  let 'Build a b c d _ f g h i j k := self in Build a b c d v f g h i j k.

Definition set_scroll_area self (v : ScrollArea.t) : t P :=
  let 'Build a b c d e _ g h i j k := self in Build a b c d e v g h i j k.

Definition set__bottom_row_allowed self (v : bool) : t P :=
  let 'Build a b c d e f _ h i j k := self in Build a b c d e f v h i j k.

Definition set__apage self (v : P) : t P :=
  let 'Build a b c d e f g h i j _ := self in Build a b c d e f g h i j v.

(** *** Basic text buffer operations *)

Definition set_wrap self (row : Z) (wrap : bool) : t P :=
  set__apage self (TextPage.set_wrap (_apage self) row wrap).

Definition wraps self (row : Z) : bool :=
  TextPage.wraps (_apage self) row.

Definition set_row_length self (row length : Z) : t P :=
  set__apage self (TextPage.set_row_length (_apage self) row length).

Definition row_length self (row : Z) : Z :=
  TextPage.row_length (_apage self) row.

(** *** Cursor position *)

(** [_move_cursor]: in text mode the cursor takes the width and the
    attribute of the new location. *)
Definition _move_cursor self (row col : Z) : t P :=
  let self := set_current_col (set_current_row self row) col in
  if is_text_mode (mode self) then
    let width := TextPage.get_charwidth (_apage self) row col in
    let attr := TextPage.get_attr (_apage self) row col in
    set__cursor self (Cursor.move (_cursor self) row col (Some attr) (Some width))
  else
    set__cursor self (Cursor.move (_cursor self) row col None None).

(** *** Scrolling *)

(** [scroll]: scroll the scroll region up by one row, starting at
    [from_row] ([None]: the top of the scroll area). *)
Definition scroll self (from_row : option Z) : t P :=
  let from_row :=
    match from_row with
    | None => ScrollArea.top (scroll_area self)
    | Some r => r
    end in
  let self := set__apage self
    (TextPage.scroll_up (_apage self) from_row
       (ScrollArea.bottom (scroll_area self)) (_attr self)) in
  if current_row self >? from_row then
    _move_cursor self (current_row self - 1) (current_col self)
  else self.

(** [scroll_down]: scroll the scroll region down by one row, starting at
    [from_row]. *)
Definition scroll_down self (from_row : Z) : t P :=
  let self := set__apage self
    (TextPage.scroll_down (_apage self) from_row
       (ScrollArea.bottom (scroll_area self)) (_attr self)) in
  if current_row self >=? from_row then
    _move_cursor self (current_row self + 1) (current_col self)
  else self.

(** [check_pos]: check if we have crossed the screen boundaries and move
    as needed; returns whether the position is unchanged. *)
Definition check_pos self (scroll_ok : bool) : t P * bool :=
  let oldrow := current_row self in
  let oldcol := current_col self in
  let check_bounds self :=
    (* see if we need to move to the next row *)
    let self :=
      if current_col self >? width (mode self) then
        if (current_row self <? ScrollArea.bottom (scroll_area self)) || scroll_ok then
          (* either we don't need to scroll, or we're allowed to *)
          let self := set_current_col self (current_col self - width (mode self)) in
          set_current_row self (current_row self + 1)
        else
          (* we can't scroll, so we just stop at the right border *)
          set_current_col self (width (mode self))
      (* see if we need to move a row up *)
      else if current_col self <? 1 then
        if current_row self >? ScrollArea.top (scroll_area self) then
          let self := set_current_col self (current_col self + width (mode self)) in
          set_current_row self (current_row self - 1)
        else
          set_current_col self 1
      else self in
    (* see if we need to scroll *)
    let self :=
      if current_row self >? ScrollArea.bottom (scroll_area self) then
        let self := if scroll_ok then scroll self None else self in
        set_current_row self (ScrollArea.bottom (scroll_area self))
      else if current_row self <? ScrollArea.top (scroll_area self) then
        set_current_row self (ScrollArea.top (scroll_area self))
      else self in
    let self := _move_cursor self (current_row self) (current_col self) in
    (* signal position change *)
    (self, (current_row self =? oldrow) && (current_col self =? oldcol)) in
  if _bottom_row_allowed self then
    if current_row self =? height (mode self) then
      let self := set_current_col self (Z.min (width (mode self)) (current_col self)) in
      let self :=
        if current_col self <? 1 then set_current_col self (current_col self + 1)
        else self in
      let self := _move_cursor self (current_row self) (current_col self) in
      (self, current_col self =? oldcol)
    else
      (* if row > height, we also end up here *)
      check_bounds (set__bottom_row_allowed self false)
  else check_bounds self.

(** [set_pos]: set the current position. *)
Definition set_pos self (to_row to_col : Z) (scroll_ok : bool) : t P :=
  let self := set_overflow self false in
  let self := set_current_col (set_current_row self to_row) to_col in
  (* this may alter current_row, current_col *)
  fst (check_pos self scroll_ok).

(** [incr_pos]: increase the current position by a char width. *)
Definition incr_pos self : t P :=
  let step := TextPage.get_charwidth (_apage self) (current_row self) (current_col self) in
  (* on a trail byte: go just one to the right *)
  let step := if step =? 0 then 1 else step in
  set_pos self (current_row self) (current_col self + step) false.

(** [decr_pos]: decrease the current position by a char width. *)
Definition decr_pos self : t P :=
  (* check width of cell to the left *)
  let width := TextPage.get_charwidth (_apage self) (current_row self) (current_col self - 1) in
  (* previous is trail byte: go two to the left; lead byte: three *)
  let step :=
    if width =? 0 then 2
    else if width =? 2 then 3
    else 1 in
  set_pos self (current_row self) (current_col self - step) false.

(** [_check_wrap]: wrap if we need to. *)
Definition _check_wrap self (do_scroll_down : bool) : t P :=
  if current_col self >? width (mode self) then
    if current_row self <? height (mode self) then
      let self :=
        if do_scroll_down then
          (* scroll down (make space by shifting the next rows down) *)
          if current_row self <? ScrollArea.bottom (scroll_area self) then
            scroll_down self (current_row self + 1)
          else self
        else self in
      (* wrap line *)
      let self := set_wrap self (current_row self) true in
      (* move cursor and reset cursor attribute *)
      _move_cursor self (current_row self + 1) 1
    else
      set_current_col self (width (mode self))
  else self.

(** [write_char]: put one character at the current position. *)
Definition write_char self (char : byte) (do_scroll_down : bool) : t P :=
  (* check if scroll & repositioning needed *)
  let self :=
    if overflow self then
      set_overflow (set_current_col self (current_col self + 1)) false
    else self in
  (* see if we need to wrap and scroll down *)
  let self := _check_wrap self do_scroll_down in
  (* move cursor and see if we need to scroll up *)
  let self := fst (check_pos self true) in
  (* put the character *)
  let self := set__apage self
    (TextPage.put_char_attr (_apage self) (current_row self) (current_col self)
       char (_attr self) true) in
  (* move cursor. if on col 80, only move cursor to the next row
     when the char is printed *)
  let self :=
    if current_col self <? width (mode self) then
      set_current_col self (current_col self + 1)
    else set_overflow self true in
  (* move cursor and see if we need to scroll up *)
  fst (check_pos self true).

(** *** Console operations: delete and insert *)

(** [_delete_at]: delete the halfwidth character at the given position.
    The recursion goes down the rows; [fuel] bounds its depth, and [None]
    is the result when it runs out. *)
Fixpoint _delete_at (fuel : nat) self (row col : Z) (remove_depleted : bool)
    : option (t P) :=
  match fuel with
  | O => None
  | S fuel =>
    let delete self wrap_char_attr :=
      set__apage self
        (TextPage.delete_char_attr (_apage self) row col (_attr self) wrap_char_attr) in
    if negb (wraps self row) then
      (* case 0b *)
      if col >? row_length self row then Some self
      else
        (* case 0a *)
        let self := delete self None in
        (* if the row is depleted, drop it and scroll up from below *)
        if remove_depleted && (row_length self row =? 0) then
          Some (scroll self (Some row))
        else Some self
    else if row_length self row =? width (mode self) then
      (* case 1 *)
      let wrap_char_attr :=
        Some (TextPage.get_char (_apage self) (row + 1) 0,
              TextPage.get_attr (_apage self) (row + 1) 0) in
      let wrap_char_attr :=
        if row_length self (row + 1) =? 0 then None else wrap_char_attr in
      let self := delete self wrap_char_attr in
      _delete_at fuel self (row + 1) 1 true
    else if col <? row_length self row then
      (* case 2a *)
      Some (delete self None)
    else if remove_depleted && (col =? row_length self row) then
      (* case 2b (ii) *)
      Some (delete self None)
    else if remove_depleted && (row_length self row =? 0) then
      (* case 2b (iii) *)
      Some (scroll self (Some row))
    else
      (* case 2b (i) perform multi_character delete by looping single chars *)
      (fix loop (newcols : list Z) self : option (t P) :=
         match newcols with
         | [] => Some self
         | newcol :: newcols =>
           if row_length self (row + 1) =? 0 then Some self
           else
             let wrap_char := TextPage.get_char (_apage self) (row + 1) 0 in
             let self := set__apage self
               (TextPage.put_char_attr (_apage self) row newcol wrap_char
                  (_attr self) true) in
             match _delete_at fuel self (row + 1) 1 true with
             | Some self => loop newcols self
             | None => None
             end
         end) (seqZ col (width (mode self) + 1 - col)) self
  end.

(** [_insert_at]: insert one halfwidth character at the given position;
    returns whether the character found a place.  [fuel] as above. *)
Fixpoint _insert_at (fuel : nat) self (row col : Z) (c : byte) (attr : Z)
    : option (t P * bool) :=
  match fuel with
  | O => None
  | S fuel =>
    if row_length self row <? width (mode self) then
      (* insert the new char and ignore what drops off at the end *)
      let self := set__apage self
        (fst (TextPage.insert_char_attr (_apage self) row col c attr)) in
      (* the insert has now filled the row and we used to be a row
         ending in LF: scroll and continue into the new row *)
      let self :=
        if wraps self row && (row_length self row =? width (mode self)) then
          scroll_down self (row + 1)
        else self in
      Some (self, true)
    else
      (* if we're not a wrapping line, make space by scrolling and wrap
         into the new line *)
      let self :=
        if negb (wraps self row) && (row <? ScrollArea.bottom (scroll_area self)) then
          set_wrap (scroll_down self (row + 1)) row true
        else self in
      let push self row :=
        let '(page, popped_char) :=
          TextPage.insert_char_attr (_apage self) row col c attr in
        (* insert the character in the next row *)
        _insert_at fuel (set__apage self page) (row + 1) 1 popped_char attr in
      if row >=? ScrollArea.bottom (scroll_area self) then
        (* once the end of the line hits the bottom, start scrolling the
           start of the line up *)
        let start := TextPage.find_start_of_line (_apage self) (current_row self) in
        (* if we hit the top of the screen, stop inserting & drop chars *)
        if start <=? ScrollArea.top (scroll_area self) then Some (self, false)
        else
          (* scroll up and adjust working row number *)
          push (scroll self None) (row - 1)
      else push self row
  end.

(** *** Text screen callbacks *)

(** [locate_]: LOCATE, set cursor position, shape and visibility.  The
    arguments arrive converted to integers, [None] for an omitted one. *)
Definition locate_ (args : list (option Z)) : M (t P) unit :=
  match args ++ replicate (5 - length args) None with
  | [row; col; cursor; start; stop] =>
    self ← get_self;
    let row := default (current_row self) row in
    let col := default (current_col self) col in
    error.throw_if ((row =? height (mode self)) && BottomBar.visible (_bottom_bar self));;
    (if ScrollArea.active (scroll_area self) then
       error.range_check (ScrollArea.top (scroll_area self))
         (ScrollArea.bottom (scroll_area self)) [Some row]
     else
       error.range_check 1 (height (mode self)) [Some row]);;
    error.range_check 1 (width (mode self)) [Some col];;
    (if row =? height (mode self) then
       (* temporarily allow writing on last row *)
       update (fun self => set__bottom_row_allowed self true)
     else mret tt);;
    update (fun self => set_pos self row col false);;
    match cursor with
    | Some cursor =>
      error.range_check 0 (if _tandytext self then 255 else 1) [Some cursor];;
      (* set cursor visibility *)
      update (fun self =>
        set__cursor self (Cursor.set_visibility (_cursor self) (negb (cursor =? 0))))
    | None => mret tt
    end;;
    error.throw_if (bool_decide (start = None) && negb (bool_decide (stop = None)));;
    let stop := match stop with None => start | Some _ => stop end in
    match start with
    | Some start =>
      error.range_check 0 31 [Some start; stop];;
      (* cursor shape only has an effect in text mode *)
      if is_text_mode (mode self) then
        update (fun self =>
          set__cursor self (Cursor.set_shape (_cursor self) start (default start stop)))
      else mret tt
    | None => mret tt
    end
  | _ => raise ValueError
  end.

(** [csrlin_]: CSRLIN, the current screen row (the integer handed to the
    value factory). *)
Definition csrlin_ self : Z :=
  if overflow self && (current_col self =? width (mode self))
     && (current_row self <? ScrollArea.bottom (scroll_area self))
  then
    (* in overflow position, return row+1 except on the last row *)
    current_row self + 1
  else current_row self.

(** [pos_]: POS, the current screen column. *)
Definition pos_ self : Z :=
  if (current_col self =? width (mode self)) && overflow self then
    (* in overflow position, return column 1 *)
    1
  else current_col self.

(** [view_print_]: VIEW PRINT, set the scroll region.  With exactly one
    argument omitted the comparison [stop < start] meets [None]. *)
Definition view_print_ (args : option Z * option Z) : M (t P) unit :=
  let '(start, stop) := args in
  match start, stop with
  | None, None =>
    update (fun self => set_scroll_area self (ScrollArea.unset (scroll_area self)))
  | _, _ =>
    self ← get_self;
    let max_line :=
      if _tandytext self && negb (BottomBar.visible (_bottom_bar self)) then 25
      else 24 in
    error.range_check 1 max_line [start; stop];;
    match start, stop with
    | Some start, Some stop =>
      error.throw_if (stop <? start);;
      update (fun self =>
        set_scroll_area self (ScrollArea.set (scroll_area self) start stop));;
      update (fun self => set_overflow self false);;
      update (fun self => _move_cursor self start 1)
    | _, _ => raise TypeError
    end
  end.

End Methods.

Section MoreMethods.

Context {P : Type} `{TextPage.Ops P} `{TextPage.MoreOps P}.
Implicit Type self : t P.

Definition set__bottom_bar self (v : BottomBar.t) : t P :=
  let 'Build a b c d e f g _ i j k := self in Build a b c d e f g v i j k.

Definition set_mode self (v : Mode) : t P :=
  let 'Build a b c d e f g h _ j k := self in Build a b c d e f g h v j k.

Definition set__attr self (v : Z) : t P :=
  let 'Build a b c d e f g h i _ k := self in Build a b c d e f g h i v k.

(** [set_attr]: set attribute. *)
Definition set_attr self (attr : Z) : t P := set__attr self attr.

(** *** Cursor position, continued *)

(** [move_to_end]: jump to the end of the logical line; follow wraps. *)
Definition move_to_end self : t P :=
  let row := TextPage.find_end_of_line (_apage self) (current_row self) in
  if row_length self row =? width (mode self) then
    let self := set_pos self row (row_length self row) true in
    set_overflow self true
  else
    set_pos self row (row_length self row + 1) true.

(** *** Clearing the screen *)

(** [_modify_attr_on_clear]: the context manager, as a function of the
    body of the [with] statement.  Except on pcjr and tandy the body runs
    with the foreground set to 7 and the background kept. *)
Definition _modify_attr_on_clear self (body : t P -> t P) : t P :=
  if negb (_tandytext self) then
    (* keep background, set foreground to 7 *)
    let attr_save := _attr self in
    let self := set_attr self (Z.lor (Z.land attr_save 0x70) 0x7) in
    let self := body self in
    set_attr self attr_save
  else body self.

(** [clear_view]: clear the scroll area. *)
Definition clear_view self : t P :=
  _modify_attr_on_clear self (fun self =>
    let self := set__apage self
      (TextPage.clear_rows (_apage self) (ScrollArea.top (scroll_area self))
         (ScrollArea.bottom (scroll_area self)) (_attr self)) in
    set_pos self (ScrollArea.top (scroll_area self)) 1 true).

(** [clear]: clear the screen. *)
Definition clear self : t P :=
  _modify_attr_on_clear self (fun self =>
    let self := set__apage self
      (TextPage.clear_rows (_apage self) 1 (height (mode self)) (_attr self)) in
    set_pos self 1 1 true).

(** *** Console operations, continued *)

Definition find_start_of_line self (row : Z) : Z :=
  TextPage.find_start_of_line (_apage self) row.

(** [delete_fullchar]: delete the character (half- or fullwidth) at the
    current position: once on a halfwidth character, twice on a lead byte,
    not at all on a trail byte.  [fuel] is handed to [_delete_at]. *)
Definition delete_fullchar (fuel : nat) self : option (t P) :=
  let width := TextPage.get_charwidth (_apage self) (current_row self) (current_col self) in
  match
    (if width >? 0 then _delete_at fuel self (current_row self) (current_col self) false
     else Some self)
  with
  | Some self =>
    if width =? 2 then _delete_at fuel self (current_row self) (current_col self) false
    else Some self
  | None => None
  end.

(** [insert_fullchars]: insert the characters one at a time at the cursor
    and move the cursor by one character for each that found a place.
    [fuel] is handed to [_insert_at]. *)
Fixpoint insert_fullchars (fuel : nat) self (sequence : list byte) : option (t P) :=
  match sequence with
  | [] => Some self
  | c :: sequence =>
    match _insert_at fuel self (current_row self) (current_col self) c (_attr self) with
    | Some (self, true) =>
      (* move cursor by one character *)
      insert_fullchars fuel (incr_pos self) sequence
    | Some (self, false) => insert_fullchars fuel self sequence
    | None => None
    end
  end.

(** [clear_from]: clear from the given position to the end of the logical
    line. *)
Definition clear_from self (srow scol : Z) : t P :=
  let end_row := TextPage.find_end_of_line (_apage self) srow in
  (* clear the first row of the logical line *)
  let self := set__apage self
    (TextPage.clear_row_from (_apage self) srow scol (_attr self)) in
  (* remove the additional rows in the logical line by scrolling up:
     rows end_row, end_row - 1, ..., srow + 1 *)
  let self :=
    foldl (fun self row => scroll self (Some row)) self
          (reverse (seqZ (srow + 1) (end_row - srow))) in
  set_pos self srow scol true.

(** [line_feed]: move the remainder of the line to the next row and
    wrap. *)
Definition line_feed (fuel : nat) self : option (t P) :=
  if current_col self <? row_length self (current_row self) then
    (* insert characters, preserving cursor position *)
    let cursor := (current_row self, current_col self) in
    match
      insert_fullchars fuel self
        (replicate (Z.to_nat (width (mode self) - current_col self + 1)) " "%byte)
    with
    | Some self =>
      let self := set_pos self (fst cursor) (snd cursor) false in
      (* adjust end of line and wrapping flag *)
      let self := set_row_length self (current_row self) (current_col self - 1) in
      Some (set_wrap self (current_row self) true)
    | None => None
    end
  else
    (* find last row in logical line *)
    let end_row := TextPage.find_end_of_line (_apage self) (current_row self) in
    let open_next_row self :=
      let self :=
        if current_row self <? height (mode self) then
          scroll_down self (current_row self + 1)
        else self in
      (* ensure the current row now wraps *)
      let self := set_wrap self (current_row self) true in
      (* cursor moves to start of next line *)
      set_pos self (current_row self + 1) 1 true in
    (* if the logical line hits the bottom, start scrolling up to make
       space until it also hits the top; then do nothing *)
    if end_row >=? ScrollArea.bottom (scroll_area self) then
      let start := TextPage.find_start_of_line (_apage self) (current_row self) in
      if start >? ScrollArea.top (scroll_area self) then
        Some (open_next_row (scroll self None))
      else Some self
    else Some (open_next_row self).

(** [clear_line]: clear the whole logical line, leaving the prompt. *)
Definition clear_line self (the_row from_col : Z) : t P :=
  clear_from self (TextPage.find_start_of_line (_apage self) the_row) from_col.

(** [backspace]: delete the character to the left. *)
Definition backspace (fuel : nat) self (prompt_row furthest_left : Z) : option (t P) :=
  let row := current_row self in
  let col := current_col self in
  let start_row := TextPage.find_start_of_line (_apage self) row in
  (* don't backspace through prompt or through start of logical line *)
  let self :=
    if (negb (col =? furthest_left) || negb (row =? prompt_row))
       && ((col >? 1) || (row >? start_row))
    then decr_pos self
    else self in
  delete_fullchar fuel self.

(** [tab]: jump to the next 8-position tab stop. *)
Definition tab (fuel : nat) self (overwrite : bool) : option (t P) :=
  let newcol := 9 + 8 * ((current_col self - 1) / 8) in
  if overwrite then
    Some (set_pos self (current_row self) newcol false)
  else
    insert_fullchars fuel self
      (replicate (Z.to_nat (newcol - current_col self)) " "%byte).

(** The two scanning loops of [skip_word_right]: from [(crow, ccol)] go
    right, and on to the next row at the right border, until the character
    under the scan passes the test [found]; [Some None] is the [return] of
    the loop at the bottom of the scroll area ("nothing found").  [fuel]
    bounds the number of iterations, [None] is the result when it runs
    out. *)
Fixpoint _skip_right (fuel : nat) (found : byte -> bool) self (crow ccol : Z)
    : option (option (Z * Z)) :=
  match fuel with
  | O => None
  | S fuel =>
    let c := TextPage.get_char (_apage self) crow ccol in
    if found c then Some (Some (crow, ccol))
    else
      let ccol := ccol + 1 in
      if ccol >? width (mode self) then
        if crow >=? ScrollArea.bottom (scroll_area self) then
          (* nothing found *)
          Some None
        else _skip_right fuel found self (crow + 1) 1
      else _skip_right fuel found self crow ccol
  end.

(** [skip_word_right]: skip one word to the right.  [ALPHANUMERIC] is the
    membership test of the constant of that name of the tokens module. *)
Definition skip_word_right (ALPHANUMERIC : byte -> bool) (fuel : nat) self
    : option (t P) :=
  (* find non-alphanumeric chars *)
  match _skip_right fuel (fun c => negb (ALPHANUMERIC c)) self
          (current_row self) (current_col self) with
  | Some (Some (crow, ccol)) =>
    (* find alphanumeric chars *)
    match _skip_right fuel ALPHANUMERIC self crow ccol with
    | Some (Some (crow, ccol)) => Some (set_pos self crow ccol true)
    | Some None => Some self
    | None => None
    end
  | Some None => Some self
  | None => None
  end.

(** The first loop of [skip_word_left]: step left, and on to the row above
    at the left border, until an alphanumeric character is under the scan;
    [Some None] is the [return] at the top of the scroll area. *)
Fixpoint _skip_left (fuel : nat) (ALPHANUMERIC : byte -> bool) self (crow ccol : Z)
    : option (option (Z * Z)) :=
  match fuel with
  | O => None
  | S fuel =>
    let ccol := ccol - 1 in
    if ccol <? 1 then
      if crow <=? ScrollArea.top (scroll_area self) then
        (* not found *)
        Some None
      else
        let crow := crow - 1 in
        let ccol := width (mode self) in
        if ALPHANUMERIC (TextPage.get_char (_apage self) crow ccol)
        then Some (Some (crow, ccol))
        else _skip_left fuel ALPHANUMERIC self crow ccol
    else
      if ALPHANUMERIC (TextPage.get_char (_apage self) crow ccol)
      then Some (Some (crow, ccol))
      else _skip_left fuel ALPHANUMERIC self crow ccol
  end.

(** The second loop of [skip_word_left]: step left while the character
    reached is alphanumeric; the result is [(last_row, last_col)], the
    position before the last step. *)
Fixpoint _skip_left_word (fuel : nat) (ALPHANUMERIC : byte -> bool) self (crow ccol : Z)
    : option (Z * Z) :=
  match fuel with
  | O => None
  | S fuel =>
    let last := (crow, ccol) in
    let ccol := ccol - 1 in
    if ccol <? 1 then
      if crow <=? ScrollArea.top (scroll_area self) then Some last
      else
        let crow := crow - 1 in
        let ccol := width (mode self) in
        if negb (ALPHANUMERIC (TextPage.get_char (_apage self) crow ccol))
        then Some last
        else _skip_left_word fuel ALPHANUMERIC self crow ccol
    else
      if negb (ALPHANUMERIC (TextPage.get_char (_apage self) crow ccol))
      then Some last
      else _skip_left_word fuel ALPHANUMERIC self crow ccol
  end.

(** [skip_word_left]: skip one word to the left. *)
Definition skip_word_left (ALPHANUMERIC : byte -> bool) (fuel : nat) self
    : option (t P) :=
  (* find alphanumeric chars *)
  match _skip_left fuel ALPHANUMERIC self (current_row self) (current_col self) with
  | Some (Some (crow, ccol)) =>
    (* find non-alphanumeric chars *)
    match _skip_left_word fuel ALPHANUMERIC self crow ccol with
    | Some (last_row, last_col) => Some (set_pos self last_row last_col true)
    | None => None
    end
  | Some None => Some self
  | None => None
  end.

(** *** Bottom bar *)

(** The last character of the decimal numeral of a positive number,
    [(b'%d' % (n,))[-1:]]. *)
Definition last_digit (n : Z) : list byte :=
  [nth (Z.to_nat (n mod 10))
       ["0"; "1"; "2"; "3"; "4"; "5"; "6"; "7"; "8"; "9"]%byte "0"%byte].

(** The loop of [update_bar] from key number [i] (counted from 0) on; the
    second component is [false] when a [write] raised [IndexError]. *)
Fixpoint _update_bar_from (bar : BottomBar.t) (i : Z) (descriptions : list (list byte))
    : BottomBar.t * bool :=
  match descriptions with
  | [] => (bar, true)
  | text :: descriptions =>
    let kcol := 1 + 8 * i in
    match BottomBar.write bar (last_digit (i + 1)) kcol false with
    | (bar, true) =>
      match BottomBar.write bar text (kcol + 1) true with
      | (bar, true) => _update_bar_from bar (i + 1) descriptions
      | (bar, false) => (bar, false)
      end
    | (bar, false) => (bar, false)
    end
  end.

(** [update_bar]: update the key descriptions in the bottom bar. *)
Definition update_bar self (descriptions : list (list byte)) : result (t P) unit :=
  let self := set__bottom_bar self (BottomBar.clear (_bottom_bar self)) in
  match _update_bar_from (_bottom_bar self) 0 descriptions with
  | (bar, true) => Done tt (set__bottom_bar self bar)
  | (bar, false) => Failed IndexError (set__bottom_bar self bar)
  end.

(** [redraw_bar]: redraw the bottom bar if visible, clear it if not. *)
Definition redraw_bar self : result (t P) unit :=
  let key_row := height (mode self) in
  let self := set__apage self
    (TextPage.clear_rows (_apage self) key_row key_row (_attr self)) in
  let reverse_attr :=
    if negb (is_text_mode (mode self)) then _attr self
    else if Z.land (Z.shiftr (_attr self) 4) 0x7 =? 0 then 0x70
    else 0x07 in
  if BottomBar.visible (_bottom_bar self) then
    (* always show only complete 8-character cells *)
    (fix loop (cols : list Z) self : result (t P) unit :=
       match cols with
       | [] => Done tt (set_row_length self (height (mode self)) (width (mode self)))
       | col :: cols =>
         match BottomBar.get_char_reverse (_bottom_bar self) col with
         | Some (char, reverse) =>
           let attr := if reverse : bool then reverse_attr else _attr self in
           loop cols
             (set__apage self
                (TextPage.put_char_attr_default (_apage self) key_row (col + 1) char attr))
         | None => Failed IndexError self
         end
       end) (seqZ 0 (width (mode self) / 8 * 8)) self
  else Done tt self.

(** [show_bar]: switch bottom bar visibility. *)
Definition show_bar self (on : bool) : result (t P) unit :=
  (* tandy can have VIEW PRINT 1 to 25, should raise IFC in that case *)
  if on && (ScrollArea.bottom (scroll_area self) =? height (mode self)) then
    Failed (Exception IFC) self
  else
    let was_visible := BottomBar.visible (_bottom_bar self) in
    let self := set__bottom_bar self
      (BottomBar.Build (BottomBar._contents (_bottom_bar self)) on) in
    if negb (Bool.eqb (BottomBar.visible (_bottom_bar self)) was_visible) then
      redraw_bar self
    else Done tt self.

(** [init_mode]: reset the text screen for a new video mode.  The page
    list and the page numbers are not kept in the record; the active page
    is [pages[apagenum]]. *)
Definition init_mode self (new_mode : Mode) (pages : list P) (attr vpagenum apagenum : Z)
    : result (t P) unit :=
  let self := set_mode self new_mode in
  let self := set__attr self attr in
  match py_index (length pages) apagenum ≫= fun k => pages !! k with
  | Some page =>
    let self := set__apage self page in
    (* redraw key line *)
    match redraw_bar self with
    | Done _ self =>
      (* initialise text viewport & move cursor home *)
      let self := set_scroll_area self
        (ScrollArea.init_mode (scroll_area self) (mode self)) in
      Done tt (set_pos self (ScrollArea.top (scroll_area self)) 1 true)
    | Failed e self => Failed e self
    end
  | None => Failed IndexError self
  end.

(** *** Text screen callbacks, continued *)

(** [screen_fn_]: SCREEN, the character or the attribute at a location.
    The arguments arrive converted to integers; the third is [None] when
    omitted. *)
Definition screen_fn_ (row col : Z) (want_attr : option Z) : M (t P) Z :=
  match want_attr with
  | Some want_attr => error.range_check 0 255 [Some want_attr]
  | None => mret tt
  end;;
  self ← get_self;
  error.range_check 0 (height (mode self)) [Some row];;
  error.range_check 0 (width (mode self)) [Some col];;
  error.throw_if ((row =? 0) && (col =? 0));;
  let row := if row =? 0 then 1 else row in
  let col := if col =? 0 then 1 else col in
  (if ScrollArea.active (scroll_area self) then
     error.range_check (ScrollArea.top (scroll_area self))
       (ScrollArea.bottom (scroll_area self)) [Some row]
   else mret tt);;
  if match want_attr with Some w => negb (w =? 0) | None => false end then
    if negb (is_text_mode (mode self)) then mret 0
    else mret (TextPage.get_attr (_apage self) row col)
  else mret (TextPage.get_byte (_apage self) row col).

End MoreMethods.

End TextScreen.

(** ** A text page *)

Module TextRow.

(** Modelled from the spec: one row of the missing text page class, with
    what the spec lists as its storage ("char/attr/wrap/row-length"): the
    cells, the logical length and whether the row is connected to the
    next. *)
Record t : Type := Build {
  chars : list byte;
  attrs : list Z;
  length : Z;
  wrap : bool
}.

Definition blank (width attr : Z) : t :=
  Build (replicate (Z.to_nat width) " "%byte) (replicate (Z.to_nat width) attr)
        0 false.

(** Modelled from the spec: [put_char_attr] on one row.  Overwrite column
    [col]; with [adjust_end] the logical end moves out to the column
    written. *)
Definition put (r : t) (col : Z) (c : byte) (attr : Z) (adjust_end : bool) : t :=
  if (1 <=? col) then
    Build (<[Z.to_nat (col - 1) := c]> (chars r))
          (<[Z.to_nat (col - 1) := attr]> (attrs r))
          (if adjust_end then Z.max (length r) col else length r)
          (wrap r)
  else r.

(** Modelled from the spec: [delete_char_attr] on one row ("delete in
    place or no-op past logical end", "pull the first character of the next
    row into the vacated tail slot").
    Delete column [col]: nothing past the logical end; otherwise the cells
    up to the logical end move one to the left and the cell at the logical
    end is filled, with the given character and attribute (the length then
    stays) or with a blank (the length drops by one).  The cells redrawn
    take [attr]. *)
Definition delete (r : t) (col attr : Z) (fill : option (byte * Z)) : t :=
  if (1 <=? col) && (col <=? length r) then
    let n := Z.to_nat (length r) in
    let k := Z.to_nat (col - 1) in
    let fill_char := match fill with Some (c, _) => c | None => " "%byte end in
    let fill_attr := match fill with Some (_, a) => a | None => attr end in
    Build (take k (chars r) ++ drop (S k) (take n (chars r)) ++ [fill_char] ++ drop n (chars r))
          (take k (attrs r) ++ replicate (n - S k) attr ++ [fill_attr] ++ drop n (attrs r))
          (match fill with Some _ => length r | None => length r - 1 end)
          (wrap r)
  else r.

(** Modelled from the spec: [insert_char_attr] on one row ("inserts and
    shifts remainder right", returning the popped character).
    Insert at column [col]: the cells from [col] on move one to the right,
    the last cell drops off and is returned; the logical end moves one to
    the right (or out to [col]), up to the width.  The cells redrawn take
    [attr]. *)
Definition insert (width : Z) (r : t) (col : Z) (c : byte) (attr : Z) : t * byte :=
  if (1 <=? col) && (col <=? width) then
    let w := Z.to_nat width in
    let k := Z.to_nat (col - 1) in
    (Build (take w (take k (chars r) ++ [c] ++ drop k (chars r)))
           (take w (take k (attrs r) ++ replicate (w - k) attr))
           (Z.min width (Z.max (length r + 1) col))
           (wrap r),
     default " "%byte (chars r !! (w - 1)%nat))
  else (r, c).

End TextRow.

Module PageModel.

(** Modelled from the spec: the class of the text pages (the "TextPage"
    collaborator) is not among the sources; the spec names its methods and
    describes their effect where the screen's algorithms use them: insert
    "shifts remainder right", delete works "in place" up to the logical end
    or pulls "the first character of the next row into the vacated tail
    slot", scrolling shifts the rows of a span and clears the vacated row.
    The model is a single-byte page: every cell is one halfwidth
    character.  A row or column that is not on the page is left alone by
    the writing methods and reads as a blank, attribute 0, length 0, not
    wrapping. *)
Record t : Type := Build {
  _width : Z;
  _height : Z;
  _rows : list TextRow.t
}.

Definition __init__ (attr width height : Z) : t :=
  Build width height (replicate (Z.to_nat height) (TextRow.blank width attr)).

Definition on_page (p : t) (row : Z) : bool :=
  (1 <=? row) && (row <=? _height p).

Definition get_row (p : t) (row : Z) : TextRow.t :=
  if on_page p row then
    default (TextRow.blank (_width p) 0) (_rows p !! Z.to_nat (row - 1))
  else TextRow.blank (_width p) 0.

Definition set_row (p : t) (row : Z) (r : TextRow.t) : t :=
  if on_page p row then
    Build (_width p) (_height p) (<[Z.to_nat (row - 1) := r]> (_rows p))
  else p.

Definition put_char_attr (p : t) (row col : Z) (c : byte) (attr : Z)
    (adjust_end : bool) : t :=
  if (col <=? _width p) then
    set_row p row (TextRow.put (get_row p row) col c attr adjust_end)
  else p.

Definition delete_char_attr (p : t) (row col attr : Z)
    (wrap_char_attr : option (byte * Z)) : t :=
  set_row p row (TextRow.delete (get_row p row) col attr wrap_char_attr).

Definition insert_char_attr (p : t) (row col : Z) (c : byte) (attr : Z) : t * byte :=
  let '(r, popped) := TextRow.insert (_width p) (get_row p row) col c attr in
  (set_row p row r, popped).

(** Modelled from the spec: [scroll_up] ("shifts all rows in [from_row,
    bottom] up by one, clearing the vacated bottom row").  Rows
    [from_row..to_row] move up by one; row [from_row] is lost and row
    [to_row] is cleared; an empty span is left alone. *)
Definition scroll_up (p : t) (from_row to_row attr : Z) : t :=
  if (1 <=? from_row) && (from_row <=? to_row) && (to_row <=? _height p) then
    let a := Z.to_nat (from_row - 1) in
    let b := Z.to_nat to_row in
    Build (_width p) (_height p)
      (take a (_rows p) ++ drop (S a) (take b (_rows p))
         ++ [TextRow.blank (_width p) attr] ++ drop b (_rows p))
  else p.

(** Modelled from the spec: [scroll_down] ("shifting [from_row, bottom]
    down, clearing the vacated top row of that span").  Rows
    [from_row..to_row] move down by one; row [to_row] is lost and row
    [from_row] is cleared; an empty span is left alone.  The new row
    continues the logical line of the row above it: it wraps when that row
    wraps (in [_insert_at]: "the newly added row should wrap -
    TextBuffer.scroll_down takes care of this"). *)
Definition scroll_down (p : t) (from_row to_row attr : Z) : t :=
  if (1 <=? from_row) && (from_row <=? to_row) && (to_row <=? _height p) then
    let a := Z.to_nat (from_row - 1) in
    let b := Z.to_nat to_row in
    let new_row :=
      TextRow.Build (TextRow.chars (TextRow.blank (_width p) attr))
        (TextRow.attrs (TextRow.blank (_width p) attr)) 0
        (TextRow.wrap (get_row p (from_row - 1))) in
    Build (_width p) (_height p)
      (take a (_rows p) ++ [new_row] ++ drop a (take (b - 1) (_rows p))
         ++ drop b (_rows p))
  else p.

Definition set_wrap (p : t) (row : Z) (wrap : bool) : t :=
  let r := get_row p row in
  set_row p row (TextRow.Build (TextRow.chars r) (TextRow.attrs r) (TextRow.length r) wrap).

Definition wraps (p : t) (row : Z) : bool := TextRow.wrap (get_row p row).

Definition set_row_length (p : t) (row length : Z) : t :=
  let r := get_row p row in
  set_row p row (TextRow.Build (TextRow.chars r) (TextRow.attrs r) length (TextRow.wrap r)).

Definition row_length (p : t) (row : Z) : Z := TextRow.length (get_row p row).

Definition get_char (p : t) (row col : Z) : byte :=
  if (1 <=? col) then
    default " "%byte (TextRow.chars (get_row p row) !! Z.to_nat (col - 1))
  else " "%byte.

Definition get_attr (p : t) (row col : Z) : Z :=
  if (1 <=? col) then
    default 0 (TextRow.attrs (get_row p row) !! Z.to_nat (col - 1))
  else 0.

Definition get_charwidth (p : t) (row col : Z) : Z := 1.

(** The first row of the logical line through [row]: go up while the row
    above wraps. *)
Fixpoint find_start_from (p : t) (above : nat) : Z :=
  match above with
  | O => 1
  | S n => if wraps p (Z.of_nat (S n)) then find_start_from p n else Z.of_nat (S n) + 1
  end.

Definition find_start_of_line (p : t) (row : Z) : Z :=
  find_start_from p (Z.to_nat (row - 1)).

(** The last row of the logical line through [row]: go down while the
    row wraps, at most to the last row. *)
Fixpoint find_end_from (p : t) (below : nat) (row : Z) : Z :=
  match below with
  | O => row
  | S n => if wraps p row then find_end_from p n (row + 1) else row
  end.

Definition find_end_of_line (p : t) (row : Z) : Z :=
  find_end_from p (Z.to_nat (_height p - row)) row.

#[global] Instance ops : TextPage.Ops t := {|
  TextPage.put_char_attr := put_char_attr;
  TextPage.delete_char_attr := delete_char_attr;
  TextPage.insert_char_attr := insert_char_attr;
  TextPage.scroll_up := scroll_up;
  TextPage.scroll_down := scroll_down;
  TextPage.set_wrap := set_wrap;
  TextPage.wraps := wraps;
  TextPage.set_row_length := set_row_length;
  TextPage.row_length := row_length;
  TextPage.get_char := get_char;
  TextPage.get_attr := get_attr;
  TextPage.get_charwidth := get_charwidth;
  TextPage.find_start_of_line := find_start_of_line;
  TextPage.find_end_of_line := find_end_of_line
|}.

(** A page is well formed when it has [_height] rows of [_width] cells. *)
Definition wf (p : t) : Prop :=
  1 <= _width p /\ 0 <= _height p /\
  Datatypes.length (_rows p) = Z.to_nat (_height p) /\
  Forall (fun r => Datatypes.length (TextRow.chars r) = Z.to_nat (_width p)) (_rows p).


(** Modelled from the spec: [clear_rows(start, stop, attr)] of the missing
    page class: the rows [start..stop] that are on the page become blank
    rows of the given attribute. *)
Definition clear_rows (p : t) (start stop attr : Z) : t :=
  Build (_width p) (_height p)
    (imap (fun i r =>
       if (start <=? Z.of_nat i + 1) && (Z.of_nat i + 1 <=? stop)
       then TextRow.blank (_width p) attr else r) (_rows p)).

(** Modelled from the spec: [clear_row_from(row, col, attr)] of the
    missing page class: the cells of the row from [col] on become blank
    with the given attribute, the logical end moves back to before [col]. *)
Definition clear_row_from (p : t) (row col attr : Z) : t :=
  let r := get_row p row in
  let k := Z.to_nat (col - 1) in
  let n := Datatypes.length (TextRow.chars r) in
  set_row p row
    (TextRow.Build (take k (TextRow.chars r) ++ replicate (n - k) " "%byte)
       (take k (TextRow.attrs r)
          ++ replicate (Datatypes.length (TextRow.attrs r) - k) attr)
       (Z.min (TextRow.length r) (Z.max 0 (col - 1)))
       (TextRow.wrap r)).

(** Modelled from the spec: [get_byte(row, col)] of the missing page
    class: the code of the character in the cell. *)
Definition get_byte (p : t) (row col : Z) : Z :=
  Z.of_N (Byte.to_N (get_char p row col)).

#[global] Instance more_ops : TextPage.MoreOps t := {|
  TextPage.clear_rows := clear_rows;
  TextPage.clear_row_from := clear_row_from;
  TextPage.get_byte := get_byte;
  TextPage.put_char_attr_default := fun p row col c attr =>
    put_char_attr p row col c attr false
|}.

End PageModel.

(** ** Predicates and states used in the statements *)

Section Predicates.

Context {P : Type} `{TextPage.Ops P}.
Implicit Type self : TextScreen.t P.

(** The stated precondition on the geometry: the scroll area lies on the
    screen and the screen has at least one column. *)
Definition geometry self : Prop :=
  1 <= ScrollArea.top (TextScreen.scroll_area self) /\
  ScrollArea.top (TextScreen.scroll_area self)
    <= ScrollArea.bottom (TextScreen.scroll_area self) /\
  ScrollArea.bottom (TextScreen.scroll_area self) <= height (TextScreen.mode self) /\
  1 <= width (TextScreen.mode self).

(** The cursor bounds: the column is on the screen, and the row is in the
    scroll area or, while the bottom row is allowed, on the last row. *)
Definition cursor_in_bounds self : Prop :=
  1 <= TextScreen.current_col self <= width (TextScreen.mode self) /\
  (ScrollArea.top (TextScreen.scroll_area self) <= TextScreen.current_row self
     <= ScrollArea.bottom (TextScreen.scroll_area self)
   \/ (TextScreen._bottom_row_allowed self = true /\
       TextScreen.current_row self = height (TextScreen.mode self))).

(** The columns from which [check_pos] reaches the bounds: at most one
    screen width off the screen, and not below 0 on the last row while the
    bottom row is allowed. *)
Definition col_within_reach self (col : Z) (row : Z) : Prop :=
  1 - width (TextScreen.mode self) <= col <= 2 * width (TextScreen.mode self) /\
  (TextScreen._bottom_row_allowed self = true ->
   row = height (TextScreen.mode self) -> 0 <= col).

(** The screen at the moment [write_char] puts its character: the first
    three statements of [write_char]. *)
Definition write_position self (do_scroll_down : bool) : TextScreen.t P :=
  let self :=
    if TextScreen.overflow self then
      TextScreen.set_overflow
        (TextScreen.set_current_col self (TextScreen.current_col self + 1)) false
    else self in
  let self := TextScreen._check_wrap self do_scroll_down in
  fst (TextScreen.check_pos self true).

(** What two screens share when only the cursor row and the page may
    differ. *)
Definition same_but_row_and_page (a b : TextScreen.t P) : Prop :=
  TextScreen.current_col a = TextScreen.current_col b /\
  TextScreen.overflow a = TextScreen.overflow b /\
  TextScreen._bottom_row_allowed a = TextScreen._bottom_row_allowed b /\
  TextScreen.scroll_area a = TextScreen.scroll_area b /\
  TextScreen._bottom_bar a = TextScreen._bottom_bar b /\
  TextScreen.mode a = TextScreen.mode b /\
  TextScreen._attr a = TextScreen._attr b /\
  TextScreen._tandytext a = TextScreen._tandytext b /\
  Cursor.visible (TextScreen._cursor a) = Cursor.visible (TextScreen._cursor b) /\
  Cursor.shape (TextScreen._cursor a) = Cursor.shape (TextScreen._cursor b).

(** The cursor object of [a] against that of [b] when a scroll has taken
    the screen from [b] to [a]: untouched where the row has stayed, and
    otherwise moved by [_move_cursor] to the new position, in text mode with
    the attribute and the width of the cell that the scrolled page has
    there. *)
Definition cursor_moved_with_row (a b : TextScreen.t P) : Prop :=
  if TextScreen.current_row a =? TextScreen.current_row b
  then TextScreen._cursor a = TextScreen._cursor b
  else
    TextScreen._cursor a =
      if is_text_mode (TextScreen.mode a) then
        Cursor.move (TextScreen._cursor b)
          (TextScreen.current_row a) (TextScreen.current_col a)
          (Some (TextPage.get_attr (TextScreen._apage a)
                   (TextScreen.current_row a) (TextScreen.current_col a)))
          (Some (TextPage.get_charwidth (TextScreen._apage a)
                   (TextScreen.current_row a) (TextScreen.current_col a)))
      else
        Cursor.move (TextScreen._cursor b)
          (TextScreen.current_row a) (TextScreen.current_col a) None None.

(** What the bounds read of a screen: the position, the bottom-row flag,
    the mode and the scroll area. *)
Definition placement self : Z * Z * bool * Mode * ScrollArea.t :=
  (TextScreen.current_row self, TextScreen.current_col self,
   TextScreen._bottom_row_allowed self, TextScreen.mode self,
   TextScreen.scroll_area self).

(** The placement of [a] is that of [b] but for the row, which scrolling
    may have taken up, though not above the top of the scroll area. *)
Definition placement_up_from (a b : TextScreen.t P) : Prop :=
  TextScreen.current_col a = TextScreen.current_col b /\
  TextScreen._bottom_row_allowed a = TextScreen._bottom_row_allowed b /\
  TextScreen.mode a = TextScreen.mode b /\
  TextScreen.scroll_area a = TextScreen.scroll_area b /\
  (TextScreen.current_row a = TextScreen.current_row b \/
   ScrollArea.top (TextScreen.scroll_area b) <= TextScreen.current_row a
     < TextScreen.current_row b).

(** While the bottom row is allowed, the scroll area reaches the row before
    the last (as it does unless [VIEW PRINT] has ended it higher up): a
    cursor that a scroll takes off the last row is then in the scroll
    area. *)
Definition bottom_row_adjoins self : Prop :=
  TextScreen._bottom_row_allowed self = true ->
  height (TextScreen.mode self) - 1 <= ScrollArea.bottom (TextScreen.scroll_area self).

(** The page hands out cell widths that the cursor can step by: 0 (a trail
    byte) up to the width of the screen, for every state of the page. *)
Definition charwidth_fits self : Prop :=
  forall (page : P) (row col : Z),
    0 <= TextPage.get_charwidth page row col <= width (TextScreen.mode self).

(** The last line [VIEW PRINT] accepts. *)
Definition max_line self : Z :=
  if TextScreen._tandytext self && negb (BottomBar.visible (TextScreen._bottom_bar self))
  then 25 else 24.

(** The row [locate_] works with: its first argument, or the current row
    when that is omitted. *)
Definition locate_row self (args : list (option Z)) : Z :=
  default (TextScreen.current_row self) (mjoin (args !! 0%nat)).

End Predicates.

(** The active page is well formed and as wide as the mode. *)
Definition page_fits (self : TextScreen.t PageModel.t) : Prop :=
  PageModel.wf (TextScreen._apage self) /\
  PageModel._width (TextScreen._apage self) = width (TextScreen.mode self).

(** The cells of a row behind its logical end are blank. *)
Definition blank_beyond_end (r : TextRow.t) (width : Z) : Prop :=
  drop (Z.to_nat (TextRow.length r)) (TextRow.chars r)
    = replicate (Z.to_nat (width - TextRow.length r)) " "%byte.

(** An 80 x 25 text mode and a screen in it as [__init__] and [init_mode]
    leave it: cursor at (1, 1), scroll area 1..24, blank page of attribute 7,
    bottom bar hidden. *)
Definition mode_80x25 : Mode :=
  {| width := 80; height := 25; is_text_mode := true |}.

Definition screen_80x25 : TextScreen.t PageModel.t :=
  TextScreen.Build false (Cursor.Build 1 1 7 1 true (0, 0)) 1 1 false
    (ScrollArea.init_mode (ScrollArea.__init__ mode_80x25) mode_80x25)
    false BottomBar.__init__ mode_80x25 7 (PageModel.__init__ 7 80 25).

(** The screen after [LOCATE 25, 80] with the key bar off: the cursor is on
    the last physical row, which [locate_] has allowed. *)
Definition screen_on_last_row : TextScreen.t PageModel.t :=
  match TextScreen.locate_ [Some 25; Some 80] screen_80x25 with
  | Returned _ self => self
  | Raised _ self => self
  end.

(** A 4 x 3 text mode and a screen in it after [VIEW PRINT 1 TO 2]: row 2,
    the bottom row of the scroll area, holds "abc" and is wrap-connected to
    row 3, which holds "xyz". *)
Definition mode_4x3 : Mode :=
  {| width := 4; height := 3; is_text_mode := true |}.

Definition screen_4x3 : TextScreen.t PageModel.t :=
  TextScreen.Build false (Cursor.Build 2 1 7 1 true (0, 0)) 2 1 false
    (ScrollArea.set (ScrollArea.__init__ mode_4x3) 1 2)
    false BottomBar.__init__ mode_4x3 7
    (PageModel.Build 4 3
       [TextRow.blank 4 7;
        TextRow.Build ["a"; "b"; "c"; " "]%byte [7; 7; 7; 7] 3 true;
        TextRow.Build ["x"; "y"; "z"; " "]%byte [7; 7; 7; 7] 3 false]).

(** The same mode with the whole screen as scroll area: row 1 holds "ab"
    with logical length 2 and a character left behind the logical end (as
    [set_row_length] leaves it when it shortens a row). *)
Definition screen_4x3_dirty : TextScreen.t PageModel.t :=
  TextScreen.Build false (Cursor.Build 1 1 7 1 true (0, 0)) 1 1 false
    (ScrollArea.set (ScrollArea.__init__ mode_4x3) 1 3)
    false BottomBar.__init__ mode_4x3 7
    (PageModel.Build 4 3
       [TextRow.Build ["a"; "b"; " "; "Z"]%byte [7; 7; 7; 7] 2 false;
        TextRow.blank 4 7;
        TextRow.blank 4 7]).

(** ** Predicates used in the further statements *)

Section MorePredicates.

Context {P : Type} `{TextPage.Ops P}.
Implicit Type self : TextScreen.t P.

(** What [set_pos] leaves alone when it does not scroll. *)
Definition same_but_cursor (a b : TextScreen.t P) : Prop :=
  TextScreen._apage a = TextScreen._apage b /\
  TextScreen.mode a = TextScreen.mode b /\
  TextScreen.scroll_area a = TextScreen.scroll_area b /\
  TextScreen._attr a = TextScreen._attr b /\
  TextScreen._bottom_bar a = TextScreen._bottom_bar b /\
  TextScreen._tandytext a = TextScreen._tandytext b /\
  Cursor.visible (TextScreen._cursor a) = Cursor.visible (TextScreen._cursor b) /\
  Cursor.shape (TextScreen._cursor a) = Cursor.shape (TextScreen._cursor b).

(** The object that a callback leaves behind, whether it returns or
    raises. *)
Definition outcome_state {S A : Type} (o : outcome S A) : S :=
  match o with
  | Returned _ s => s
  | Raised _ s => s
  end.

(** The position checks of [locate_]: not the last row while the key bar
    is shown, the row in the scroll area if one is set and on the screen
    otherwise, the column on the screen. *)
Definition locate_position_ok self (row col : Z) : Prop :=
  ~ (row = height (TextScreen.mode self) /\
     BottomBar.visible (TextScreen._bottom_bar self) = true) /\
  (if ScrollArea.active (TextScreen.scroll_area self)
   then ScrollArea.top (TextScreen.scroll_area self) <= row
          <= ScrollArea.bottom (TextScreen.scroll_area self)
   else 1 <= row <= height (TextScreen.mode self)) /\
  1 <= col <= width (TextScreen.mode self).

(** The checks of [locate_] on its cursor visibility and cursor shape
    arguments. *)
Definition locate_cursor_ok self (cursor start stop : option Z) : Prop :=
  match cursor with
  | Some v => 0 <= v <= (if TextScreen._tandytext self then 255 else 1)
  | None => True
  end /\
  match start, stop with
  | None, None => True
  | None, Some _ => False
  | Some a, None => 0 <= a <= 31
  | Some a, Some b => 0 <= a <= 31 /\ 0 <= b <= 31
  end.

(** An unset scroll area spans the screen above its last row, as [unset]
    leaves it. *)
Definition unset_area_fits self : Prop :=
  ScrollArea.active (TextScreen.scroll_area self) = false ->
  ScrollArea.top (TextScreen.scroll_area self) = 1 /\
  ScrollArea.bottom (TextScreen.scroll_area self) = height (TextScreen.mode self) - 1.

(** The arguments [screen_fn_] accepts: the attribute switch in
    [0, 255] when given, the row in [0, height] and the column in
    [0, width] but not both 0, and the row (1 for 0) in the scroll area when
    one is set. *)
Definition screen_fn_accepts self (row col : Z) (want_attr : option Z) : Prop :=
  match want_attr with
  | Some w => 0 <= w <= 255
  | None => True
  end /\
  0 <= row <= height (TextScreen.mode self) /\
  0 <= col <= width (TextScreen.mode self) /\
  ~ (row = 0 /\ col = 0) /\
  (ScrollArea.active (TextScreen.scroll_area self) = true ->
   ScrollArea.top (TextScreen.scroll_area self) <= (if row =? 0 then 1 else row)
     <= ScrollArea.bottom (TextScreen.scroll_area self)).

End MorePredicates.

(** The 80 x 25 screen with the cursor in the overflow position of row 3:
    a character has just been written on the last column. *)
Definition screen_at_line_end : TextScreen.t PageModel.t :=
  TextScreen.Build false (Cursor.Build 3 80 7 1 true (0, 0)) 3 80 true
    (ScrollArea.init_mode (ScrollArea.__init__ mode_80x25) mode_80x25)
    false BottomBar.__init__ mode_80x25 7 (PageModel.__init__ 7 80 25).

Section ScanMeasures.

Context {P : Type}.
Implicit Type self : TextScreen.t P.

(** The number of cells from [(crow, ccol)] to the end of the scroll area
    in reading order, plus one: the iterations that the scanning loops of
    [skip_word_right] can make from there. *)
Definition skip_right_fuel self (crow ccol : Z) : nat :=
  S (Z.to_nat
       (Z.max 0 (ScrollArea.bottom (TextScreen.scroll_area self) - crow)
          * (Z.max 0 (width (TextScreen.mode self)) + 1)
        + Z.max 0 (width (TextScreen.mode self) - ccol))).

(** The same towards the top of the scroll area, for [skip_word_left]. *)
Definition skip_left_fuel self (crow ccol : Z) : nat :=
  S (Z.to_nat
       (Z.max 0 (crow - ScrollArea.top (TextScreen.scroll_area self))
          * (Z.max 0 (width (TextScreen.mode self)) + 1)
        + Z.max 0 ccol)).

End ScanMeasures.

(** ** Pixels, one at a time *)

(** What the operation of the table for [token] makes of one pixel:
    [old] is the attribute on the page, [new] the attribute of the source
    array. *)
Definition pixel_operation (mask : Z) (token : PixelPage.operation_token)
    (old new : Z) : Z :=
  match token with
  | PixelPage.PSET => new
  | PixelPage.PRESET => Z.lxor new mask
  | PixelPage.AND => Z.land old new
  | PixelPage.OR => Z.lor old new
  | PixelPage.XOR => Z.lxor old new
  end.

(** The attribute of a source array at column [x] of its row [y]. *)
Definition array_pixel (array : ByteMatrix.t) (x y : Z) : Z :=
  default 0 (ByteMatrix.getitem array y x).

(** The pixel [(x, y)] lies in the rectangle with the corners [(x0, y0)]
    and [(x1, y1)]. *)
Definition in_rect (x0 y0 x1 y1 x y : Z) : bool :=
  (x0 <=? x) && (x <=? x1) && (y0 <=? y) && (y <=? y1).

(** ** [functions.Functions]: the dispatch of the built-in functions *)

Module Functions.

Import Stdlib.Strings.String.
Local Open Scope string_scope.

(** The values that make up the records of the dispatch tables.  The
    callbacks, the result types of the values module and the conversions
    belong to modules that are not among the sources; the dispatch hands them
    on without looking inside, so they are kept by name. *)
Inductive item : Type :=
  | Int (n : Z)
  | PyNone
  | Callback (name : string)
  | ValueType (name : string)
  | Tuple (names : list string)
  | Bool (b : bool).

(** [_bare], as the list of its entries. *)
Definition _bare : list (string * list item) :=
  let cint_ := "values.cint_" in
  let pass_string := "values.pass_string" in
  [ ("tk.SCREEN", [Int 3; Callback "self.session.screen.screen_fn_"; PyNone;
                   Tuple [cint_; cint_; cint_]; Bool true]);
    ("tk.FN", [PyNone; Callback "self.value_fn"; PyNone]);
    ("tk.ERL", [Int 0; Callback "self.parser.erl_"; ValueType "values.SNG"]);
    ("tk.ERR", [Int 0; Callback "self.parser.err_"; ValueType "values.INT"]);
    ("tk.STRING", [PyNone; Callback "self.value_string"; PyNone]);
    ("tk.INSTR", [PyNone; Callback "self.value_instr"; PyNone]);
    ("tk.CSRLIN", [Int 0; Callback "self.session.screen.csrlin_"; ValueType "values.INT"]);
    ("tk.POINT", [Int 2; Callback "self.session.screen.point_"; PyNone;
                  Tuple [cint_; cint_]; Bool true]);
    ("tk.INKEY", [Int 0; Callback "self.session.keyboard.get_char"; ValueType "values.STR"]);
    ("tk.CVI", [Int 1; Callback "values.cvi_"; PyNone]);
    ("tk.CVS", [Int 1; Callback "values.cvs_"; PyNone]);
    ("tk.CVD", [Int 1; Callback "values.cvd_"; PyNone]);
    ("tk.MKI", [Int 1; Callback "values.mki_"; PyNone]);
    ("tk.MKS", [Int 1; Callback "values.mks_"; PyNone]);
    ("tk.MKD", [Int 1; Callback "values.mkd_"; PyNone]);
    ("tk.EXTERR", [Int 1; Callback "self.session.devices.exterr_"; ValueType "values.INT"]);
    ("tk.DATE", [Int 0; Callback "self.session.clock.date_fn_"; ValueType "values.STR"]);
    ("tk.TIME", [Int 0; Callback "self.session.clock.time_fn_"; ValueType "values.STR"]);
    ("tk.PLAY", [Int 1; Callback "self.session.sound.play_fn_"; ValueType "values.INT"]);
    ("tk.TIMER", [Int 0; Callback "self.session.clock.timer_"; ValueType "values.SNG"]);
    ("tk.PMAP", [Int 2; Callback "self.session.screen.pmap_";
                 Tuple [cint_; cint_]; Bool false]);
    ("tk.LEFT", [Int 2; Callback "values.left_"; PyNone;
                 Tuple [pass_string; cint_]; Bool false]);
    ("tk.RIGHT", [Int 2; Callback "values.right_"; PyNone;
                  Tuple [pass_string; cint_]; Bool false]);
    ("tk.MID", [Int 3; Callback "values.mid_"; PyNone;
                Tuple [pass_string; cint_; cint_]; Bool true]);
    ("tk.SGN", [Int 1; Callback "values.sgn_"; PyNone]);
    ("tk.INT", [Int 1; Callback "values.int_"; PyNone]);
    ("tk.ABS", [Int 1; Callback "values.abs_"; PyNone]);
    ("tk.SQR", [Int 1; Callback "values.sqr_"; PyNone]);
    ("tk.RND", [PyNone; Callback "self.value_rnd"; PyNone]);
    ("tk.SIN", [Int 1; Callback "values.sin_"; PyNone]);
    ("tk.LOG", [Int 1; Callback "values.log_"; PyNone]);
    ("tk.EXP", [Int 1; Callback "values.exp_"; PyNone]);
    ("tk.COS", [Int 1; Callback "values.cos_"; PyNone]);
    ("tk.TAN", [Int 1; Callback "values.tan_"; PyNone]);
    ("tk.ATN", [Int 1; Callback "values.atn_"; PyNone]);
    ("tk.FRE", [Int 1; Callback "self.session.memory.fre_"; ValueType "values.SNG"]);
    ("tk.INP", [Int 1; Callback "self.session.machine.inp_"; ValueType "values.INT"]);
    ("tk.POS", [Int 1; Callback "self.session.screen.pos_"; ValueType "values.INT"]);
    ("tk.LEN", [Int 1; Callback "values.len_"; PyNone]);
    ("tk.STR", [Int 1; Callback "values.str_"; PyNone]);
    ("tk.VAL", [Int 1; Callback "values.val_"; PyNone]);
    ("tk.ASC", [Int 1; Callback "values.asc_"; PyNone]);
    ("tk.CHR", [Int 1; Callback "values.chr_"; PyNone]);
    ("tk.PEEK", [Int 1; Callback "self.session.all_memory.peek_"; ValueType "values.INT"]);
    ("tk.SPACE", [Int 1; Callback "values.space_"; PyNone]);
    ("tk.OCT", [Int 1; Callback "values.oct_"; PyNone]);
    ("tk.HEX", [Int 1; Callback "values.hex_"; PyNone]);
    ("tk.LPOS", [Int 1; Callback "self.session.files.lpos_"; ValueType "values.INT"]);
    ("tk.CINT", [Int 1; Callback "values.cint_"; PyNone]);
    ("tk.CSNG", [Int 1; Callback "values.csng_"; PyNone]);
    ("tk.CDBL", [Int 1; Callback "values.cdbl_"; PyNone]);
    ("tk.FIX", [Int 1; Callback "values.fix_"; PyNone]);
    ("tk.PEN", [Int 1; Callback "self.session.events.pen.pen_"; ValueType "values.INT"]);
    ("tk.STICK", [Int 1; Callback "self.session.stick.stick_"; ValueType "values.INT"]);
    ("tk.STRIG", [Int 1; Callback "self.session.stick.strig_"; ValueType "values.INT"]);
    ("tk.EOF", [Int 1; Callback "self.session.files.eof_"; ValueType "values.INT"]);
    ("tk.LOC", [Int 1; Callback "self.session.files.loc_"; ValueType "values.SNG"]);
    ("tk.LOF", [Int 1; Callback "self.session.files.lof_"; ValueType "values.SNG"]) ].

(** [_with_presign]: for each token the records by the character that
    follows it, [None] for the key [None]. *)
Definition _with_presign : list (string * list (option string * list item)) :=
  let usr := [Int 1; Callback "self.session.machine.usr_"; ValueType "values.SNG"] in
  [ ("tk.USR",
     [ (None, usr); (Some "tk.C_0", usr); (Some "tk.C_1", usr); (Some "tk.C_2", usr);
       (Some "tk.C_3", usr); (Some "tk.C_4", usr); (Some "tk.C_5", usr);
       (Some "tk.C_6", usr); (Some "tk.C_7", usr); (Some "tk.C_8", usr);
       (Some "tk.C_9", usr) ]);
    ("tk.IOCTL", [ (Some "$", [PyNone; Callback "self.value_ioctl"; PyNone]) ]);
    ("tk.ENVIRON", [ (Some "$", [Int 1; Callback "dos.environ_"; ValueType "values.STR"]) ]);
    ("tk.INPUT", [ (Some "$", [PyNone; Callback "self.value_input"; PyNone]) ]);
    ("tk.ERDEV",
     [ (Some "$", [Int 1; Callback "self.session.devices.erdev_str_"; ValueType "values.STR"]);
       (None, [Int 1; Callback "self.session.devices.erdev_"; ValueType "values.INT"]) ]);
    ("tk.VARPTR",
     [ (Some "$", [PyNone; Callback "self.value_varptr_str"; PyNone]);
       (None, [PyNone; Callback "self.value_varptr"; PyNone]) ]) ].

(** The key of the record of the PMAP function. *)
Definition PMAP : string := "tk.PMAP".

(** Lookup in a dictionary given as the list of its entries. *)
Fixpoint lookup {K V : Type} (eqb : K -> K -> bool) (key : K) (d : list (K * V))
    : option V :=
  match d with
  | [] => None
  | (k, v) :: d => if eqb k key then Some v else lookup eqb key d
  end.

Definition presign_eqb (a b : option string) : bool :=
  match a, b with
  | None, None => true
  | Some a, Some b => String.eqb a b
  | _, _ => false
  end.

(** The value of an item in a condition.  The result types of the values
    module stand for themselves in [narity == 1 and to_type]; they are taken
    to count as true there. *)
Definition truthy (i : item) : bool :=
  match i with
  | Int n => negb (n =? 0)%Z
  | PyNone => false
  | Callback _ => true
  | ValueType _ => true
  | Tuple names => match names with [] => false | _ => true end
  | Bool b => b
  end.

(** [narity == n] and [narity > 1]; [None] equals no number, and in the
    Python 2 of this module it is smaller than every number. *)
Definition equals (i : item) (n : Z) : bool :=
  match i with
  | Int m => (m =? n)%Z
  | _ => false
  end.

Definition greater (i : item) (n : Z) : bool :=
  match i with
  | Int m => (n <? m)%Z
  | _ => false
  end.

(** The call that [parse_function] makes once it has the record. *)
Inductive call : Type :=
  | Nullary (fn to_type : item)
    (* values.from_value(fn(), to_type) *)
  | BracketConverted (fn to_type : item)
    (* values.from_value(fn(parser.parse_bracket(ins)), to_type) *)
  | Bracket (fn : item)
    (* fn(parser.parse_bracket(ins)) *)
  | Arguments (fn conv optional : item)
    (* fn( *parse_argument_list(ins, conv, optional)) *)
  | Special (fn : item).
    (* fn(ins) *)

(** How [parse_function] goes on after reading the token: to one of its
    calls, or to an exception before any argument is parsed. *)
Inductive dispatch : Type :=
  | Calls (c : call)
  | RunError_STX
  | KeyError
  | ValueError.

(** [parse_function], up to the call it selects: [presign] is what
    [ins.skip_blank_read_if(fndict)] returns for a token of
    [_with_presign].  Unpacking a slice of the wrong length raises
    [ValueError]. *)
Definition parse_function (token : string) (presign : option string) : dispatch :=
  let fn_record :=
    match lookup String.eqb token _bare with
    | Some fn_record => inl fn_record
    | None =>
      match lookup String.eqb token _with_presign with
      | Some fndict =>
        match lookup presign_eqb presign fndict with
        | Some fn_record => inl fn_record
        | None => inr RunError_STX
        end
      | None => inr KeyError
      end
    end in
  match fn_record with
  | inr e => e
  | inl fn_record =>
    match take 3 fn_record with
    | [narity; fn; to_type] =>
      if equals narity 0 then Calls (Nullary fn to_type)
      else if equals narity 1 && truthy to_type then Calls (BracketConverted fn to_type)
      else if equals narity 1 then Calls (Bracket fn)
      else if greater narity 1 then
        match drop 3 fn_record with
        | [conv; optional] => Calls (Arguments fn conv optional)
        | _ => ValueError
        end
      else
        (* special case *)
        Calls (Special fn)
    | _ => ValueError
    end
  end.

(** What a parsing step leaves behind: its value or the error it raised,
    and the code stream as read so far. *)
Inductive parsed (S E A : Type) : Type :=
  | Parsed (a : A) (ins : S)
  | Failed (e : E) (ins : S).
Arguments Parsed {S E A} a ins.
Arguments Failed {S E A} e ins.

(** The code stream and the parser under [parse_argument_list]: reading a
    required separator, reading an optional one (the separator read, if any),
    parsing an expression; and the errors [RunError(STX)] and
    [IndexError]. *)
Class Parser (S E V : Type) : Type := {
  require_read : S -> list string -> parsed S E unit;
  skip_blank_read_if : S -> list string -> S * option string;
  parse_expression : S -> parsed S E V;
  STX : E;
  IndexError : E
}.

Section ParseArgumentList.

Context {S E V : Type} `{Parser S E V}.

(** The loop of [parse_argument_list] over the required arguments: the
    pairs of [zip(conversions[:-1], seps[:-1])]. *)
Fixpoint _parse_required (pairs : list ((V -> E + V) * list string)) (arg : list V)
    (ins : S) : parsed S E (list V) :=
  match pairs with
  | [] => Parsed arg ins
  | (conv, sep) :: pairs =>
    match require_read ins sep with
    | Parsed _ ins =>
      match parse_expression ins with
      | Parsed v ins =>
        match conv v with
        | inr v => _parse_required pairs (arg ++ [v])%list ins
        | inl e => Failed e ins
        end
      | Failed e ins => Failed e ins
      end
    | Failed e ins => Failed e ins
    end
  end.

(** [parse_argument_list]: parse a comma-separated list of arguments and
    apply type conversions; a conversion returns its value or raises. *)
Definition parse_argument_list (ins : S) (conversions : list (V -> E + V))
    (optional : bool) : parsed S E (list V) :=
  (* required separators *)
  let seps := ([["("]] ++ replicate (List.length conversions - 1)%nat [","])%list in
  match _parse_required (zip (removelast conversions) (removelast seps)) [] ins with
  | Parsed arg ins =>
    let close arg ins :=
      match arg with
      | [] => Parsed arg ins
      | _ =>
        match require_read ins [")"] with
        | Parsed _ ins => Parsed arg ins
        | Failed e ins => Failed e ins
        end
      end in
    match skip_blank_read_if ins (List.last seps []) with
    | (ins, Some _) =>
      match List.last (Some <$> conversions) None with
      | Some conv =>
        match parse_expression ins with
        | Parsed v ins =>
          match conv v with
          | inr v => close (arg ++ [v])%list ins
          | inl e => Failed e ins
          end
        | Failed e ins => Failed e ins
        end
      | None => Failed IndexError ins
      end
    | (ins, None) =>
      if optional then close arg ins else Failed STX ins
    end
  | Failed e ins => Failed e ins
  end.

End ParseArgumentList.

(** A code stream of separate tokens, for examples: a required separator
    that is not next raises the syntax error, an expression is one token, the
    values are the tokens themselves. *)
Definition token_in (seps : list string) (tok : string) : bool :=
  existsb (String.eqb tok) seps.

#[global] Instance token_list_parser : Parser (list string) string string := {|
  require_read ins seps :=
    match ins with
    | tok :: rest =>
      if token_in seps tok then Parsed tt rest else Failed "STX" ins
    | [] => Failed "STX" ins
    end;
  skip_blank_read_if ins seps :=
    match ins with
    | tok :: rest => if token_in seps tok then (rest, Some tok) else (ins, None)
    | [] => (ins, None)
    end;
  parse_expression ins :=
    match ins with
    | tok :: rest => Parsed tok rest
    | [] => Failed "STX" ins
    end;
  STX := "STX";
  IndexError := "IndexError"
|}.

(** The code [(1,2)] and two conversions that pass their argument on. *)
Definition example_arguments : list string := ["("; "1"; ","; "2"; ")"].
Definition example_conversions : list (string -> string + string) := [inr; inr].
Definition example_values : list string := ["1"; "2"].

End Functions.

(** * Properties of the pixel page *)

Section ByteMatrixFacts.

Import ByteMatrix.

Lemma valid_index_spec m y x :
  valid_index m y x = true <-> 0 <= y < _height m /\ 0 <= x < _width m.
Proof. unfold valid_index. rewrite !andb_true_iff. lia. Qed.

Lemma wf_row_length m i row :
  wf m -> _rows m !! i = Some row -> length row = Z.to_nat (_width m).
Proof.
  intros (_ & _ & _ & Hall) Hrow.
  exact (Forall_lookup_1 _ _ _ _ Hall Hrow).
Qed.

Lemma wf_cell_is_Some m i j :
  wf m -> (i < Z.to_nat (_height m))%nat -> (j < Z.to_nat (_width m))%nat ->
  is_Some (cell (_rows m) i j).
Proof.
  intros Hwf Hi Hj. unfold cell.
  destruct (lookup_lt_is_Some_2 (_rows m) i) as [row Hrow].
  { destruct Hwf as (_ & _ & Hlen & _). lia. }
  rewrite Hrow. simpl. apply lookup_lt_is_Some_2.
  rewrite (wf_row_length m i row Hwf Hrow). exact Hj.
Qed.

Lemma getitem_cell m y x :
  valid_index m y x = true ->
  getitem m y x = cell (_rows m) (Z.to_nat y) (Z.to_nat x).
Proof. intros Hv. unfold getitem. rewrite Hv. reflexivity. Qed.

(** Reading back the cell just written. *)
Lemma getitem_setitem m y x v :
  wf m -> valid_index m y x = true ->
  exists m', setitem m y x v = Some m' /\ getitem m' y x = Some v.
Proof.
  intros Hwf Hv. unfold setitem. rewrite Hv. eexists. split; [reflexivity|].
  unfold getitem, valid_index in *. simpl. rewrite Hv.
  apply valid_index_spec in Hv. destruct Hv as [Hy Hx].
  rewrite list_lookup_alter_eq.
  destruct (lookup_lt_is_Some_2 (_rows m) (Z.to_nat y)) as [row Hrow].
  { destruct Hwf as (_ & _ & Hlen & _). lia. }
  rewrite Hrow. simpl. apply list_lookup_insert_eq.
  rewrite (wf_row_length m _ row Hwf Hrow). lia.
Qed.

Lemma lookup_slice {A} (l : list A) lo hi i :
  0 <= lo ->
  slice lo hi l !! i =
    if bool_decide (Z.of_nat i < hi - lo) then l !! (Z.to_nat lo + i)%nat else None.
Proof.
  intros Hlo. unfold slice. rewrite Z.max_r by lia.
  case_bool_decide.
  - rewrite lookup_take_lt by lia. apply lookup_drop.
  - apply lookup_take_ge. lia.
Qed.

Lemma cell_getslice m y0 y1 x0 x1 a b :
  0 <= y0 -> 0 <= x0 ->
  cell (_rows (getslice m y0 y1 x0 x1)) a b =
    if bool_decide (Z.of_nat a < y1 - y0) && bool_decide (Z.of_nat b < x1 - x0)
    then cell (_rows m) (Z.to_nat y0 + a) (Z.to_nat x0 + b) else None.
Proof.
  intros Hy Hx. unfold cell, getslice. simpl.
  rewrite list_lookup_fmap, lookup_slice by lia.
  case_bool_decide; simpl; [|reflexivity].
  destruct (_rows m !! (Z.to_nat y0 + a)%nat) as [row|]; simpl.
  - rewrite lookup_slice by lia. reflexivity.
  - destruct (bool_decide _); reflexivity.
Qed.

Lemma cell_zip_with f (X Y : list (list Z)) i j :
  cell (zip_with (zip_with f) X Y) i j =
    match cell X i j, cell Y i j with
    | Some a, Some b => Some (f a b)
    | _, _ => None
    end.
Proof.
  unfold cell. rewrite lookup_zip_with.
  destruct (X !! i) as [xr|]; simpl; [|reflexivity].
  destruct (Y !! i) as [yr|]; simpl.
  - rewrite lookup_zip_with.
    destruct (xr !! j); simpl; [|reflexivity].
    destruct (yr !! j); reflexivity.
  - destruct (xr !! j); reflexivity.
Qed.

Lemma in_slice_spec lo hi i :
  in_slice lo hi i = true <-> lo <= Z.of_nat i < hi.
Proof. unfold in_slice. rewrite andb_true_iff. lia. Qed.

(** The shape of a rectangle that lies on the grid. *)
Lemma slice_size_inside lo hi size :
  0 <= lo -> lo <= hi -> hi <= size -> slice_size lo hi size = hi - lo.
Proof. unfold slice_size. lia. Qed.

End ByteMatrixFacts.

Section PixelPageFacts.

Import PixelPage.

Lemma wf___init__ w h bpp : 0 <= w -> 0 <= h -> wf (__init__ w h bpp).
Proof.
  intros Hw Hh. unfold wf, __init__, ByteMatrix.wf, ByteMatrix.new. simpl.
  repeat split; try lia.
  - apply length_replicate.
  - apply Forall_replicate. apply length_replicate.
Qed.

Lemma in_bounds_valid p x y :
  wf p -> 0 <= x < width p -> 0 <= y < height p ->
  ByteMatrix.valid_index (_buffer p) y x = true.
Proof.
  intros (_ & Hh & Hw) Hx Hy. apply valid_index_spec. lia.
Qed.

Lemma out_of_bounds_invalid p x y :
  wf p -> ~ (0 <= x < width p /\ 0 <= y < height p) ->
  ByteMatrix.valid_index (_buffer p) y x = false.
Proof.
  intros (_ & Hh & Hw) Hout. apply not_true_is_false. intros Hv.
  apply valid_index_spec in Hv. lia.
Qed.

(** With [mask = 2^bitsperpixel - 1], masking keeps a value that fits. *)
Lemma land_mask_fits v bpp :
  0 <= bpp -> 0 <= v <= Z.shiftl 1 bpp - 1 -> Z.land v (Z.shiftl 1 bpp - 1) = v.
Proof.
  intros Hb Hv. rewrite Z.shiftl_1_l in *.
  replace (2 ^ bpp - 1) with (Z.ones bpp)
    by (rewrite Z.ones_equiv; lia).
  rewrite Z.land_ones by lia. apply Z.mod_small. lia.
Qed.

End PixelPageFacts.

(** C3, as the code has it: on a well-formed page, [get_pixel] after
    [put_pixel] at a coordinate on the grid returns the attribute as it was
    given, no mask is applied on the way (so it is [v & mask] for the
    attributes that fit the mask, [0 <= v <= 2^bitsperpixel - 1]); a
    [put_pixel] outside the grid returns the page unchanged, and [get_pixel]
    outside the grid returns 0. *)
Theorem put_pixel_get_pixel (p : PixelPage.t) (x y v : Z) :
  PixelPage.wf p ->
  (0 <= x < PixelPage.width p /\ 0 <= y < PixelPage.height p ->
     PixelPage.get_pixel (fst (PixelPage.put_pixel p x y v)) x y = v /\
     (forall bpp, 0 <= bpp -> PixelPage._mask p = Z.shiftl 1 bpp - 1 ->
        0 <= v <= PixelPage._mask p ->
        PixelPage.get_pixel (fst (PixelPage.put_pixel p x y v)) x y
          = Z.land v (PixelPage._mask p))) /\
  (~ (0 <= x < PixelPage.width p /\ 0 <= y < PixelPage.height p) ->
     PixelPage.put_pixel p x y v = (p, None) /\
     PixelPage.get_pixel p x y = 0).
Proof.
  intros Hwf. split.
  - intros [Hx Hy].
    pose proof (in_bounds_valid p x y Hwf Hx Hy) as Hv.
    destruct (getitem_setitem (PixelPage._buffer p) y x v (proj1 Hwf) Hv)
      as (m' & Hset & Hget).
    assert (Hread : PixelPage.get_pixel (fst (PixelPage.put_pixel p x y v)) x y = v).
    { unfold PixelPage.put_pixel. rewrite Hset. simpl.
      unfold PixelPage.get_pixel. simpl. rewrite Hget. reflexivity. }
    split; [exact Hread|].
    intros bpp Hb Hmask Hfit. rewrite Hread, Hmask in *.
    symmetry. apply land_mask_fits; assumption.
  - intros Hout.
    pose proof (out_of_bounds_invalid p x y Hwf Hout) as Hv.
    unfold PixelPage.put_pixel, PixelPage.get_pixel,
      ByteMatrix.setitem, ByteMatrix.getitem.
    rewrite Hv. split; reflexivity.
Qed.

(** The theorem at a 4 x 3 page of 2 bits per pixel, pixel (1, 2). *)
Lemma put_pixel_get_pixel_witness :
  PixelPage.get_pixel (fst (PixelPage.put_pixel (PixelPage.__init__ 4 3 2) 1 2 3)) 1 2 = 3.
Proof.
  refine (proj1 (proj1 (put_pixel_get_pixel (PixelPage.__init__ 4 3 2) 1 2 3 _) _)).
  - apply wf___init__; lia.
  - simpl. lia.
Defined.

(** C3 as stated fails: on a page of 1 bit per pixel (mask 1), attribute 2
    written at (0, 0) is read back as 2, not as [2 & 1 = 0]. *)
Lemma put_pixel_not_masked :
  ~ (forall (p : PixelPage.t) (x y v : Z),
       PixelPage.wf p ->
       0 <= x < PixelPage.width p -> 0 <= y < PixelPage.height p ->
       PixelPage.get_pixel (fst (PixelPage.put_pixel p x y v)) x y
         = Z.land v (PixelPage._mask p)).
Proof.
  intros Hclaim.
  specialize (Hclaim (PixelPage.__init__ 2 2 1) 0 0 2).
  assert (Hwf : PixelPage.wf (PixelPage.__init__ 2 2 1))
    by (apply wf___init__; lia).
  specialize (Hclaim Hwf). simpl in Hclaim.
  assert (H0 : 0 <= 0 < 2) by lia.
  specialize (Hclaim H0 H0). vm_compute in Hclaim. discriminate.
Qed.

Section PutRect.

Import ByteMatrix.

Variables (m array : ByteMatrix.t) (x0 y0 x1 y1 : Z).
Hypothesis Hwf : wf m.
Hypothesis Hx : 0 <= x0 <= x1 /\ x1 < _width m.
Hypothesis Hy : 0 <= y0 <= y1 /\ y1 < _height m.
Hypothesis Harray : wf array.
Hypothesis Hah : _height array = y1 - y0 + 1.
Hypothesis Haw : _width array = x1 - x0 + 1.

(** The rectangle and the source array have one shape. *)
Lemma rect_shape :
  slice_size y0 (y1 + 1) (_height m) = _height array /\
  slice_size x0 (x1 + 1) (_width m) = _width array.
Proof. rewrite !slice_size_inside by lia. lia. Qed.

(** A cell of the grid inside the rectangle, seen from the rectangle. *)
Lemma cell_in_rect i j c :
  cell (_rows m) i j = Some c ->
  in_slice y0 (y1 + 1) i = true -> in_slice x0 (x1 + 1) j = true ->
  cell (_rows (getslice m y0 (y1 + 1) x0 (x1 + 1)))
       (i - Z.to_nat y0) (j - Z.to_nat x0) = Some c.
Proof.
  intros Hc Hi Hj. apply in_slice_spec in Hi, Hj.
  rewrite cell_getslice by lia.
  rewrite !bool_decide_eq_true_2 by lia. simpl.
  replace (Z.to_nat y0 + (i - Z.to_nat y0))%nat with i by lia.
  replace (Z.to_nat x0 + (j - Z.to_nat x0))%nat with j by lia.
  exact Hc.
Qed.

Lemma cell_array_in_rect i j :
  in_slice y0 (y1 + 1) i = true -> in_slice x0 (x1 + 1) j = true ->
  is_Some (cell (_rows array) (i - Z.to_nat y0) (j - Z.to_nat x0)).
Proof.
  intros Hi Hj. apply in_slice_spec in Hi, Hj.
  apply wf_cell_is_Some; [exact Harray|lia|lia].
Qed.

(** Writing into the rectangle a block whose cells are given by [g] on
    the old cells rewrites the grid cell by cell. *)
Lemma setslice_rows value m' :
  setslice m y0 (y1 + 1) x0 (x1 + 1) value = Some m' ->
  _height m' = _height m /\ _width m' = _width m /\
  _rows m' =
    imap (fun i row =>
      if in_slice y0 (y1 + 1) i then
        imap (fun j c =>
          if in_slice x0 (x1 + 1) j then
            default c (cell (_rows value) (i - Z.to_nat y0) (j - Z.to_nat x0))
          else c) row
      else row) (_rows m).
Proof.
  unfold setslice. destruct (_ && _); [|discriminate].
  intros [= <-]. simpl. auto.
Qed.

Lemma cell_imap_imap (G : nat -> nat -> Z -> Z) (rows : list (list Z)) i j :
  cell (imap (fun i row =>
          if in_slice y0 (y1 + 1) i then imap (G i) row else row) rows) i j =
    match cell rows i j with
    | Some c => Some (if in_slice y0 (y1 + 1) i then G i j c else c)
    | None => None
    end.
Proof.
  unfold cell. rewrite list_lookup_imap.
  destruct (rows !! i) as [row|]; simpl; [|reflexivity].
  destruct (in_slice y0 (y1 + 1) i).
  - rewrite list_lookup_imap. destruct (row !! j); reflexivity.
  - destruct (row !! j); reflexivity.
Qed.

(** The first XOR [put_rect] goes through. *)
Lemma xor_once :
  exists r1 m1,
    elementwise Z.lxor (getslice m y0 (y1 + 1) x0 (x1 + 1)) array = Some r1 /\
    setslice m y0 (y1 + 1) x0 (x1 + 1) r1 = Some m1 /\
    _height m1 = _height m /\ _width m1 = _width m /\
    (forall i j c, cell (_rows m) i j = Some c ->
       in_slice y0 (y1 + 1) i = true -> in_slice x0 (x1 + 1) j = true ->
       exists a, cell (_rows array) (i - Z.to_nat y0) (j - Z.to_nat x0) = Some a /\
                 cell (_rows r1) (i - Z.to_nat y0) (j - Z.to_nat x0)
                   = Some (Z.lxor c a)).
Proof.
  destruct rect_shape as [Hsh Hsw].
  eexists _, _. split.
  { unfold elementwise. simpl. rewrite Hsh, Hsw, !Z.eqb_refl. reflexivity. }
  split.
  { unfold setslice. simpl. rewrite Hsh, Hsw, !Z.eqb_refl. reflexivity. }
  simpl. split; [reflexivity|]. split; [reflexivity|].
  intros i j c Hc Hi Hj.
  destruct (cell_array_in_rect i j Hi Hj) as [a Ha].
  exists a. split; [exact Ha|].
  rewrite cell_zip_with, Ha.
  pose proof (cell_in_rect i j c Hc Hi Hj) as Hs. simpl in Hs.
  unfold getslice in Hs. simpl in Hs. rewrite Hs. reflexivity.
Qed.

End PutRect.

(** Two XOR writes of one array into one rectangle of a matrix give the
    matrix back. *)
Lemma xor_twice (m array : ByteMatrix.t) (x0 y0 x1 y1 : Z) :
  0 <= x0 <= x1 /\ x1 < ByteMatrix._width m ->
  0 <= y0 <= y1 /\ y1 < ByteMatrix._height m ->
  ByteMatrix.wf array ->
  ByteMatrix._height array = y1 - y0 + 1 ->
  ByteMatrix._width array = x1 - x0 + 1 ->
  exists r1 m1 r2,
    ByteMatrix.elementwise Z.lxor
      (ByteMatrix.getslice m y0 (y1 + 1) x0 (x1 + 1)) array = Some r1 /\
    ByteMatrix.setslice m y0 (y1 + 1) x0 (x1 + 1) r1 = Some m1 /\
    ByteMatrix.elementwise Z.lxor
      (ByteMatrix.getslice m1 y0 (y1 + 1) x0 (x1 + 1)) array = Some r2 /\
    ByteMatrix.setslice m1 y0 (y1 + 1) x0 (x1 + 1) r2 = Some m.
Proof.
  intros Hx Hy Harray Hah Haw.
  destruct (xor_once m array x0 y0 x1 y1 Hx Hy Harray Hah Haw)
    as (r1 & m1 & He1 & Hs1 & Hh1 & Hw1 & Hc1).
  rewrite <- Hw1 in Hx. rewrite <- Hh1 in Hy.
  destruct (xor_once m1 array x0 y0 x1 y1 Hx Hy Harray Hah Haw)
    as (r2 & m2 & He2 & Hs2 & Hh2 & Hw2 & Hc2).
  exists r1, m1, r2. split; [exact He1|]. split; [exact Hs1|].
  split; [exact He2|]. rewrite Hs2. f_equal.
  destruct (setslice_rows _ _ _ _ _ _ _ Hs1) as (_ & _ & Hr1).
  destruct (setslice_rows _ _ _ _ _ _ _ Hs2) as (_ & _ & Hr2).
  assert (Hrows : ByteMatrix._rows m2 = ByteMatrix._rows m).
  { rewrite Hr2. apply list_eq. intros i. rewrite list_lookup_imap.
    rewrite Hr1 at 1. rewrite list_lookup_imap.
    destruct (ByteMatrix._rows m !! i) as [row|] eqn:Hrow; simpl; [|reflexivity].
    f_equal.
    destruct (ByteMatrix.in_slice y0 (y1 + 1) i) eqn:Hi; [|reflexivity].
    apply list_eq. intros j. rewrite !list_lookup_imap.
    destruct (row !! j) as [c|] eqn:Hcj; simpl; [|reflexivity]. f_equal.
    destruct (ByteMatrix.in_slice x0 (x1 + 1) j) eqn:Hj; [|reflexivity].
    assert (Hcell : ByteMatrix.cell (ByteMatrix._rows m) i j = Some c).
    { unfold ByteMatrix.cell. rewrite Hrow. exact Hcj. }
    destruct (Hc1 i j c Hcell Hi Hj) as (a & Ha & Hr1c).
    assert (Hcell1 : ByteMatrix.cell (ByteMatrix._rows m1) i j = Some (Z.lxor c a)).
    { rewrite Hr1, cell_imap_imap, Hcell, Hi, Hj, Hr1c. reflexivity. }
    destruct (Hc2 i j _ Hcell1 Hi Hj) as (a' & Ha' & Hr2c).
    rewrite Hr2c, Hr1c. simpl.
    rewrite Ha in Ha'. injection Ha' as <-.
    rewrite Z.lxor_assoc, Z.lxor_nilpotent, Z.lxor_0_r. reflexivity. }
  destruct m2 as [h2 w2 rows2], m as [h w rows]. simpl in *. congruence.
Qed.

(** C4: on a well-formed page, for a rectangle on the grid and a
    well-formed source array of the rectangle's shape, [put_rect] with the
    XOR token called twice with the same array succeeds both times and
    leaves the page as it was before the first call; the rectangle's
    contents are in particular restored. *)
Theorem put_rect_xor_involution (p : PixelPage.t) (x0 y0 x1 y1 : Z)
    (array : ByteMatrix.t) :
  PixelPage.wf p ->
  0 <= x0 <= x1 /\ x1 < PixelPage.width p ->
  0 <= y0 <= y1 /\ y1 < PixelPage.height p ->
  ByteMatrix.wf array ->
  ByteMatrix._height array = y1 - y0 + 1 ->
  ByteMatrix._width array = x1 - x0 + 1 ->
  exists p1 r1 p2 r2,
    PixelPage.put_rect p x0 y0 x1 y1 array PixelPage.XOR = Some (p1, r1) /\
    PixelPage.put_rect p1 x0 y0 x1 y1 array PixelPage.XOR = Some (p2, r2) /\
    p2 = p /\
    PixelPage.get_rect p2 x0 y0 x1 y1 = PixelPage.get_rect p x0 y0 x1 y1.
Proof.
  intros (Hwf & Hh & Hw) Hx Hy Harray Hah Haw.
  rewrite <- Hw in Hx. rewrite <- Hh in Hy.
  destruct (xor_twice (PixelPage._buffer p) array x0 y0 x1 y1 Hx Hy Harray Hah Haw)
    as (r1 & m1 & r2 & He1 & Hs1 & He2 & Hs2).
  exists (PixelPage.set_buffer p m1), r1, p, r2.
  unfold PixelPage.put_rect, PixelPage._operations, PixelPage._init_operations.
  simpl. rewrite He1. simpl. rewrite Hs1. simpl.
  split; [reflexivity|]. rewrite He2. simpl. rewrite Hs2. simpl.
  split; [|split; reflexivity].
  destruct p; reflexivity.
Qed.

(** The theorem at a 4 x 3 page, the rectangle (1, 0)-(2, 1) and a 2 x 2
    source array. *)
Lemma put_rect_xor_involution_witness :
  exists p1 r1 p2 r2,
    PixelPage.put_rect (PixelPage.__init__ 4 3 2) 1 0 2 1
      (ByteMatrix.Build 2 2 [[1; 2]; [3; 0]]) PixelPage.XOR = Some (p1, r1) /\
    PixelPage.put_rect p1 1 0 2 1
      (ByteMatrix.Build 2 2 [[1; 2]; [3; 0]]) PixelPage.XOR = Some (p2, r2) /\
    p2 = PixelPage.__init__ 4 3 2 /\
    PixelPage.get_rect p2 1 0 2 1 = PixelPage.get_rect (PixelPage.__init__ 4 3 2) 1 0 2 1.
Proof.
  apply (put_rect_xor_involution (PixelPage.__init__ 4 3 2) 1 0 2 1
           (ByteMatrix.Build 2 2 [[1; 2]; [3; 0]])).
  - apply wf___init__; lia.
  - simpl; lia.
  - simpl; lia.
  - unfold ByteMatrix.wf; simpl. repeat split; try lia.
    repeat constructor.
  - reflexivity.
  - reflexivity.
Defined.

(** * Properties of the text screen *)

(** The screen's methods compute once the screen is a record of known
    fields; on anything else they stay folded. *)
Arguments TextScreen.check_pos {P H} !self scroll_ok /.
Arguments TextScreen._check_wrap {P H} !self do_scroll_down /.
Arguments TextScreen._move_cursor {P H} !self row col /.
Arguments TextScreen.scroll {P H} !self from_row /.
Arguments TextScreen.scroll_down {P H} !self from_row /.
Arguments TextScreen.set_wrap {P H} !self row wrap /.
Arguments TextScreen.set_row_length {P H} !self row length /.
Arguments TextScreen.set__cursor {P} !self v /.
Arguments TextScreen.set_current_row {P} !self v /.
Arguments TextScreen.set_current_col {P} !self v /.
Arguments TextScreen.set_overflow {P} !self v /.
Arguments TextScreen.set_scroll_area {P} !self v /.
Arguments TextScreen.set__bottom_row_allowed {P} !self v /.
Arguments TextScreen.set__apage {P} !self v /.

(** Run the methods on a screen whose fields are known. *)
Ltac unfold_screen :=
  cbv beta delta [TextScreen.set_pos]; simpl.

(** Split on a test none of whose parts is itself a conditional, turning
    the comparison into an (in)equality. *)
Ltac split_test b :=
  lazymatch b with
  | context [if _ then _ else _] => fail
  | context [match _ with _ => _ end] => fail
  | (?x || _) => split_test x
  | (?x && _) => split_test x
  | negb ?x => split_test x
  | (?x >? ?y) => rewrite (Z.gtb_ltb x y)
  | (?x >=? ?y) => rewrite (Z.geb_leb x y)
  | (?x <? ?y) => destruct (Z.ltb_spec x y)
  | (?x <=? ?y) => destruct (Z.leb_spec x y)
  | (?x =? ?y) => destruct (Z.eqb_spec x y)
  | _ => let E := fresh "E" in destruct b eqn:E
  end.

Ltac split_ifs :=
  repeat (match goal with
          | |- context [if ?b then _ else _] => split_test b
          end; try (exfalso; lia); simpl).

Section CursorFacts.

Context {P : Type} `{TextPage.Ops P}.
Implicit Type self : TextScreen.t P.

(** [check_pos] keeps the geometry and the colour: it touches the cursor,
    the bottom-row flag and (by scrolling) the page only. *)
Lemma check_pos_frame self scroll_ok :
  TextScreen.mode (fst (TextScreen.check_pos self scroll_ok)) = TextScreen.mode self /\
  TextScreen.scroll_area (fst (TextScreen.check_pos self scroll_ok))
    = TextScreen.scroll_area self /\
  TextScreen.overflow (fst (TextScreen.check_pos self scroll_ok))
    = TextScreen.overflow self.
Proof.
  destruct self. unfold_screen. split_ifs; auto.
Qed.

(** When the flag survives [check_pos] the cursor is on the last row. *)
Lemma check_pos_flag_on_last_row self scroll_ok :
  TextScreen._bottom_row_allowed (fst (TextScreen.check_pos self scroll_ok)) = true ->
  TextScreen.current_row (fst (TextScreen.check_pos self scroll_ok))
    = height (TextScreen.mode (fst (TextScreen.check_pos self scroll_ok))).
Proof.
  destruct self. unfold_screen. split_ifs; auto; discriminate.
Qed.

End CursorFacts.

(** C9: when [check_pos] runs with the cursor not on the last physical row,
    the bottom-row flag is cleared: whatever the caller and the other
    fields, [_bottom_row_allowed] is false afterwards. *)
Theorem check_pos_clears_bottom_row_allowed
    {P : Type} `{TextPage.Ops P} (self : TextScreen.t P) (scroll_ok : bool) :
  TextScreen.current_row self <> height (TextScreen.mode self) ->
  TextScreen._bottom_row_allowed (fst (TextScreen.check_pos self scroll_ok)) = false.
Proof.
  intros Hrow. destruct self. simpl in Hrow. unfold_screen.
  split_ifs; auto; congruence.
Qed.

(** The theorem on the 80 x 25 screen with the flag set and the cursor on
    row 1. *)
Lemma check_pos_clears_bottom_row_allowed_witness :
  TextScreen._bottom_row_allowed
    (fst (TextScreen.check_pos
            (TextScreen.set__bottom_row_allowed screen_80x25 true) true)) = false.
Proof.
  apply (check_pos_clears_bottom_row_allowed
           (TextScreen.set__bottom_row_allowed screen_80x25 true) true).
  simpl. lia.
Defined.

(** C10, as the code has it: [scroll] and [scroll_down] leave the cursor
    column and the overflow flag as they are.  Besides them the calls change
    three things: the active page, by one [scroll_up] or [scroll_down] of the
    page from the given row to the bottom of the scroll area; [current_row],
    by one, exactly when the cursor is below the first scrolled row ([scroll])
    or on or below it ([scroll_down]); and, with the row, the cursor object,
    which [_move_cursor] moves to the new position and, in text mode, gives
    the attribute and the width of the cell there (its visibility and shape
    are never touched).  Every other field of the screen is kept. *)
Theorem scroll_preserves_column
    {P : Type} `{TextPage.Ops P} (self : TextScreen.t P) (from_row : option Z) (row : Z) :
  (same_but_row_and_page (TextScreen.scroll self from_row) self /\
   (TextScreen.current_row (TextScreen.scroll self from_row) = TextScreen.current_row self \/
    TextScreen.current_row (TextScreen.scroll self from_row)
      = TextScreen.current_row self - 1) /\
   TextScreen.current_row (TextScreen.scroll self from_row)
     = (if TextScreen.current_row self
             >? default (ScrollArea.top (TextScreen.scroll_area self)) from_row
        then TextScreen.current_row self - 1 else TextScreen.current_row self) /\
   TextScreen._apage (TextScreen.scroll self from_row)
     = TextPage.scroll_up (TextScreen._apage self)
         (default (ScrollArea.top (TextScreen.scroll_area self)) from_row)
         (ScrollArea.bottom (TextScreen.scroll_area self)) (TextScreen._attr self) /\
   cursor_moved_with_row (TextScreen.scroll self from_row) self) /\
  (same_but_row_and_page (TextScreen.scroll_down self row) self /\
   (TextScreen.current_row (TextScreen.scroll_down self row) = TextScreen.current_row self \/
    TextScreen.current_row (TextScreen.scroll_down self row)
      = TextScreen.current_row self + 1) /\
   TextScreen.current_row (TextScreen.scroll_down self row)
     = (if TextScreen.current_row self >=? row
        then TextScreen.current_row self + 1 else TextScreen.current_row self) /\
   TextScreen._apage (TextScreen.scroll_down self row)
     = TextPage.scroll_down (TextScreen._apage self) row
         (ScrollArea.bottom (TextScreen.scroll_area self)) (TextScreen._attr self) /\
   cursor_moved_with_row (TextScreen.scroll_down self row) self).
Proof.
  unfold same_but_row_and_page, cursor_moved_with_row.
  destruct self as [tandy cur crow ccol ov area flag bar md attr page].
  destruct (is_text_mode md) eqn:Htm.
  all: split; [destruct from_row as [r|]|]; unfold_screen; rewrite ?Htm.
  all: match goal with
       | |- context [?a >? ?b] => destruct (Z.gtb_spec a b)
       | |- context [?a >=? ?b] => destruct (Z.geb_spec a b)
       end; simpl; rewrite ?Htm.
  all: repeat match goal with
              | |- context [?a =? ?b] => destruct (Z.eqb_spec a b); try lia
              end.
  all: repeat split; auto.
Qed.

(** C10 as stated fails: [current_row] and the page are not all that a
    scroll modifies.  On the 80 x 25 screen with the cursor on (1, 1),
    [scroll_down(1)] moves the cursor object to row 2; with the cursor on
    (2, 1), [scroll()] moves it to row 1. *)
Lemma scroll_moves_cursor_object :
  ~ (forall (self : TextScreen.t PageModel.t) (row : Z),
       TextScreen._cursor (TextScreen.scroll_down self row) = TextScreen._cursor self) /\
  ~ (forall (self : TextScreen.t PageModel.t) (from_row : option Z),
       TextScreen._cursor (TextScreen.scroll self from_row) = TextScreen._cursor self).
Proof.
  split; intros Hclaim.
  - specialize (Hclaim screen_80x25 1).
    apply (f_equal Cursor.row) in Hclaim. vm_compute in Hclaim. discriminate.
  - specialize (Hclaim (TextScreen.set_pos screen_80x25 2 1 true) None).
    apply (f_equal Cursor.row) in Hclaim. vm_compute in Hclaim. discriminate.
Qed.

(** C7: in the overflow position ([overflow] set and the cursor on the last
    column) [pos_] returns 1 and [csrlin_] the next row, or the current row
    when that is not above the bottom of the scroll area; when [overflow] is
    not set they return the current column and row. *)
Theorem pos_csrlin_overflow
    {P : Type} `{TextPage.Ops P} (self : TextScreen.t P) :
  (TextScreen.overflow self = true ->
   TextScreen.current_col self = width (TextScreen.mode self) ->
   TextScreen.pos_ self = 1 /\
   (TextScreen.current_row self < ScrollArea.bottom (TextScreen.scroll_area self) ->
    TextScreen.csrlin_ self = TextScreen.current_row self + 1) /\
   (~ TextScreen.current_row self < ScrollArea.bottom (TextScreen.scroll_area self) ->
    TextScreen.csrlin_ self = TextScreen.current_row self)) /\
  (TextScreen.overflow self = false ->
   TextScreen.pos_ self = TextScreen.current_col self /\
   TextScreen.csrlin_ self = TextScreen.current_row self).
Proof.
  unfold TextScreen.pos_, TextScreen.csrlin_. split.
  - intros -> ->. rewrite Z.eqb_refl. simpl. split; [reflexivity|].
    split; intros Hrow.
    + apply Z.ltb_lt in Hrow. rewrite Hrow. reflexivity.
    + apply Z.ltb_nlt in Hrow. rewrite Hrow. reflexivity.
  - intros ->. rewrite andb_false_r. simpl. split; reflexivity.
Qed.

(** The theorem on the 80 x 25 screen with the cursor in the overflow
    position of row 1. *)
Lemma pos_csrlin_overflow_witness :
  TextScreen.pos_
    (TextScreen.set_overflow (TextScreen.set_current_col screen_80x25 80) true) = 1.
Proof.
  refine (proj1 (proj1 (pos_csrlin_overflow
    (TextScreen.set_overflow (TextScreen.set_current_col screen_80x25 80) true)) _ _));
    reflexivity.
Defined.

Ltac use_trivial_premises :=
  repeat match goal with
         | Hx : ?a = ?a -> _ |- _ => specialize (Hx eq_refl)
         end.

Section CursorBounds.

Context {P : Type} `{TextPage.Ops P}.
Implicit Type self : TextScreen.t P.

Lemma geometry_eq self self' :
  TextScreen.mode self' = TextScreen.mode self ->
  TextScreen.scroll_area self' = TextScreen.scroll_area self ->
  geometry self -> geometry self'.
Proof. unfold geometry. intros -> ->. auto. Qed.

(** The postcondition of [check_pos]. *)
Lemma check_pos_in_bounds self scroll_ok :
  geometry self ->
  col_within_reach self (TextScreen.current_col self) (TextScreen.current_row self) ->
  cursor_in_bounds (fst (TextScreen.check_pos self scroll_ok)).
Proof.
  unfold geometry, col_within_reach, cursor_in_bounds.
  destruct self. simpl. intros Hgeo [Hcol Hlast]. unfold_screen.
  split_ifs; use_trivial_premises;
    (split; [lia | first [left; lia | right; split; [reflexivity | lia]]]).
Qed.

Lemma check_pos_geometry self scroll_ok :
  geometry self -> geometry (fst (TextScreen.check_pos self scroll_ok)).
Proof.
  destruct (check_pos_frame self scroll_ok) as (Hm & Ha & _).
  apply geometry_eq; assumption.
Qed.

Lemma set_pos_in_bounds self to_row to_col scroll_ok :
  geometry self -> col_within_reach self to_col to_row ->
  cursor_in_bounds (TextScreen.set_pos self to_row to_col scroll_ok).
Proof.
  intros Hgeo Hcol. unfold TextScreen.set_pos. apply check_pos_in_bounds.
  - destruct self; exact Hgeo.
  - destruct self; exact Hcol.
Qed.

(** [_check_wrap] brings a cursor one past the last column back onto the
    screen and keeps the geometry and the flags. *)
Lemma _check_wrap_frame self do_scroll_down :
  TextScreen.mode (TextScreen._check_wrap self do_scroll_down) = TextScreen.mode self /\
  TextScreen.scroll_area (TextScreen._check_wrap self do_scroll_down)
    = TextScreen.scroll_area self /\
  TextScreen.overflow (TextScreen._check_wrap self do_scroll_down)
    = TextScreen.overflow self /\
  TextScreen._bottom_row_allowed (TextScreen._check_wrap self do_scroll_down)
    = TextScreen._bottom_row_allowed self.
Proof. destruct self. unfold_screen. split_ifs; auto. Qed.

Lemma _check_wrap_col self do_scroll_down :
  1 <= width (TextScreen.mode self) ->
  1 <= TextScreen.current_col self ->
  1 <= TextScreen.current_col (TextScreen._check_wrap self do_scroll_down)
    <= width (TextScreen.mode self).
Proof. destruct self. simpl. intros. unfold_screen. split_ifs; lia. Qed.

(** The character of [write_char] is put on the screen. *)
Lemma write_position_in_bounds self do_scroll_down :
  geometry self -> 1 <= TextScreen.current_col self ->
  cursor_in_bounds (write_position self do_scroll_down) /\
  geometry (write_position self do_scroll_down).
Proof.
  intros Hgeo Hcol. unfold write_position.
  set (s1 := if TextScreen.overflow self then _ else self).
  assert (Hs1 : TextScreen.mode s1 = TextScreen.mode self /\
                TextScreen.scroll_area s1 = TextScreen.scroll_area self /\
                1 <= TextScreen.current_col s1).
  { subst s1. destruct self. simpl in *. split_ifs; repeat split; auto; lia. }
  destruct Hs1 as (Hm1 & Ha1 & Hc1).
  assert (Hg1 : geometry s1) by (apply (geometry_eq self); assumption).
  destruct (_check_wrap_frame s1 do_scroll_down) as (Hm2 & Ha2 & _ & _).
  assert (Hg2 : geometry (TextScreen._check_wrap s1 do_scroll_down))
    by (apply (geometry_eq s1); assumption).
  pose proof (_check_wrap_col s1 do_scroll_down (proj2 (proj2 (proj2 Hg1))) Hc1) as Hc2.
  rewrite <- Hm2 in Hc2.
  split; [|apply check_pos_geometry; exact Hg2].
  apply check_pos_in_bounds; [exact Hg2|].
  unfold col_within_reach. lia.
Qed.

Lemma write_char_unfold self char do_scroll_down :
  TextScreen.write_char self char do_scroll_down =
    let self := write_position self do_scroll_down in
    let self := TextScreen.set__apage self
      (TextPage.put_char_attr (TextScreen._apage self) (TextScreen.current_row self)
         (TextScreen.current_col self) char (TextScreen._attr self) true) in
    let self :=
      if TextScreen.current_col self <? width (TextScreen.mode self) then
        TextScreen.set_current_col self (TextScreen.current_col self + 1)
      else TextScreen.set_overflow self true in
    fst (TextScreen.check_pos self true).
Proof.
  cbv beta delta [TextScreen.write_char write_position] zeta. reflexivity.
Qed.

Lemma write_char_in_bounds self char do_scroll_down :
  geometry self -> 1 <= TextScreen.current_col self ->
  cursor_in_bounds (TextScreen.write_char self char do_scroll_down) /\
  geometry (TextScreen.write_char self char do_scroll_down).
Proof.
  intros Hgeo Hcol. rewrite write_char_unfold.
  destruct (write_position_in_bounds self do_scroll_down Hgeo Hcol) as [Hb Hg].
  set (s3 := write_position self do_scroll_down) in *. cbv zeta.
  set (s5 := if _ <? _ then _ else _).
  assert (Hs5 : TextScreen.mode s5 = TextScreen.mode s3 /\
                TextScreen.scroll_area s5 = TextScreen.scroll_area s3 /\
                1 <= TextScreen.current_col s5 <= width (TextScreen.mode s3)).
  { subst s5. destruct Hb as [Hb _]. destruct s3. simpl in *.
    split_ifs; repeat split; auto; lia. }
  destruct Hs5 as (Hm5 & Ha5 & Hc5).
  assert (Hg5 : geometry s5) by (apply (geometry_eq s3); assumption).
  split; [|apply check_pos_geometry; exact Hg5].
  apply check_pos_in_bounds; [exact Hg5|].
  unfold col_within_reach. rewrite Hm5. destruct Hg as (_ & _ & _ & Hw). lia.
Qed.

End CursorBounds.

Section CursorSteps.

Context {P : Type} `{TextPage.Ops P}.
Implicit Type self : TextScreen.t P.

Lemma incr_pos_in_bounds self :
  geometry self ->
  1 <= TextScreen.current_col self <= width (TextScreen.mode self) ->
  0 <= TextPage.get_charwidth (TextScreen._apage self) (TextScreen.current_row self)
         (TextScreen.current_col self) <= width (TextScreen.mode self) ->
  cursor_in_bounds (TextScreen.incr_pos self).
Proof.
  intros Hgeo Hcol Hstep. unfold TextScreen.incr_pos.
  apply set_pos_in_bounds; [exact Hgeo|].
  unfold col_within_reach. destruct Hgeo as (_ & _ & _ & Hw).
  split_ifs; lia.
Qed.

Lemma decr_pos_in_bounds self :
  geometry self ->
  1 <= TextScreen.current_col self <= width (TextScreen.mode self) ->
  3 <= width (TextScreen.mode self) ->
  (TextScreen._bottom_row_allowed self = true ->
   TextScreen.current_row self = height (TextScreen.mode self) ->
   3 <= TextScreen.current_col self) ->
  cursor_in_bounds (TextScreen.decr_pos self).
Proof.
  intros Hgeo Hcol Hw Hlast. unfold TextScreen.decr_pos.
  apply set_pos_in_bounds; [exact Hgeo|].
  unfold col_within_reach. split.
  - split_ifs; lia.
  - intros Hflag Hrow. specialize (Hlast Hflag Hrow). split_ifs; lia.
Qed.

End CursorSteps.

(** ** The editing paths: insertion, deletion and the line feed *)


Section EditingPaths.

Context {P : Type} `{TextPage.Ops P}.
Implicit Type self : TextScreen.t P.

(** The bounds depend on the placement only. *)
Lemma placement_bounds self self' :
  placement self' = placement self ->
  (geometry self -> geometry self') /\
  (cursor_in_bounds self -> cursor_in_bounds self') /\
  (bottom_row_adjoins self -> bottom_row_adjoins self').
Proof.
  unfold placement, geometry, cursor_in_bounds, bottom_row_adjoins.
  intros [= -> -> -> -> ->]. auto.
Qed.

Lemma placement_set__apage self page :
  placement (TextScreen.set__apage self page) = placement self.
Proof. destruct self. reflexivity. Qed.

Lemma placement_set_wrap self row wrap :
  placement (TextScreen.set_wrap self row wrap) = placement self.
Proof. destruct self. reflexivity. Qed.

Lemma placement_set_row_length self row length :
  placement (TextScreen.set_row_length self row length) = placement self.
Proof. destruct self. reflexivity. Qed.

(** A scroll from a row below the cursor leaves the cursor alone. *)
Lemma placement_scroll_below self (from_row : Z) :
  TextScreen.current_row self <= from_row ->
  placement (TextScreen.scroll self (Some from_row)) = placement self.
Proof.
  destruct self. simpl. intros Hrow. unfold_screen. split_ifs; reflexivity.
Qed.

Lemma placement_scroll_down_below self (from_row : Z) :
  TextScreen.current_row self < from_row ->
  placement (TextScreen.scroll_down self from_row) = placement self.
Proof.
  destruct self. simpl. intros Hrow. unfold_screen. split_ifs; reflexivity.
Qed.

(** A scroll of the whole area takes the cursor up by one row unless it is
    on the top row (or above). *)
Lemma placement_scroll_area self :
  placement (TextScreen.scroll self None) =
    (if TextScreen.current_row self >? ScrollArea.top (TextScreen.scroll_area self)
     then TextScreen.current_row self - 1 else TextScreen.current_row self,
     TextScreen.current_col self, TextScreen._bottom_row_allowed self,
     TextScreen.mode self, TextScreen.scroll_area self).
Proof.
  destruct self. unfold_screen. split_ifs; reflexivity.
Qed.

(** [_delete_at] at or below the cursor's row never moves the cursor: the
    rows it scrolls away are below the cursor's. *)
Lemma _delete_at_placement (fuel : nat) :
  forall self (row col : Z) (remove_depleted : bool) self',
    TextScreen.current_row self <= row ->
    TextScreen._delete_at fuel self row col remove_depleted = Some self' ->
    placement self' = placement self.
Proof.
  induction fuel as [|fuel IH]; intros self row col rd self' Hrow Hdel;
    [discriminate|].
  assert (Hrow_of : forall s : TextScreen.t P, placement s = placement self ->
                              TextScreen.current_row s <= row).
  { intros s Hs. apply (f_equal (fun p => fst (fst (fst (fst p))))) in Hs.
    simpl in Hs. lia. }
  cbn [TextScreen._delete_at] in Hdel.
  destruct (negb (TextScreen.wraps self row)).
  { destruct (col >? TextScreen.row_length self row);
      [injection Hdel as <-; reflexivity|].
    destruct (rd && _); injection Hdel as <-.
    - rewrite placement_scroll_below; [apply placement_set__apage|].
      apply Hrow_of, placement_set__apage.
    - apply placement_set__apage. }
  destruct (TextScreen.row_length self row =? width (TextScreen.mode self)).
  { apply IH in Hdel.
    - rewrite Hdel. apply placement_set__apage.
    - pose proof (Hrow_of _ (placement_set__apage self
        (TextPage.delete_char_attr (TextScreen._apage self) row col (TextScreen._attr self)
           (if TextScreen.row_length self (row + 1) =? 0 then None
            else Some (TextPage.get_char (TextScreen._apage self) (row + 1) 0,
                       TextPage.get_attr (TextScreen._apage self) (row + 1) 0))))).
      lia. }
  destruct (col <? TextScreen.row_length self row);
    [injection Hdel as <-; apply placement_set__apage|].
  destruct (rd && (col =? TextScreen.row_length self row));
    [injection Hdel as <-; apply placement_set__apage|].
  destruct (rd && (TextScreen.row_length self row =? 0));
    [injection Hdel as <-; apply placement_scroll_below; exact Hrow|].
  revert Hdel. generalize (seqZ col (width (TextScreen.mode self) + 1 - col)).
  intros newcols. generalize (eq_refl (placement self)).
  generalize self at 1 3 as s. revert self'.
  induction newcols as [|newcol newcols IHl]; intros self' s Hs Hloop.
  - injection Hloop as <-. exact Hs.
  - destruct (TextScreen.row_length s (row + 1) =? 0);
      [injection Hloop as <-; exact Hs|].
    destruct (TextScreen._delete_at fuel _ (row + 1) 1 true) as [s1|] eqn:Hd;
      [|discriminate].
    match type of Hd with
    | TextScreen._delete_at _ ?s0 _ _ _ = _ =>
      assert (Hs0 : placement s0 = placement self)
        by (rewrite placement_set__apage; exact Hs)
    end.
    pose proof (Hrow_of _ Hs0) as Hrow0.
    apply IH in Hd; [|lia].
    apply (IHl self' s1); [|exact Hloop].
    rewrite Hd. exact Hs0.
Qed.

Lemma placement_up_from_same (a b : TextScreen.t P) :
  placement a = placement b -> placement_up_from a b.
Proof.
  unfold placement, placement_up_from. intros [= -> -> -> -> ->].
  repeat split; auto.
Qed.

Lemma placement_up_from_trans (a b c : TextScreen.t P) :
  placement_up_from a b -> placement_up_from b c -> placement_up_from a c.
Proof.
  unfold placement_up_from.
  intros (Hc1 & Hf1 & Hm1 & Ha1 & Hab) (Hc2 & Hf2 & Hm2 & Ha2 & Hbc).
  rewrite Ha2 in Hab.
  repeat split; try congruence. lia.
Qed.

Lemma placement_up_from_scroll self :
  placement_up_from (TextScreen.scroll self None) self.
Proof.
  pose proof (placement_scroll_area self) as Hs.
  unfold placement, placement_up_from in *.
  injection Hs as -> -> -> -> ->.
  repeat split; auto. split_ifs; lia.
Qed.

(** A cursor that scrolling has taken up is still in bounds. *)
Lemma placement_up_from_bounds (a b : TextScreen.t P) :
  placement_up_from a b ->
  geometry b -> cursor_in_bounds b -> bottom_row_adjoins b ->
  geometry a /\ cursor_in_bounds a /\ bottom_row_adjoins a.
Proof.
  unfold placement_up_from, geometry, cursor_in_bounds, bottom_row_adjoins.
  intros (-> & -> & -> & -> & Hrow) Hgeo [Hcol Hb] Hadj.
  split; [exact Hgeo|]. split; [|exact Hadj].
  split; [exact Hcol|].
  destruct Hrow as [-> | Hrow]; [exact Hb|].
  left. destruct Hb as [Hb | [Hflag Hb]]; [lia|].
  specialize (Hadj Hflag). lia.
Qed.

(** [_insert_at] at or below the cursor's row moves the cursor only by the
    scrolls of the whole area that make room at the bottom: up, and not
    above the top of the scroll area. *)
Lemma _insert_at_placement (fuel : nat) :
  forall self (row col : Z) (c : byte) (attr : Z) self' (placed : bool),
    TextScreen.current_row self <= row ->
    TextScreen._insert_at fuel self row col c attr = Some (self', placed) ->
    placement_up_from self' self.
Proof.
  induction fuel as [|fuel IH]; intros self row col c attr self' placed Hrow Hins;
    [discriminate|].
  assert (Hrow_of : forall s : TextScreen.t P, placement s = placement self ->
                                               TextScreen.current_row s <= row).
  { intros s Hs. apply (f_equal (fun p => fst (fst (fst (fst p))))) in Hs.
    simpl in Hs. lia. }
  cbn [TextScreen._insert_at] in Hins.
  destruct (TextScreen.row_length self row <? width (TextScreen.mode self)).
  - injection Hins as <- _. apply placement_up_from_same.
    match goal with
    | |- placement (if _ then TextScreen.scroll_down ?s0 _ else _) = _ =>
      assert (Hs0 : placement s0 = placement self) by apply placement_set__apage;
      pose proof (Hrow_of _ Hs0)
    end.
    destruct (_ && _); [|exact Hs0].
    rewrite placement_scroll_down_below; [exact Hs0 | lia].
  - match type of Hins with
    | context [if ?b then TextScreen.set_wrap ?s0 row true else self] =>
      set (s1 := if b then TextScreen.set_wrap s0 row true else self) in Hins;
      assert (Hs1 : placement s1 = placement self)
    end.
    { subst s1. destruct (_ && _); [|reflexivity].
      rewrite placement_set_wrap. apply placement_scroll_down_below. lia. }
    pose proof (Hrow_of _ Hs1) as Hrow1. clearbody s1.
    destruct (row >=? ScrollArea.bottom (TextScreen.scroll_area s1)).
    + destruct (_ <=? _).
      * injection Hins as <- _. apply placement_up_from_same. exact Hs1.
      * destruct (TextPage.insert_char_attr _ _ _ _ _) as [page popped].
        apply IH in Hins.
        -- apply (placement_up_from_trans _ _ _ Hins).
           apply (placement_up_from_trans _ (TextScreen.scroll s1 None)).
           ++ apply placement_up_from_same, placement_set__apage.
           ++ apply (placement_up_from_trans _ s1);
                [apply placement_up_from_scroll | apply placement_up_from_same; exact Hs1].
        -- pose proof (placement_set__apage (TextScreen.scroll s1 None) page) as Hp.
           pose proof (placement_scroll_area s1) as Hq.
           rewrite Hq in Hp.
           apply (f_equal (fun p => fst (fst (fst (fst p))))) in Hp. simpl in Hp.
           rewrite Hp. split_ifs; lia.
    + destruct (TextPage.insert_char_attr _ _ _ _ _) as [page popped].
      apply IH in Hins.
      * apply (placement_up_from_trans _ _ _ Hins).
        apply placement_up_from_same. rewrite placement_set__apage. exact Hs1.
      * pose proof (Hrow_of _ (eq_trans (placement_set__apage s1 page) Hs1)). lia.
Qed.

(** [delete_fullchar] never moves the cursor. *)
Lemma delete_fullchar_placement (fuel : nat) self self' :
  TextScreen.delete_fullchar fuel self = Some self' ->
  placement self' = placement self.
Proof.
  unfold TextScreen.delete_fullchar. intros Hdel.
  destruct (_ >? 0).
  - destruct (TextScreen._delete_at fuel self _ _ false) as [s1|] eqn:H1;
      [|discriminate].
    apply _delete_at_placement in H1; [|lia].
    destruct (_ =? 2).
    + apply _delete_at_placement in Hdel; [|lia]. congruence.
    + injection Hdel as <-. exact H1.
  - destruct (_ =? 2).
    + apply _delete_at_placement in Hdel; [exact Hdel | lia].
    + injection Hdel as <-. reflexivity.
Qed.

(** [set_pos] keeps the geometry and never sets the bottom-row flag. *)
Lemma set_pos_keeps_geometry self (to_row to_col : Z) (scroll_ok : bool) :
  TextScreen.mode (TextScreen.set_pos self to_row to_col scroll_ok) = TextScreen.mode self /\
  TextScreen.scroll_area (TextScreen.set_pos self to_row to_col scroll_ok)
    = TextScreen.scroll_area self /\
  (TextScreen._bottom_row_allowed (TextScreen.set_pos self to_row to_col scroll_ok) = true ->
   TextScreen._bottom_row_allowed self = true).
Proof.
  destruct self. unfold_screen. split_ifs; repeat split; auto.
Qed.

Lemma set_pos_keeps_premises self (to_row to_col : Z) (scroll_ok : bool) :
  (geometry self -> geometry (TextScreen.set_pos self to_row to_col scroll_ok)) /\
  (bottom_row_adjoins self ->
   bottom_row_adjoins (TextScreen.set_pos self to_row to_col scroll_ok)).
Proof.
  destruct (set_pos_keeps_geometry self to_row to_col scroll_ok) as (Hm & Ha & Hf).
  unfold geometry, bottom_row_adjoins. rewrite Hm, Ha. auto.
Qed.

(** [insert_fullchars] keeps the mode and the scroll area. *)
Lemma insert_fullchars_frame (fuel : nat) (sequence : list byte) :
  forall self self',
    TextScreen.insert_fullchars fuel self sequence = Some self' ->
    TextScreen.mode self' = TextScreen.mode self /\
    TextScreen.scroll_area self' = TextScreen.scroll_area self.
Proof.
  induction sequence as [|c sequence IH]; intros self self' Hins.
  - injection Hins as <-. auto.
  - cbn [TextScreen.insert_fullchars] in Hins.
    destruct (TextScreen._insert_at fuel self _ _ c _) as [[s1 placed]|] eqn:H1;
      [|discriminate].
    apply _insert_at_placement in H1; [|lia].
    destruct H1 as (_ & _ & Hm & Ha & _).
    destruct placed; apply IH in Hins; destruct Hins as [-> ->].
    + unfold TextScreen.incr_pos.
      destruct (set_pos_keeps_geometry s1 (TextScreen.current_row s1)
                  (TextScreen.current_col s1
                   + (if TextPage.get_charwidth (TextScreen._apage s1)
                           (TextScreen.current_row s1) (TextScreen.current_col s1) =? 0
                      then 1
                      else TextPage.get_charwidth (TextScreen._apage s1)
                             (TextScreen.current_row s1) (TextScreen.current_col s1)))
                  false) as (-> & -> & _).
      auto.
    + auto.
Qed.

(** [insert_fullchars] from a cursor in bounds ends in bounds. *)
Lemma insert_fullchars_in_bounds (fuel : nat) (sequence : list byte) :
  forall self self',
    geometry self -> cursor_in_bounds self -> bottom_row_adjoins self ->
    charwidth_fits self ->
    TextScreen.insert_fullchars fuel self sequence = Some self' ->
    cursor_in_bounds self'.
Proof.
  induction sequence as [|c sequence IH]; intros self self' Hgeo Hb Hadj Hcw Hins.
  - injection Hins as <-. exact Hb.
  - cbn [TextScreen.insert_fullchars] in Hins.
    destruct (TextScreen._insert_at fuel self _ _ c _) as [[s1 placed]|] eqn:H1;
      [|discriminate].
    apply _insert_at_placement in H1; [|lia].
    destruct (placement_up_from_bounds _ _ H1 Hgeo Hb Hadj) as (Hgeo1 & Hb1 & Hadj1).
    assert (Hcw1 : charwidth_fits s1).
    { destruct H1 as (_ & _ & Hm & _). unfold charwidth_fits in *. rewrite Hm. exact Hcw. }
    destruct placed.
    + apply (IH (TextScreen.incr_pos s1)); [| | | |exact Hins].
      * apply set_pos_keeps_premises, Hgeo1.
      * apply incr_pos_in_bounds; [exact Hgeo1 | apply Hb1 | apply Hcw1].
      * apply set_pos_keeps_premises, Hadj1.
      * unfold charwidth_fits in *. unfold TextScreen.incr_pos.
        destruct (set_pos_keeps_geometry s1 (TextScreen.current_row s1)
                  (TextScreen.current_col s1
                   + (if TextPage.get_charwidth (TextScreen._apage s1)
                           (TextScreen.current_row s1) (TextScreen.current_col s1) =? 0
                      then 1
                      else TextPage.get_charwidth (TextScreen._apage s1)
                             (TextScreen.current_row s1) (TextScreen.current_col s1)))
                  false) as (-> & _). exact Hcw1.
    + apply (IH s1); assumption.
Qed.

(** [line_feed] from a cursor in bounds ends in bounds. *)
Lemma line_feed_in_bounds (fuel : nat) self self' :
  geometry self -> cursor_in_bounds self ->
  TextScreen.line_feed fuel self = Some self' ->
  cursor_in_bounds self'.
Proof.
  intros Hgeo Hb.
  assert (Hopen : forall s : TextScreen.t P, geometry s ->
            cursor_in_bounds
              (TextScreen.set_pos
                 (TextScreen.set_wrap
                    (if TextScreen.current_row s <? height (TextScreen.mode s)
                     then TextScreen.scroll_down s (TextScreen.current_row s + 1)
                     else s)
                    (TextScreen.current_row
                       (if TextScreen.current_row s <? height (TextScreen.mode s)
                        then TextScreen.scroll_down s (TextScreen.current_row s + 1)
                        else s)) true)
                 (TextScreen.current_row
                    (TextScreen.set_wrap
                       (if TextScreen.current_row s <? height (TextScreen.mode s)
                        then TextScreen.scroll_down s (TextScreen.current_row s + 1)
                        else s)
                       (TextScreen.current_row
                          (if TextScreen.current_row s <? height (TextScreen.mode s)
                           then TextScreen.scroll_down s (TextScreen.current_row s + 1)
                           else s)) true) + 1) 1 true)).
  { intros s Hg.
    set (s1 := if _ <? _ then _ else s).
    assert (Hs1 : placement s1 = placement s).
    { subst s1. destruct (_ <? _); [|reflexivity].
      apply placement_scroll_down_below. lia. }
    set (s2 := TextScreen.set_wrap s1 _ true).
    assert (Hs2 : placement s2 = placement s)
      by (subst s2; rewrite placement_set_wrap; exact Hs1).
    destruct (placement_bounds _ _ Hs2) as (Hg2 & _ & _).
    specialize (Hg2 Hg).
    apply set_pos_in_bounds; [exact Hg2|].
    unfold col_within_reach. destruct Hg2 as (_ & _ & _ & Hw).
    split; [lia|intros; lia]. }
  unfold TextScreen.line_feed.
  destruct (TextScreen.current_col self
              <? TextScreen.row_length self (TextScreen.current_row self)).
  - destruct (TextScreen.insert_fullchars fuel self _) as [s1|] eqn:H1; [|discriminate].
    apply insert_fullchars_frame in H1. destruct H1 as [Hm Ha].
    intros [= <-]. cbn [fst snd].
    eapply placement_bounds;
      [rewrite placement_set_wrap, placement_set_row_length; reflexivity|].
    apply set_pos_in_bounds.
    + unfold geometry. rewrite Hm, Ha. exact Hgeo.
    + unfold col_within_reach. rewrite Hm. destruct Hb as [Hcol _].
      destruct Hgeo as (_ & _ & _ & Hw). split; [lia|intros; lia].
  - destruct (TextPage.find_end_of_line _ _ >=? _).
    + destruct (TextPage.find_start_of_line _ _ >? _); intros [= <-]; [|exact Hb].
      apply Hopen.
      destruct (placement_up_from_scroll self) as (_ & _ & Hm & Ha & _).
      unfold geometry. rewrite Hm, Ha. exact Hgeo.
    + intros [= <-]. apply Hopen, Hgeo.
Qed.

(** [backspace] from a cursor in bounds ends in bounds when its [decr_pos]
    does. *)
Lemma backspace_in_bounds (fuel : nat) self (prompt_row furthest_left : Z) self' :
  geometry self -> cursor_in_bounds self ->
  3 <= width (TextScreen.mode self) ->
  (TextScreen._bottom_row_allowed self = true ->
   TextScreen.current_row self = height (TextScreen.mode self) ->
   3 <= TextScreen.current_col self) ->
  TextScreen.backspace fuel self prompt_row furthest_left = Some self' ->
  cursor_in_bounds self'.
Proof.
  intros Hgeo Hb Hw Hlast. unfold TextScreen.backspace. intros Hdel.
  apply delete_fullchar_placement in Hdel.
  eapply placement_bounds; [exact Hdel|].
  destruct (_ && _); [|exact Hb].
  apply decr_pos_in_bounds; [exact Hgeo | apply Hb | exact Hw | exact Hlast].
Qed.

End EditingPaths.

(** C1, as the code has it: under the stated precondition on the scroll
    area and the width, [check_pos] (and [set_pos], which ends in it) leaves
    the cursor in bounds when the column it is handed is at most one screen
    width off the screen ([1 - width <= col <= 2 * width]) and, on the
    allowed bottom row, not below 0; [write_char] started at a column
    [>= 1] leaves it in bounds, and so do [incr_pos] and [decr_pos] from a
    column on the screen when the step taken from the page's cell width
    stays in that reach.  On the editing paths, from a cursor in bounds:
    [insert_fullchars] ends in bounds when the page's cell widths lie in
    [0, width] and, while the bottom row is allowed, the scroll area reaches
    the row before the last; [delete_fullchar] does not move the cursor at
    all; [backspace] ends in bounds under the conditions of [decr_pos]; and
    [line_feed] ends in bounds.  The four hold whenever the call returns,
    for every implementation of the page. *)
Theorem cursor_bounds_after_check_pos
    {P : Type} `{TextPage.Ops P} (self : TextScreen.t P) :
  geometry self ->
  (forall scroll_ok,
     col_within_reach self (TextScreen.current_col self) (TextScreen.current_row self) ->
     cursor_in_bounds (fst (TextScreen.check_pos self scroll_ok))) /\
  (forall to_row to_col scroll_ok,
     col_within_reach self to_col to_row ->
     cursor_in_bounds (TextScreen.set_pos self to_row to_col scroll_ok)) /\
  (forall char do_scroll_down,
     1 <= TextScreen.current_col self ->
     cursor_in_bounds (TextScreen.write_char self char do_scroll_down)) /\
  (1 <= TextScreen.current_col self <= width (TextScreen.mode self) ->
   0 <= TextPage.get_charwidth (TextScreen._apage self) (TextScreen.current_row self)
          (TextScreen.current_col self) <= width (TextScreen.mode self) ->
   cursor_in_bounds (TextScreen.incr_pos self)) /\
  (1 <= TextScreen.current_col self <= width (TextScreen.mode self) ->
   3 <= width (TextScreen.mode self) ->
   (TextScreen._bottom_row_allowed self = true ->
    TextScreen.current_row self = height (TextScreen.mode self) ->
    3 <= TextScreen.current_col self) ->
   cursor_in_bounds (TextScreen.decr_pos self)) /\
  (forall fuel sequence self',
     cursor_in_bounds self -> bottom_row_adjoins self -> charwidth_fits self ->
     TextScreen.insert_fullchars fuel self sequence = Some self' ->
     cursor_in_bounds self') /\
  (forall fuel self',
     cursor_in_bounds self ->
     TextScreen.delete_fullchar fuel self = Some self' ->
     cursor_in_bounds self' /\
     TextScreen.current_row self' = TextScreen.current_row self /\
     TextScreen.current_col self' = TextScreen.current_col self) /\
  (forall fuel prompt_row furthest_left self',
     cursor_in_bounds self ->
     3 <= width (TextScreen.mode self) ->
     (TextScreen._bottom_row_allowed self = true ->
      TextScreen.current_row self = height (TextScreen.mode self) ->
      3 <= TextScreen.current_col self) ->
     TextScreen.backspace fuel self prompt_row furthest_left = Some self' ->
     cursor_in_bounds self') /\
  (forall fuel self',
     cursor_in_bounds self ->
     TextScreen.line_feed fuel self = Some self' ->
     cursor_in_bounds self').
Proof.
  intros Hgeo. repeat apply conj.
  - intros. apply check_pos_in_bounds; assumption.
  - intros. apply set_pos_in_bounds; assumption.
  - intros. apply write_char_in_bounds; assumption.
  - intros. apply incr_pos_in_bounds; assumption.
  - intros. apply decr_pos_in_bounds; assumption.
  - intros fuel sequence self' Hb Hadj Hcw Hins.
    exact (insert_fullchars_in_bounds fuel sequence self self' Hgeo Hb Hadj Hcw Hins).
  - intros fuel self' Hb Hdel.
    pose proof (delete_fullchar_placement fuel self self' Hdel) as Hp.
    split; [exact (proj1 (proj2 (placement_bounds self self' Hp)) Hb)|].
    unfold placement in Hp. injection Hp as Hrow Hcol _ _ _. auto.
  - intros fuel prompt_row furthest_left self' Hb Hw Hlast Hbs.
    exact (backspace_in_bounds fuel self prompt_row furthest_left self'
             Hgeo Hb Hw Hlast Hbs).
  - intros fuel self' Hb Hlf.
    exact (line_feed_in_bounds fuel self self' Hgeo Hb Hlf).
Qed.

Lemma geometry_screen_80x25 : geometry screen_80x25.
Proof. unfold geometry. simpl. lia. Qed.

(** The theorem on the 80 x 25 screen: [set_pos(24, 81)] ends in bounds,
    and so do the insertion of a character, the deletion under the cursor
    and the line feed at (1, 1), each of which returns. *)
Lemma cursor_bounds_after_check_pos_witness :
  geometry screen_80x25 /\
  cursor_in_bounds (TextScreen.set_pos screen_80x25 24 81 true) /\
  (exists self',
     TextScreen.insert_fullchars 1 screen_80x25 ["c"%byte] = Some self' /\
     cursor_in_bounds self') /\
  (exists self',
     TextScreen.delete_fullchar 1 screen_80x25 = Some self' /\
     cursor_in_bounds self') /\
  (exists self',
     TextScreen.line_feed 1 screen_80x25 = Some self' /\
     cursor_in_bounds self').
Proof.
  pose proof (cursor_bounds_after_check_pos screen_80x25 geometry_screen_80x25)
    as (_ & Hset & _ & _ & _ & Hins & Hdel & _ & Hlf).
  assert (Hb : cursor_in_bounds screen_80x25)
    by (unfold cursor_in_bounds; simpl; lia).
  split; [exact geometry_screen_80x25|]. split; [|split; [|split]].
  - apply Hset. unfold col_within_reach. simpl. split; [lia | discriminate].
  - destruct (TextScreen.insert_fullchars 1 screen_80x25 ["c"%byte]) as [s|] eqn:Hs;
      [|vm_compute in Hs; discriminate].
    exists s. split; [reflexivity|].
    apply (Hins 1%nat ["c"%byte] s Hb); [| |exact Hs].
    + unfold bottom_row_adjoins. simpl. discriminate.
    + intros page row col. change (0 <= 1 <= 80). lia.
  - destruct (TextScreen.delete_fullchar 1 screen_80x25) as [s|] eqn:Hs;
      [|vm_compute in Hs; discriminate].
    exists s. split; [reflexivity|]. exact (proj1 (Hdel 1%nat s Hb Hs)).
  - destruct (TextScreen.line_feed 1 screen_80x25) as [s|] eqn:Hs;
      [|vm_compute in Hs; discriminate].
    exists s. split; [reflexivity|]. exact (Hlf 1%nat s Hb Hs).
Defined.

(** C1 as stated fails: on the 80 x 25 screen with scroll area 1..24,
    [set_pos(10, 200)] runs [check_pos] and leaves the cursor on column 120;
    one pass of [check_pos] takes off one screen width only. *)
Lemma set_pos_far_column_out_of_bounds :
  ~ (forall (self : TextScreen.t PageModel.t) (to_row to_col : Z) (scroll_ok : bool),
       geometry self ->
       cursor_in_bounds (TextScreen.set_pos self to_row to_col scroll_ok)).
Proof.
  intros Hclaim.
  destruct (Hclaim screen_80x25 10 200 true geometry_screen_80x25) as [Hcol _].
  assert (Hc : TextScreen.current_col (TextScreen.set_pos screen_80x25 10 200 true) = 120)
    by (vm_compute; reflexivity).
  rewrite Hc in Hcol. simpl in Hcol. lia.
Qed.

Section DeferredWrap.

Context {P : Type} `{TextPage.Ops P}.
Implicit Type self : TextScreen.t P.

Lemma write_position_frame self do_scroll_down :
  TextScreen.mode (write_position self do_scroll_down) = TextScreen.mode self /\
  TextScreen.scroll_area (write_position self do_scroll_down)
    = TextScreen.scroll_area self.
Proof.
  unfold write_position.
  set (s1 := if TextScreen.overflow self then _ else self).
  destruct (check_pos_frame (TextScreen._check_wrap s1 do_scroll_down) true)
    as (-> & -> & _).
  destruct (_check_wrap_frame s1 do_scroll_down) as (-> & -> & _).
  subst s1. destruct self. simpl. split_ifs; auto.
Qed.

(** After the character is put on the last column, [write_char] raises
    [overflow] and the cursor stays on that column. *)
Lemma write_char_on_last_column self char do_scroll_down :
  geometry self ->
  TextScreen.current_col (write_position self do_scroll_down)
    = width (TextScreen.mode self) ->
  let self1 := TextScreen.write_char self char do_scroll_down in
  (TextScreen.overflow self1 = true /\
   TextScreen.current_col self1 = width (TextScreen.mode self) /\
   TextScreen.mode self1 = TextScreen.mode self /\
   TextScreen.scroll_area self1 = TextScreen.scroll_area self /\
   cursor_in_bounds self1) /\
  (TextScreen._bottom_row_allowed self1 = true ->
   TextScreen.current_row self1 = height (TextScreen.mode self1)).
Proof.
  intros Hgeo Hcol. cbv zeta. rewrite write_char_unfold. cbv zeta.
  split; [|apply check_pos_flag_on_last_row].
  destruct (write_position_frame self do_scroll_down) as [Hm Ha].
  set (s3 := write_position self do_scroll_down) in *.
  assert (Hg3 : geometry s3) by (apply (geometry_eq self); assumption).
  rewrite <- Hm in Hcol |- *. rewrite <- Ha. clearbody s3. clear Hm Ha Hgeo.
  unfold geometry, cursor_in_bounds in *.
  destruct s3. simpl in *. subst.
  rewrite Z.ltb_irrefl. simpl.
  split_ifs; repeat split; auto; try lia;
    first [left; lia | right; split; [reflexivity | lia]].
Qed.

(** From the overflow position above the last physical row, the next
    [write_char] puts its character on column 1 of the next row, after
    scrolling the scroll area up when the cursor was on its bottom row. *)
Lemma next_write_position_wraps self do_scroll_down :
  geometry self -> cursor_in_bounds self ->
  (TextScreen._bottom_row_allowed self = true ->
   TextScreen.current_row self = height (TextScreen.mode self)) ->
  TextScreen.overflow self = true ->
  TextScreen.current_col self = width (TextScreen.mode self) ->
  TextScreen.current_row self < height (TextScreen.mode self) ->
  let bottom := ScrollArea.bottom (TextScreen.scroll_area self) in
  let row := TextScreen.current_row self in
  let wrapped :=
    TextPage.set_wrap
      (if do_scroll_down && (row <? bottom)
       then TextPage.scroll_down (TextScreen._apage self) (row + 1) bottom
              (TextScreen._attr self)
       else TextScreen._apage self) row true in
  let placed := write_position self do_scroll_down in
  TextScreen.overflow placed = false /\
  TextScreen.current_col placed = 1 /\
  TextScreen.current_row placed = Z.min (row + 1) bottom /\
  TextScreen._apage placed =
    (if row <? bottom then wrapped
     else TextPage.scroll_up wrapped (ScrollArea.top (TextScreen.scroll_area self))
            bottom (TextScreen._attr self)).
Proof.
  unfold geometry, cursor_in_bounds, write_position.
  destruct self. simpl.
  intros Hgeo [Hcol Hrow] Hflag -> -> Hlast. simpl.
  split_ifs; use_trivial_premises; repeat split; auto; try lia;
    destruct Hrow as [Hrow | [Hfl Hrow]]; try discriminate; try lia.
Qed.

(** On the last physical row there is no row to wrap to: the next
    character is put on the last column again. *)
Lemma next_write_position_last_row self do_scroll_down :
  geometry self -> cursor_in_bounds self ->
  TextScreen.overflow self = true ->
  TextScreen.current_col self = width (TextScreen.mode self) ->
  ~ TextScreen.current_row self < height (TextScreen.mode self) ->
  let placed := write_position self do_scroll_down in
  TextScreen.overflow placed = false /\
  TextScreen.current_col placed = width (TextScreen.mode self) /\
  TextScreen.current_row placed = TextScreen.current_row self.
Proof.
  unfold geometry, cursor_in_bounds, write_position.
  destruct self. simpl.
  intros Hgeo [Hcol Hrow] -> -> Hlast. simpl.
  split_ifs; repeat split; auto; try lia.
Qed.

End DeferredWrap.

(** C2, as the code has it: when [write_char] puts its character on column
    [mode.width], [overflow] is set afterwards and the cursor is still on
    that column.  If the cursor is then above the last physical row
    ([current_row < mode.height]), the next [write_char] clears [overflow]
    and puts its character on column 1 of the next row, having scrolled the
    scroll area up when the cursor was on its bottom row; on the last
    physical row it does not wrap and puts the character on column
    [mode.width] of the same row again. *)
Theorem write_char_deferred_wrap
    {P : Type} `{TextPage.Ops P} (self : TextScreen.t P)
    (char : byte) (do_scroll_down next_scroll_down : bool) :
  geometry self ->
  TextScreen.current_col (write_position self do_scroll_down)
    = width (TextScreen.mode self) ->
  let self1 := TextScreen.write_char self char do_scroll_down in
  let placed := write_position self1 next_scroll_down in
  let row := TextScreen.current_row self1 in
  let bottom := ScrollArea.bottom (TextScreen.scroll_area self1) in
  let wrapped :=
    TextPage.set_wrap
      (if next_scroll_down && (row <? bottom)
       then TextPage.scroll_down (TextScreen._apage self1) (row + 1) bottom
              (TextScreen._attr self1)
       else TextScreen._apage self1) row true in
  TextScreen.overflow self1 = true /\
  TextScreen.current_col self1 = width (TextScreen.mode self) /\
  TextScreen.overflow placed = false /\
  (row < height (TextScreen.mode self) ->
   TextScreen.current_col placed = 1 /\
   TextScreen.current_row placed = Z.min (row + 1) bottom /\
   TextScreen._apage placed =
     (if row <? bottom then wrapped
      else TextPage.scroll_up wrapped (ScrollArea.top (TextScreen.scroll_area self1))
             bottom (TextScreen._attr self1))) /\
  (~ row < height (TextScreen.mode self) ->
   TextScreen.current_col placed = width (TextScreen.mode self) /\
   TextScreen.current_row placed = row).
Proof.
  intros Hgeo Hcol.
  destruct (write_char_on_last_column self char do_scroll_down Hgeo Hcol)
    as ((Hov & Hc1 & Hm & Ha & Hb) & Hfl).
  cbv zeta.
  set (self1 := TextScreen.write_char self char do_scroll_down) in *.
  assert (Hg1 : geometry self1) by (apply (geometry_eq self); assumption).
  rewrite <- Hm in Hc1 |- *.
  split; [exact Hov|]. split; [exact Hc1|].
  destruct (Z_lt_dec (TextScreen.current_row self1) (height (TextScreen.mode self1)))
    as [Hlt | Hge].
  - destruct (next_write_position_wraps self1 next_scroll_down Hg1 Hb Hfl Hov Hc1 Hlt)
      as (Ho2 & Hc2 & Hr2 & Hp2).
    split; [exact Ho2|]. split; [|intros; contradiction].
    intros _. auto.
  - destruct (next_write_position_last_row self1 next_scroll_down Hg1 Hb Hov Hc1 Hge)
      as (Ho2 & Hc2 & Hr2).
    split; [exact Ho2|]. split; [intros; contradiction|].
    intros _. auto.
Qed.

(** The theorem on the 80 x 25 screen with the cursor on column 80 of
    row 1: the character is put there, and the next one on (2, 1). *)
Lemma write_char_deferred_wrap_witness :
  TextScreen.overflow
    (TextScreen.write_char (TextScreen.set_current_col screen_80x25 80) "A"%byte false)
    = true /\
  TextScreen.current_col
    (TextScreen.write_char (TextScreen.set_current_col screen_80x25 80) "A"%byte false)
    = 80.
Proof.
  pose proof (write_char_deferred_wrap (TextScreen.set_current_col screen_80x25 80)
                "A"%byte false false) as Hthm.
  cbv zeta in Hthm.
  assert (Hgeo : geometry (TextScreen.set_current_col screen_80x25 80))
    by exact geometry_screen_80x25.
  assert (Hcol : TextScreen.current_col
                   (write_position (TextScreen.set_current_col screen_80x25 80) false)
                 = width (TextScreen.mode (TextScreen.set_current_col screen_80x25 80)))
    by (vm_compute; reflexivity).
  destruct (Hthm Hgeo Hcol) as (Hov & Hc & _).
  split; [exact Hov | exact Hc].
Defined.

(** C2 as stated fails on the last physical row: after [LOCATE 25, 80] the
    character is put on (25, 80) and [overflow] is set, but the next
    [write_char] puts its character on column 80 of row 25 again, not on
    column 1 of a next row. *)
Lemma deferred_wrap_fails_on_last_row :
  ~ (forall (self : TextScreen.t PageModel.t) (char : byte)
            (do_scroll_down next_scroll_down : bool),
       geometry self ->
       TextScreen.current_col (write_position self do_scroll_down)
         = width (TextScreen.mode self) ->
       TextScreen.current_col
         (write_position (TextScreen.write_char self char do_scroll_down)
            next_scroll_down) = 1).
Proof.
  intros Hclaim.
  assert (Hgeo : geometry screen_on_last_row)
    by (unfold geometry; simpl; lia).
  assert (Hcol : TextScreen.current_col (write_position screen_on_last_row false)
                 = width (TextScreen.mode screen_on_last_row))
    by (vm_compute; reflexivity).
  specialize (Hclaim screen_on_last_row "A"%byte false false Hgeo Hcol).
  vm_compute in Hclaim. discriminate.
Qed.

(** * The callbacks of the function layer *)

(** Run the error monad down to the outcome. *)
Ltac unfold_M :=
  unfold mbind, mret, M_bind, M_ret, get_self, update, raise,
    error.throw_if, error.range_check, error.in_range, forallb.

(** C5: [view_print_] with both arguments in [1, max_line] and
    [start <= stop] returns with the bounds of the scroll area set to
    [(start, stop)], the area active and the cursor (the screen's position
    and the cursor object) on [(start, 1)]; with no
    arguments it returns with the bounds reset to [(1, height - 1)] and the
    area inactive; with both arguments in range and [stop < start] it raises
    the illegal-function-call error (before it changes anything). *)
Theorem view_print_behaviour
    {P : Type} `{TextPage.Ops P} (self : TextScreen.t P) (start stop : Z) :
  (1 <= start <= max_line self -> 1 <= stop <= max_line self -> start <= stop ->
   exists self',
     TextScreen.view_print_ (Some start, Some stop) self = Returned tt self' /\
     ScrollArea.bounds (TextScreen.scroll_area self') = (start, stop) /\
     ScrollArea.active (TextScreen.scroll_area self') = true /\
     TextScreen.current_row self' = start /\
     TextScreen.current_col self' = 1 /\
     Cursor.row (TextScreen._cursor self') = start /\
     Cursor.col (TextScreen._cursor self') = 1 /\
     TextScreen.overflow self' = false) /\
  (exists self',
     TextScreen.view_print_ (None, None) self = Returned tt self' /\
     ScrollArea.bounds (TextScreen.scroll_area self')
       = (1, ScrollArea._height (TextScreen.scroll_area self) - 1) /\
     (ScrollArea._height (TextScreen.scroll_area self) = height (TextScreen.mode self) ->
      ScrollArea.bounds (TextScreen.scroll_area self')
        = (1, height (TextScreen.mode self) - 1)) /\
     ScrollArea.active (TextScreen.scroll_area self') = false) /\
  (1 <= start <= max_line self -> 1 <= stop <= max_line self -> stop < start ->
   TextScreen.view_print_ (Some start, Some stop) self = Raised IFC self).
Proof.
  unfold max_line.
  destruct self as [tandy cur row col ov [ah aact atop abot] flag bar md attr page].
  simpl. split; [|split].
  - intros Hstart Hstop Hle. unfold TextScreen.view_print_. unfold_M. simpl.
    replace ((1 <=? start) && (start <=? (if tandy && negb (BottomBar.visible bar) then 25 else 24)))
      with true by (symmetry; apply andb_true_iff; lia).
    replace ((1 <=? stop) && (stop <=? (if tandy && negb (BottomBar.visible bar) then 25 else 24)))
      with true by (symmetry; apply andb_true_iff; lia).
    simpl. replace (stop <? start) with false by (symmetry; apply Z.ltb_ge; lia).
    simpl. eexists. split; [reflexivity|].
    destruct (is_text_mode md); simpl; repeat split; reflexivity.
  - unfold TextScreen.view_print_. unfold_M. simpl.
    eexists. split; [reflexivity|]. simpl.
    split; [reflexivity|]. split; [|reflexivity].
    intros ->. reflexivity.
  - intros Hstart Hstop Hlt. unfold TextScreen.view_print_. unfold_M. simpl.
    replace ((1 <=? start) && (start <=? (if tandy && negb (BottomBar.visible bar) then 25 else 24)))
      with true by (symmetry; apply andb_true_iff; lia).
    replace ((1 <=? stop) && (stop <=? (if tandy && negb (BottomBar.visible bar) then 25 else 24)))
      with true by (symmetry; apply andb_true_iff; lia).
    simpl. replace (stop <? start) with true by (symmetry; apply Z.ltb_lt; lia).
    reflexivity.
Qed.

(** The theorem on the 80 x 25 screen: [VIEW PRINT 5, 10]. *)
Lemma view_print_behaviour_witness :
  exists self',
    TextScreen.view_print_ (Some 5, Some 10) screen_80x25 = Returned tt self' /\
    ScrollArea.bounds (TextScreen.scroll_area self') = (5, 10) /\
    ScrollArea.active (TextScreen.scroll_area self') = true /\
    TextScreen.current_row self' = 5 /\
    TextScreen.current_col self' = 1 /\
    Cursor.row (TextScreen._cursor self') = 5 /\
    Cursor.col (TextScreen._cursor self') = 1 /\
    TextScreen.overflow self' = false.
Proof.
  refine (proj1 (view_print_behaviour screen_80x25 5 10) _ _ _);
    unfold max_line; simpl; lia.
Defined.

(** C6: [locate_] called with row [mode.height] (given, or omitted with
    the cursor on that row) while the bottom bar is visible raises the
    illegal-function-call error and leaves the whole screen, the cursor
    state included, as it was. *)
Theorem locate_bottom_row_error
    {P : Type} `{TextPage.Ops P} (self : TextScreen.t P) (args : list (option Z)) :
  (length args <= 5)%nat ->
  BottomBar.visible (TextScreen._bottom_bar self) = true ->
  locate_row self args = height (TextScreen.mode self) ->
  TextScreen.locate_ args self = Raised IFC self.
Proof.
  intros Hlen Hbar Hrow. unfold locate_row in Hrow.
  destruct args as [|a0 [|a1 [|a2 [|a3 [|a4 [|a5 args]]]]]];
    try (simpl in Hlen; lia);
    unfold TextScreen.locate_; simpl app; cbv iota beta;
    unfold_M; simpl in Hrow |- *;
    rewrite Hrow, Z.eqb_refl, Hbar; reflexivity.
Qed.

(** The theorem on the 80 x 25 screen with the key bar shown:
    [LOCATE 25, 1]. *)
Lemma locate_bottom_row_error_witness :
  TextScreen.locate_ [Some 25; Some 1]
    (TextScreen.Build false (Cursor.Build 1 1 7 1 true (0, 0)) 3 4 false
       (ScrollArea.__init__ mode_80x25) false
       (BottomBar.Build (replicate 80%nat (" "%byte, false)) true)
       mode_80x25 7 (PageModel.__init__ 7 80 25))
  = Raised IFC
      (TextScreen.Build false (Cursor.Build 1 1 7 1 true (0, 0)) 3 4 false
         (ScrollArea.__init__ mode_80x25) false
         (BottomBar.Build (replicate 80%nat (" "%byte, false)) true)
         mode_80x25 7 (PageModel.__init__ 7 80 25)).
Proof.
  apply locate_bottom_row_error.
  - simpl. lia.
  - reflexivity.
  - reflexivity.
Defined.

(** * Insertion and deletion on the text page *)

Section RowFacts.

(** Shifting the cells from index [k] one to the right (dropping the last
    cell) and then shifting the cells from [k] to the logical end [S L] back
    to the left: the first [L] cells are as before, a fill cell follows, and
    the cells behind it are the old ones moved one to the right. *)
Lemma shift_right_then_left {X} (l : list X) (c fill : X) (k L w : nat) :
  (k <= L)%nat -> (L < w)%nat -> length l = w ->
  take k (take w (take k l ++ [c] ++ drop k l))
    ++ drop (S k) (take (S L) (take w (take k l ++ [c] ++ drop k l)))
    ++ fill :: drop (S L) (take w (take k l ++ [c] ++ drop k l))
  = take L l ++ fill :: take (w - S L) (drop L l).
Proof.
  revert l L w. induction k as [|k IH]; intros l L w HkL HLw Hlen.
  - simpl. rewrite drop_0. destruct w as [|w]; [lia|]. simpl.
    rewrite take_take, Nat.min_l by lia.
    rewrite take_drop_commute. replace (L + (w - L))%nat with w by lia.
    reflexivity.
  - destruct l as [|x l]; [simpl in Hlen; lia|].
    destruct L as [|L]; [lia|]. destruct w as [|w]; [lia|].
    simpl in Hlen. simpl. f_equal.
    apply (IH l L w); lia.
Qed.

(** What [insert] makes of a row with spare capacity. *)
Lemma TextRow_insert_spare (w : Z) (r : TextRow.t) (col : Z) (c : byte) (attr : Z) :
  1 <= col <= TextRow.length r -> TextRow.length r < w ->
  let r1 := fst (TextRow.insert w r col c attr) in
  TextRow.length r1 = TextRow.length r + 1 /\
  TextRow.wrap r1 = TextRow.wrap r /\
  TextRow.chars r1 =
    take (Z.to_nat w)
      (take (Z.to_nat (col - 1)) (TextRow.chars r) ++ [c]
         ++ drop (Z.to_nat (col - 1)) (TextRow.chars r)).
Proof.
  intros Hcol Hlen. unfold TextRow.insert.
  replace ((1 <=? col) && (col <=? w)) with true
    by (symmetry; apply andb_true_iff; lia).
  simpl. repeat split; lia.
Qed.

(** Deleting the inserted character again: the logical length and the
    characters up to it are back, and the whole row when the cells behind
    the logical end were blank. *)
Lemma TextRow_insert_delete (w : Z) (r : TextRow.t) (col : Z) (c : byte)
    (attr attr' : Z) :
  length (TextRow.chars r) = Z.to_nat w ->
  1 <= col <= TextRow.length r -> TextRow.length r < w ->
  let r2 := TextRow.delete (fst (TextRow.insert w r col c attr)) col attr' None in
  TextRow.length r2 = TextRow.length r /\
  TextRow.wrap r2 = TextRow.wrap r /\
  take (Z.to_nat (TextRow.length r)) (TextRow.chars r2)
    = take (Z.to_nat (TextRow.length r)) (TextRow.chars r) /\
  (drop (Z.to_nat (TextRow.length r)) (TextRow.chars r)
     = replicate (Z.to_nat (w - TextRow.length r)) " "%byte ->
   TextRow.chars r2 = TextRow.chars r).
Proof.
  intros Hchars Hcol Hlen.
  destruct (TextRow_insert_spare w r col c attr Hcol Hlen) as (Hl1 & Hw1 & Hc1).
  cbv zeta. set (r1 := fst (TextRow.insert w r col c attr)) in *.
  unfold TextRow.delete.
  replace ((1 <=? col) && (col <=? TextRow.length r1)) with true
    by (symmetry; apply andb_true_iff; lia).
  simpl. rewrite Hl1, Hw1, Hc1.
  replace (Z.to_nat (TextRow.length r + 1)) with (S (Z.to_nat (TextRow.length r))) by lia.
  rewrite (shift_right_then_left (TextRow.chars r) c " "%byte
             (Z.to_nat (col - 1)) (Z.to_nat (TextRow.length r)) (Z.to_nat w))
    by lia.
  split; [lia|]. split; [reflexivity|]. split.
  - rewrite take_app_le by (rewrite length_take; lia).
    rewrite take_take, Nat.min_id. reflexivity.
  - intros Htail. rewrite Htail.
    replace (Z.to_nat (w - TextRow.length r))
      with (S (Z.to_nat w - S (Z.to_nat (TextRow.length r)))) by lia.
    rewrite take_replicate, Nat.min_l by lia.
    change (" "%byte :: replicate (Z.to_nat w - S (Z.to_nat (TextRow.length r))) " "%byte)
      with (replicate (S (Z.to_nat w - S (Z.to_nat (TextRow.length r)))) " "%byte).
    replace (S (Z.to_nat w - S (Z.to_nat (TextRow.length r))))
      with (Z.to_nat (w - TextRow.length r)) by lia.
    rewrite <- Htail. apply take_drop.
Qed.

End RowFacts.

(** The page operations are used through their equations below. *)
Arguments PageModel.get_row : simpl never.
Arguments PageModel.set_row : simpl never.
Arguments PageModel.scroll_up : simpl never.
Arguments PageModel.scroll_down : simpl never.
Arguments PageModel.get_char : simpl never.
Arguments PageModel.get_attr : simpl never.
Arguments TextRow.insert : simpl never.
Arguments TextRow.delete : simpl never.
Arguments TextRow.blank : simpl never.

Section PageFacts.

Implicit Type p : PageModel.t.

Lemma on_page_spec p row :
  PageModel.on_page p row = true <-> 1 <= row <= PageModel._height p.
Proof. unfold PageModel.on_page. rewrite andb_true_iff. lia. Qed.

Lemma set_row_dims p row r :
  PageModel._width (PageModel.set_row p row r) = PageModel._width p /\
  PageModel._height (PageModel.set_row p row r) = PageModel._height p /\
  length (PageModel._rows (PageModel.set_row p row r)) = length (PageModel._rows p).
Proof.
  unfold PageModel.set_row. destruct (PageModel.on_page p row); simpl; auto.
  rewrite length_insert. auto.
Qed.

Lemma get_row_set_row_eq p row r :
  length (PageModel._rows p) = Z.to_nat (PageModel._height p) ->
  1 <= row <= PageModel._height p ->
  PageModel.get_row (PageModel.set_row p row r) row = r.
Proof.
  intros Hrows Hrow. unfold PageModel.get_row, PageModel.set_row.
  assert (Hon : PageModel.on_page p row = true) by (apply on_page_spec; lia).
  rewrite Hon. unfold PageModel.on_page in *. simpl. rewrite Hon.
  rewrite list_lookup_insert_eq by lia. reflexivity.
Qed.

Lemma get_row_set_row_ne p row row' r :
  row <> row' ->
  PageModel.get_row (PageModel.set_row p row r) row' = PageModel.get_row p row'.
Proof.
  intros Hne. unfold PageModel.get_row, PageModel.set_row.
  destruct (PageModel.on_page p row) eqn:Hon; [|reflexivity].
  unfold PageModel.on_page in *. simpl.
  destruct ((1 <=? row') && (row' <=? PageModel._height p)) eqn:Hon'; [|reflexivity].
  apply andb_true_iff in Hon, Hon'.
  rewrite list_lookup_insert_ne by lia. reflexivity.
Qed.

(** Scrolling from [from_row] leaves the rows above it alone. *)
Lemma scroll_down_dims p from_row to_row attr :
  length (PageModel._rows p) = Z.to_nat (PageModel._height p) ->
  PageModel._width (PageModel.scroll_down p from_row to_row attr) = PageModel._width p /\
  PageModel._height (PageModel.scroll_down p from_row to_row attr) = PageModel._height p /\
  length (PageModel._rows (PageModel.scroll_down p from_row to_row attr))
    = length (PageModel._rows p).
Proof.
  intros Hrows. unfold PageModel.scroll_down.
  destruct (_ && _) eqn:Hguard; simpl; auto.
  repeat (apply andb_true_iff in Hguard; destruct Hguard as [Hguard ?]).
  repeat split.
  repeat (rewrite ?length_app, ?length_take, ?length_drop; simpl). lia.
Qed.

Lemma get_row_scroll_down_above p from_row to_row attr row :
  length (PageModel._rows p) = Z.to_nat (PageModel._height p) ->
  row < from_row ->
  PageModel.get_row (PageModel.scroll_down p from_row to_row attr) row
    = PageModel.get_row p row.
Proof.
  intros Hrows Hlt. unfold PageModel.scroll_down.
  destruct (_ && _) eqn:Hguard; [|reflexivity].
  repeat (apply andb_true_iff in Hguard; destruct Hguard as [Hguard ?]).
  unfold PageModel.get_row, PageModel.on_page. simpl.
  destruct ((1 <=? row) && (row <=? PageModel._height p)) eqn:Hon; [|reflexivity].
  apply andb_true_iff in Hon.
  rewrite lookup_app_l by (rewrite length_take; lia).
  rewrite lookup_take_lt by lia. reflexivity.
Qed.

(** The row that [scroll_down] clears is empty. *)
Lemma get_row_scroll_down_new p from_row to_row attr :
  length (PageModel._rows p) = Z.to_nat (PageModel._height p) ->
  1 <= from_row -> from_row <= to_row -> to_row <= PageModel._height p ->
  TextRow.length (PageModel.get_row (PageModel.scroll_down p from_row to_row attr) from_row) = 0 /\
  TextRow.wrap (PageModel.get_row (PageModel.scroll_down p from_row to_row attr) from_row)
    = TextRow.wrap (PageModel.get_row p (from_row - 1)).
Proof.
  intros Hrows H1 H2 H3. unfold PageModel.scroll_down.
  replace ((1 <=? from_row) && (from_row <=? to_row) && (to_row <=? PageModel._height p))
    with true by (symmetry; rewrite !andb_true_iff; lia).
  unfold PageModel.get_row at 1 3. unfold PageModel.on_page. simpl.
  replace ((1 <=? from_row) && (from_row <=? PageModel._height p))
    with true by (symmetry; rewrite !andb_true_iff; lia).
  rewrite lookup_app_r by (rewrite length_take; lia).
  rewrite length_take.
  replace (Z.to_nat (from_row - 1) - Z.to_nat (from_row - 1) `min` length (PageModel._rows p))%nat
    with 0%nat by lia.
  simpl. split; reflexivity.
Qed.

Lemma scroll_up_dims p from_row to_row attr :
  length (PageModel._rows p) = Z.to_nat (PageModel._height p) ->
  PageModel._width (PageModel.scroll_up p from_row to_row attr) = PageModel._width p /\
  PageModel._height (PageModel.scroll_up p from_row to_row attr) = PageModel._height p /\
  length (PageModel._rows (PageModel.scroll_up p from_row to_row attr))
    = length (PageModel._rows p).
Proof.
  intros Hrows. unfold PageModel.scroll_up.
  destruct (_ && _) eqn:Hguard; simpl; auto.
  repeat (apply andb_true_iff in Hguard; destruct Hguard as [Hguard ?]).
  repeat split.
  repeat (rewrite ?length_app, ?length_take, ?length_drop; simpl). lia.
Qed.

Lemma get_row_scroll_up_above p from_row to_row attr row :
  length (PageModel._rows p) = Z.to_nat (PageModel._height p) ->
  row < from_row ->
  PageModel.get_row (PageModel.scroll_up p from_row to_row attr) row
    = PageModel.get_row p row.
Proof.
  intros Hrows Hlt. unfold PageModel.scroll_up.
  destruct (_ && _) eqn:Hguard; [|reflexivity].
  repeat (apply andb_true_iff in Hguard; destruct Hguard as [Hguard ?]).
  unfold PageModel.get_row, PageModel.on_page. simpl.
  destruct ((1 <=? row) && (row <=? PageModel._height p)) eqn:Hon; [|reflexivity].
  apply andb_true_iff in Hon.
  rewrite lookup_app_l by (rewrite length_take; lia).
  rewrite lookup_take_lt by lia. reflexivity.
Qed.

(** The characters of a row of a well-formed page fill its width. *)
Lemma wf_get_row_chars p row :
  PageModel.wf p ->
  length (TextRow.chars (PageModel.get_row p row)) = Z.to_nat (PageModel._width p).
Proof.
  intros (Hw & Hh & Hrows & Hall). unfold PageModel.get_row.
  destruct (PageModel.on_page p row).
  - destruct (PageModel._rows p !! Z.to_nat (row - 1)) as [r|] eqn:Hr; simpl.
    + exact (Forall_lookup_1 _ _ _ _ Hall Hr).
    + apply length_replicate.
  - apply length_replicate.
Qed.

End PageFacts.

Section ScreenFacts.

Implicit Type self : TextScreen.t PageModel.t.

(** Deleting on a row that is not at its logical end, with an empty row
    below it when the row is wrap-connected and full: the row becomes what
    the page's delete makes of it, whichever case of [_delete_at] applies,
    and two levels of recursion suffice. *)
Lemma _delete_at_row self (row col : Z) (fuel : nat) :
  let page := TextScreen._apage self in
  let r := PageModel.get_row page row in
  length (PageModel._rows page) = Z.to_nat (PageModel._height page) ->
  1 <= row <= PageModel._height page ->
  1 <= col < TextRow.length r ->
  TextRow.length r <= width (TextScreen.mode self) ->
  (TextRow.wrap r = true -> TextRow.length r = width (TextScreen.mode self) ->
   TextRow.length (PageModel.get_row page (row + 1)) = 0) ->
  exists self2,
    TextScreen._delete_at (S (S fuel)) self row col false = Some self2 /\
    PageModel.get_row (TextScreen._apage self2) row
      = TextRow.delete r col (TextScreen._attr self) None.
Proof.
  cbv zeta.
  destruct self as [tandy cur crow ccol ov area flag bar md sattr page].
  simpl. intros Hrows Hrow Hcol Hlen Hnext.
  unfold PageModel.wraps, PageModel.row_length, PageModel.delete_char_attr.
  set (r := PageModel.get_row page row) in *.
  destruct (TextRow.wrap r) eqn:Hwrap; simpl.
  - (* a wrap-connected row *)
    destruct (Z.eqb_spec (TextRow.length r) (width md)) as [Hfull | Hspare].
    + (* case 1: full, the row below is empty *)
      rewrite (Hnext eq_refl Hfull). simpl.
      rewrite !get_row_set_row_ne by lia.
      rewrite (Hnext eq_refl Hfull).
      assert (Hw0 : (0 =? width md) = false) by (apply Z.eqb_neq; lia).
      destruct (TextRow.wrap (PageModel.get_row page (row + 1))); simpl.
      * change (match width md with 0 => true | _ => false end) with (0 =? width md).
        rewrite Hw0. simpl.
        destruct (crow >? row + 1), (is_text_mode md); simpl;
          (eexists; split; [reflexivity|]; simpl;
           rewrite get_row_scroll_up_above
             by (first [lia | destruct (set_row_dims page row
                                 (TextRow.delete r col sattr None)) as (_ & -> & ->);
                              exact Hrows]);
           apply get_row_set_row_eq; assumption).
      * eexists. split; [reflexivity|]. simpl.
        apply get_row_set_row_eq; assumption.
    + (* case 2a *)
      replace (col <? TextRow.length r) with true by (symmetry; apply Z.ltb_lt; lia).
      eexists. split; [reflexivity|]. simpl.
      apply get_row_set_row_eq; assumption.
  - (* case 0a: a row that does not wrap *)
    replace (col >? TextRow.length r) with false
      by (symmetry; rewrite Z.gtb_ltb; apply Z.ltb_ge; lia).
    eexists. split; [reflexivity|]. simpl.
    apply get_row_set_row_eq; assumption.
Qed.

Lemma insert_char_attr_fst (p : PageModel.t) (row col : Z) (c : byte) (attr : Z) :
  fst (PageModel.insert_char_attr p row col c attr)
    = PageModel.set_row p row
        (fst (TextRow.insert (PageModel._width p) (PageModel.get_row p row) col c attr)).
Proof.
  unfold PageModel.insert_char_attr.
  destruct (TextRow.insert (PageModel._width p) (PageModel.get_row p row) col c attr).
  reflexivity.
Qed.

(** Inserting into a row with spare capacity takes one step: the row
    becomes what the page's insert makes of it, and when that fills a
    wrap-connected row above the bottom of the scroll area, the row below
    it is a new, empty one. *)
Lemma _insert_at_spare self (row col : Z) (c : byte) (attr : Z) (fuel : nat) :
  let page := TextScreen._apage self in
  let r := PageModel.get_row page row in
  let r1 := fst (TextRow.insert (PageModel._width page) r col c attr) in
  let bottom := ScrollArea.bottom (TextScreen.scroll_area self) in
  length (PageModel._rows page) = Z.to_nat (PageModel._height page) ->
  1 <= row <= PageModel._height page ->
  TextRow.length r < width (TextScreen.mode self) ->
  (TextRow.wrap r1 = true -> TextRow.length r1 = width (TextScreen.mode self) ->
   row < bottom /\ bottom <= PageModel._height page) ->
  exists self1,
    TextScreen._insert_at (S fuel) self row col c attr = Some (self1, true) /\
    TextScreen.mode self1 = TextScreen.mode self /\
    TextScreen._attr self1 = TextScreen._attr self /\
    length (PageModel._rows (TextScreen._apage self1))
      = Z.to_nat (PageModel._height (TextScreen._apage self1)) /\
    PageModel._height (TextScreen._apage self1) = PageModel._height page /\
    PageModel.get_row (TextScreen._apage self1) row = r1 /\
    (TextRow.wrap r1 = true -> TextRow.length r1 = width (TextScreen.mode self) ->
     TextRow.length (PageModel.get_row (TextScreen._apage self1) (row + 1)) = 0).
Proof.
  cbv zeta.
  destruct self as [tandy cur crow ccol ov area flag bar md sattr page].
  simpl. intros Hrows Hrow Hlen Hbottom.
  unfold PageModel.wraps, PageModel.row_length.
  replace (TextRow.length (PageModel.get_row page row) <? width md) with true
    by (symmetry; apply Z.ltb_lt; lia).
  rewrite insert_char_attr_fst.
  set (r1 := fst (TextRow.insert (PageModel._width page)
                    (PageModel.get_row page row) col c attr)) in *.
  rewrite get_row_set_row_eq by assumption.
  destruct (set_row_dims page row r1) as (Hw1 & Hh1 & Hl1).
  assert (Hrows1 : length (PageModel._rows (PageModel.set_row page row r1))
                   = Z.to_nat (PageModel._height (PageModel.set_row page row r1)))
    by (rewrite Hh1, Hl1; exact Hrows).
  destruct (TextRow.wrap r1) eqn:Hwrap; simpl.
  - destruct (Z.eqb_spec (TextRow.length r1) (width md)) as [Hfull | Hspare].
    + destruct (Hbottom eq_refl Hfull) as [Hlt Hle].
      destruct (scroll_down_dims (PageModel.set_row page row r1) (row + 1)
                  (ScrollArea.bottom area) sattr Hrows1) as (_ & Hh2 & Hl2).
      destruct (get_row_scroll_down_new (PageModel.set_row page row r1) (row + 1)
                  (ScrollArea.bottom area) sattr Hrows1) as [Hnew _];
        [lia | lia | lia |].
      destruct (crow >=? row + 1), (is_text_mode md); simpl;
        (eexists; split; [reflexivity|]; simpl;
         split; [reflexivity|]; split; [reflexivity|];
         split; [rewrite Hh2, Hl2; exact Hrows1|];
         split; [rewrite Hh2; exact Hh1|];
         split; [rewrite get_row_scroll_down_above by (assumption || lia);
                 apply get_row_set_row_eq; assumption|];
         intros _ _; exact Hnew).
    + eexists. split; [reflexivity|]. simpl.
      split; [reflexivity|]. split; [reflexivity|].
      split; [exact Hrows1|]. split; [exact Hh1|].
      split; [apply get_row_set_row_eq; assumption|].
      intros _ Hfull. contradiction.
  - eexists. split; [reflexivity|]. simpl.
    split; [reflexivity|]. split; [reflexivity|].
    split; [exact Hrows1|]. split; [exact Hh1|].
    split; [apply get_row_set_row_eq; assumption|].
    intros Hfalse. discriminate.
Qed.

End ScreenFacts.

(** C8, on the modelled page: for a row on a well-formed page with spare
    logical capacity ([row_length(row) < mode.width]) and a column within
    the row's logical length, [_insert_at] followed by [_delete_at] at the
    same position both return (with fuel for one and two levels of
    recursion) and restore the row's logical length and its characters up
    to that length, and every character of the row when the cells behind
    the logical end were blank; this under the proviso that a
    wrap-connected row which the insertion fills lies above the bottom row
    of the scroll area, itself on the page. *)
Theorem insert_delete_round_trip
    (self : TextScreen.t PageModel.t) (row col : Z) (c : byte) (attr : Z)
    (fuel fuel' : nat) :
  let page := TextScreen._apage self in
  let r := PageModel.get_row page row in
  let bottom := ScrollArea.bottom (TextScreen.scroll_area self) in
  page_fits self ->
  1 <= row <= PageModel._height page ->
  1 <= col <= TextRow.length r ->
  TextRow.length r < width (TextScreen.mode self) ->
  (TextRow.wrap r = true -> TextRow.length r + 1 = width (TextScreen.mode self) ->
   row < bottom /\ bottom <= PageModel._height page) ->
  exists self1 self2,
    TextScreen._insert_at (S fuel) self row col c attr = Some (self1, true) /\
    TextScreen._delete_at (S (S fuel')) self1 row col false = Some self2 /\
    let r2 := PageModel.get_row (TextScreen._apage self2) row in
    TextRow.length r2 = TextRow.length r /\
    take (Z.to_nat (TextRow.length r)) (TextRow.chars r2)
      = take (Z.to_nat (TextRow.length r)) (TextRow.chars r) /\
    (blank_beyond_end r (width (TextScreen.mode self)) ->
     TextRow.chars r2 = TextRow.chars r).
Proof.
  cbv zeta. intros [Hwf Hwidth] Hrow Hcol Hlen Hbottom.
  set (page := TextScreen._apage self) in *.
  set (r := PageModel.get_row page row) in *.
  pose proof (wf_get_row_chars page row Hwf) as Hchars. fold r in Hchars.
  assert (Hrows : length (PageModel._rows page) = Z.to_nat (PageModel._height page))
    by (destruct Hwf as (_ & _ & Hrows & _); exact Hrows).
  rewrite Hwidth in Hchars.
  destruct (TextRow_insert_spare (width (TextScreen.mode self)) r col c attr Hcol Hlen)
    as (Hl1 & Hw1 & _).
  destruct (_insert_at_spare self row col c attr fuel Hrows Hrow Hlen)
    as (self1 & Hins & Hmode & Hattr & Hrows1 & Hh1 & Hr1 & Hnext).
  { fold page. fold r. rewrite Hwidth, Hw1, Hl1. exact Hbottom. }
  fold page in Hr1, Hnext. fold r in Hr1, Hnext. rewrite Hwidth in Hr1, Hnext.
  set (r1 := fst (TextRow.insert (width (TextScreen.mode self)) r col c attr)) in *.
  destruct (_delete_at_row self1 row col fuel') as (self2 & Hdel & Hr2).
  - exact Hrows1.
  - rewrite Hh1. exact Hrow.
  - rewrite Hr1, Hl1. lia.
  - rewrite Hr1, Hl1, Hmode. lia.
  - rewrite Hr1, Hmode. exact Hnext.
  - exists self1, self2. split; [exact Hins|]. split; [exact Hdel|].
    rewrite Hr2, Hr1.
    destruct (TextRow_insert_delete (width (TextScreen.mode self)) r col c attr
                (TextScreen._attr self1) Hchars Hcol Hlen) as (Ha & _ & Hb & Hc).
    unfold blank_beyond_end. auto.
Qed.

Lemma page_fits_screen_4x3 : page_fits screen_4x3.
Proof.
  unfold page_fits, PageModel.wf. simpl.
  repeat split; try lia. repeat constructor.
Qed.

(** The theorem on the 4 x 3 screen: insert and delete at (3, 2), in the
    row "xyz". *)
Lemma insert_delete_round_trip_witness :
  exists self1 self2,
    TextScreen._insert_at 1 screen_4x3 3 2 "Q"%byte 7 = Some (self1, true) /\
    TextScreen._delete_at 2 self1 3 2 false = Some self2 /\
    TextRow.length (PageModel.get_row (TextScreen._apage self2) 3) = 3 /\
    take 3 (TextRow.chars (PageModel.get_row (TextScreen._apage self2) 3))
      = ["x"; "y"; "z"]%byte /\
    (blank_beyond_end (PageModel.get_row (TextScreen._apage screen_4x3) 3) 4 ->
     TextRow.chars (PageModel.get_row (TextScreen._apage self2) 3)
       = ["x"; "y"; "z"; " "]%byte).
Proof.
  apply (insert_delete_round_trip screen_4x3 3 2 "Q"%byte 7 0 0).
  - exact page_fits_screen_4x3.
  - simpl. lia.
  - vm_compute. split; discriminate.
  - vm_compute. reflexivity.
  - vm_compute. discriminate.
Defined.

(** C8 as stated fails on the bottom row of the scroll area: row 2 of the
    4 x 3 screen has logical length 3 of 4 and is wrap-connected to row 3
    below the scroll area.  The insertion at (2, 1) fills the row, there is
    nothing to scroll down inside the scroll area, and the deletion then
    treats the row as a full wrapping row: it refills its last cell from
    row 3 and leaves the logical length at 4. *)
Lemma insert_delete_bottom_row_length_not_restored :
  ~ (forall (self : TextScreen.t PageModel.t) (row col : Z) (c : byte) (attr : Z)
            (fuel fuel' : nat) (self1 self2 : TextScreen.t PageModel.t) (ok : bool),
       page_fits self ->
       1 <= row <= PageModel._height (TextScreen._apage self) ->
       1 <= col <= TextScreen.row_length self row ->
       TextScreen.row_length self row < width (TextScreen.mode self) ->
       TextScreen._insert_at fuel self row col c attr = Some (self1, ok) ->
       TextScreen._delete_at fuel' self1 row col false = Some self2 ->
       TextScreen.row_length self2 row = TextScreen.row_length self row /\
       TextRow.chars (PageModel.get_row (TextScreen._apage self2) row)
         = TextRow.chars (PageModel.get_row (TextScreen._apage self) row)).
Proof.
  intros Hclaim.
  destruct (TextScreen._insert_at 3 screen_4x3 2 1 "Q"%byte 7)
    as [[self1 ok]|] eqn:Hins; [|vm_compute in Hins; discriminate].
  destruct (TextScreen._delete_at 3 self1 2 1 false)
    as [self2|] eqn:Hdel;
    [|vm_compute in Hins; injection Hins as <- <-; vm_compute in Hdel; discriminate].
  destruct (Hclaim screen_4x3 2 1 "Q"%byte 7 3%nat 3%nat self1 self2 ok
              page_fits_screen_4x3) as [Hlen _]; try assumption.
  - simpl. lia.
  - vm_compute. split; discriminate.
  - vm_compute. reflexivity.
  - vm_compute in Hins. injection Hins as <- <-.
    vm_compute in Hdel. injection Hdel as <-.
    vm_compute in Hlen. discriminate.
Qed.

(** The proviso on the cells behind the logical end is needed as well:
    row 1 of the second 4 x 3 screen is "ab" with a "Z" left in its last
    cell; the insertion at (1, 1) pushes the "Z" off the row, and the
    deletion cannot bring it back. *)
Lemma insert_delete_dirty_tail_not_restored :
  exists self1 self2,
    TextScreen._insert_at 1 screen_4x3_dirty 1 1 "Q"%byte 7 = Some (self1, true) /\
    TextScreen._delete_at 2 self1 1 1 false = Some self2 /\
    TextRow.chars (PageModel.get_row (TextScreen._apage screen_4x3_dirty) 1)
      = ["a"; "b"; " "; "Z"]%byte /\
    TextRow.chars (PageModel.get_row (TextScreen._apage self2) 1)
      = ["a"; "b"; " "; " "]%byte.
Proof.
  eexists _, _. split; [vm_compute; reflexivity|].
  split; [vm_compute; reflexivity|].
  split; vm_compute; reflexivity.
Qed.

(** * Further properties of the text screen *)

Arguments TextScreen.set__bottom_bar {P} !self v /.
Arguments TextScreen.set_mode {P} !self v /.
Arguments TextScreen.set__attr {P} !self v /.
Arguments TextScreen.set_attr {P} !self attr /.

Section PositionFacts.

Context {P : Type} `{TextPage.Ops P}.
Implicit Type self : TextScreen.t P.

Lemma set_pos_lands self (to_row to_col : Z) (scroll_ok : bool) :
  1 <= to_col <= width (TextScreen.mode self) ->
  (ScrollArea.top (TextScreen.scroll_area self) <= to_row
     <= ScrollArea.bottom (TextScreen.scroll_area self)
   \/ (TextScreen._bottom_row_allowed self = true /\
       to_row = height (TextScreen.mode self))) ->
  let self' := TextScreen.set_pos self to_row to_col scroll_ok in
  TextScreen.current_row self' = to_row /\
  TextScreen.current_col self' = to_col /\
  TextScreen.overflow self' = false /\
  TextScreen._bottom_row_allowed self'
    = TextScreen._bottom_row_allowed self && (to_row =? height (TextScreen.mode self)) /\
  Cursor.row (TextScreen._cursor self') = to_row /\
  Cursor.col (TextScreen._cursor self') = to_col /\
  same_but_cursor self' self.
Proof.
  unfold same_but_cursor. destruct self. simpl. intros Hcol Hrow. unfold_screen.
  split_ifs; repeat split; try reflexivity; try lia.
Qed.

End PositionFacts.

(** X1: [check_pos] returns [True] exactly when it has left the position as
    it found it; on a cursor that is in bounds it does so, and it does not
    scroll. *)
Theorem check_pos_reports_change
    {P : Type} `{TextPage.Ops P} (self : TextScreen.t P) (scroll_ok : bool) :
  (snd (TextScreen.check_pos self scroll_ok) = true <->
     TextScreen.current_row (fst (TextScreen.check_pos self scroll_ok))
       = TextScreen.current_row self /\
     TextScreen.current_col (fst (TextScreen.check_pos self scroll_ok))
       = TextScreen.current_col self) /\
  (cursor_in_bounds self ->
     snd (TextScreen.check_pos self scroll_ok) = true /\
     TextScreen._apage (fst (TextScreen.check_pos self scroll_ok))
       = TextScreen._apage self).
Proof.
  unfold cursor_in_bounds. destruct self. simpl. unfold_screen. split.
  - split_ifs; rewrite ?andb_true_iff, ?Z.eqb_eq; try tauto; try lia;
      (split; [try discriminate; try lia; auto| try lia; try tauto]).
    all: intros [_ Hx]; destruct current_col; try discriminate; lia.
  - intros [Hcol Hrow].
    split_ifs; rewrite ?andb_true_iff, ?Z.eqb_eq; try (split; [lia|reflexivity]);
      try (split; [split; lia|reflexivity]); exfalso; destruct Hrow as [?|[? ?]]; try discriminate; lia.
Qed.

Section LocateFacts.

Context {P : Type} `{TextPage.Ops P}.
Implicit Type self : TextScreen.t P.

(** The position checks of [locate_], as the tests it makes. *)
Lemma locate_position_checks self (r c : Z) :
  locate_position_ok self r c <->
  (r =? height (TextScreen.mode self))
    && BottomBar.visible (TextScreen._bottom_bar self) = false /\
  (if ScrollArea.active (TextScreen.scroll_area self)
   then (ScrollArea.top (TextScreen.scroll_area self) <=? r)
          && (r <=? ScrollArea.bottom (TextScreen.scroll_area self)) && true
   else (1 <=? r) && (r <=? height (TextScreen.mode self)) && true) = true /\
  (1 <=? c) && (c <=? width (TextScreen.mode self)) && true = true.
Proof.
  unfold locate_position_ok.
  rewrite <- not_true_iff_false, andb_true_iff, Z.eqb_eq.
  destruct (ScrollArea.active _);
    rewrite !andb_true_iff, !Z.leb_le; tauto.
Qed.

Lemma locate_position_error self (row col cursor start stop : option Z) :
  ~ locate_position_ok self (default (TextScreen.current_row self) row)
      (default (TextScreen.current_col self) col) ->
  TextScreen.locate_ [row; col; cursor; start; stop] self = Raised IFC self.
Proof.
  rewrite locate_position_checks.
  set (r := default (TextScreen.current_row self) row).
  set (c := default (TextScreen.current_col self) col).
  intros Hnot.
  unfold TextScreen.locate_. simpl app. cbv iota beta. unfold_M. simpl.
  fold r c.
  destruct ((r =? height (TextScreen.mode self)) && _) eqn:Hb; [reflexivity|].
  destruct (ScrollArea.active _).
  - destruct (_ && _ && true) eqn:Hr; [|reflexivity].
    destruct ((1 <=? c) && _ && true) eqn:Hc; [|reflexivity].
    exfalso. apply Hnot. auto.
  - destruct (_ && _ && true) eqn:Hr; [|reflexivity].
    destruct ((1 <=? c) && _ && true) eqn:Hc; [|reflexivity].
    exfalso. apply Hnot. auto.
Qed.

(** Past its position checks, [locate_] runs [set_pos] and then checks the
    remaining arguments. *)
Lemma locate_position_accepted self (row col cursor start stop : option Z) :
  let r := default (TextScreen.current_row self) row in
  let c := default (TextScreen.current_col self) col in
  locate_position_ok self r c ->
  unset_area_fits self ->
  let self' := outcome_state (TextScreen.locate_ [row; col; cursor; start; stop] self) in
  TextScreen.current_row self' = r /\
  TextScreen.current_col self' = c /\
  TextScreen.overflow self' = false /\
  TextScreen._bottom_row_allowed self' = (r =? height (TextScreen.mode self)) /\
  TextScreen._apage self' = TextScreen._apage self /\
  TextScreen.scroll_area self' = TextScreen.scroll_area self /\
  (locate_cursor_ok self cursor start stop ->
   TextScreen.locate_ [row; col; cursor; start; stop] self = Returned tt self') /\
  (~ locate_cursor_ok self cursor start stop ->
   TextScreen.locate_ [row; col; cursor; start; stop] self = Raised IFC self').
Proof.
  intros r c Hok Harea.
  pose proof Hok as (Hbar & Hrow & Hcol).
  apply locate_position_checks in Hok. destruct Hok as (Hb & Hr & Hc).
  unfold TextScreen.locate_. simpl app. cbv iota beta. unfold_M. simpl.
  fold r c. rewrite Hb, Hc.
  replace (if ScrollArea.active (TextScreen.scroll_area self)
       then
        if (ScrollArea.top (TextScreen.scroll_area self) <=? r) &&
           (r <=? ScrollArea.bottom (TextScreen.scroll_area self)) && true
        then mret ()
        else raise IFC
       else
        if (1 <=? r) && (r <=? height (TextScreen.mode self)) && true
        then mret ()
        else raise IFC) with (mret () : M (TextScreen.t P) unit)
    by (destruct (ScrollArea.active _); rewrite Hr; reflexivity).
  unfold_M. simpl.
  assert (Hsub : forall s2 : TextScreen.t P,
    TextScreen.mode s2 = TextScreen.mode self ->
    TextScreen.scroll_area s2 = TextScreen.scroll_area self ->
    TextScreen._apage s2 = TextScreen._apage self ->
    (ScrollArea.top (TextScreen.scroll_area self) <= r
       <= ScrollArea.bottom (TextScreen.scroll_area self)
     \/ (TextScreen._bottom_row_allowed s2 = true /\ r = height (TextScreen.mode self))) ->
    TextScreen._bottom_row_allowed s2 && (r =? height (TextScreen.mode self))
      = (r =? height (TextScreen.mode self)) ->
    let s3 := TextScreen.set_pos s2 r c false in
    TextScreen.current_row s3 = r /\
    TextScreen.current_col s3 = c /\
    TextScreen.overflow s3 = false /\
    TextScreen._bottom_row_allowed s3 = (r =? height (TextScreen.mode self)) /\
    TextScreen._apage s3 = TextScreen._apage self /\
    TextScreen.scroll_area s3 = TextScreen.scroll_area self).
  { intros s2 Hm2 Ha2 Hp2 Hin Hfl.
    pose proof (set_pos_lands s2 r c false) as Hl.
    rewrite Hm2, Ha2 in Hl. specialize (Hl Hcol Hin).
    cbv zeta in Hl |- *.
    destruct Hl as (-> & -> & -> & -> & _ & _ & (-> & _ & -> & _)).
    rewrite Hfl. repeat split; auto. }
  assert (Hin : r <> height (TextScreen.mode self) ->
                ScrollArea.top (TextScreen.scroll_area self) <= r
                  <= ScrollArea.bottom (TextScreen.scroll_area self)).
  { intros Hne. destruct (ScrollArea.active _) eqn:Hact; [exact Hrow|].
    destruct (Harea Hact) as [-> ->]. lia. }
  destruct (Z.eqb_spec r (height (TextScreen.mode self))) as [Heq | Hne].
  - specialize (Hsub (TextScreen.set__bottom_row_allowed self true)).
    destruct self. simpl in *.
    specialize (Hsub eq_refl eq_refl eq_refl (or_intror (conj eq_refl Heq))).
    specialize (Hsub eq_refl). cbv zeta in Hsub.
    set (s3 := TextScreen.set_pos _ r c false) in *. clearbody s3.
    destruct s3. simpl in Hsub.
    destruct Hsub as (-> & -> & -> & -> & -> & ->).
    unfold locate_cursor_ok. simpl.
    destruct cursor as [cur|], start as [st|], stop as [sp|]; simpl;
      split_ifs; simpl; repeat split; auto; try tauto; try lia.
  - specialize (Hsub self eq_refl eq_refl eq_refl (or_introl (Hin Hne))
                (andb_false_r _)).
    cbv zeta in Hsub.
    set (s3 := TextScreen.set_pos _ r c false) in *. clearbody s3.
    destruct self, s3. simpl in Hsub.
    destruct Hsub as (-> & -> & -> & -> & -> & ->).
    unfold locate_cursor_ok. simpl.
    destruct cursor as [cur|], start as [st|], stop as [sp|]; simpl;
      split_ifs; simpl; repeat split; auto; try tauto; try lia.
Qed.

End LocateFacts.

(** X22: [screen_fn_] never changes the screen.  It returns exactly for the
    arguments described by [screen_fn_accepts]: the attribute of the cell
    when the third argument is given and not 0 (0 in a graphics mode), the
    byte of the cell otherwise, a row or column 0 standing for 1; for any
    other arguments it raises the illegal-function-call error. *)
Theorem screen_fn_outcome
    {P : Type} `{TextPage.Ops P} `{TextPage.MoreOps P}
    (self : TextScreen.t P) (row col : Z) (want_attr : option Z) :
  (screen_fn_accepts self row col want_attr ->
   TextScreen.screen_fn_ row col want_attr self =
     Returned
       (let row := if row =? 0 then 1 else row in
        let col := if col =? 0 then 1 else col in
        if match want_attr with Some w => negb (w =? 0) | None => false end
        then if is_text_mode (TextScreen.mode self)
             then TextPage.get_attr (TextScreen._apage self) row col
             else 0
        else TextPage.get_byte (TextScreen._apage self) row col)
       self) /\
  (~ screen_fn_accepts self row col want_attr ->
   TextScreen.screen_fn_ row col want_attr self = Raised IFC self).
Proof.
  unfold screen_fn_accepts, TextScreen.screen_fn_. unfold_M.
  destruct self. simpl. split.
  - intros (Hw & Hrow & Hcol & Hzero & Harea).
    destruct want_attr as [w|]; simpl; split_ifs; try reflexivity;
      try (exfalso; tauto); try (exfalso; lia).
  - intros Hnot.
    destruct want_attr as [w|]; simpl; unfold_M; simpl; split_ifs; try reflexivity;
      exfalso; apply Hnot; repeat split; try lia; try congruence;
      try (intros [? ?]; lia); intros; split_ifs; lia.
Qed.

(** The theorem on the 80 x 25 screen: [SCREEN(1, 1)] returns the code of
    the blank in the top left cell, [SCREEN(0, 0)] raises. *)
Lemma screen_fn_outcome_witness :
  TextScreen.screen_fn_ 1 1 None screen_80x25 = Returned 32 screen_80x25 /\
  TextScreen.screen_fn_ 0 0 None screen_80x25 = Raised IFC screen_80x25.
Proof.
  split.
  - refine (proj1 (screen_fn_outcome screen_80x25 1 1 None) _).
    unfold screen_fn_accepts. simpl. repeat split; try lia; discriminate.
  - refine (proj2 (screen_fn_outcome screen_80x25 0 0 None) _).
    unfold screen_fn_accepts. simpl. intros (_ & _ & _ & Hz & _). apply Hz. split; reflexivity.
Defined.

(** X2: In bounds, what [pos_] and [csrlin_] report is a cell of the screen:
    the column lies in [1, width] and the row in the scroll area or on the
    last row. *)
Theorem pos_csrlin_in_range
    {P : Type} `{TextPage.Ops P} (self : TextScreen.t P) :
  geometry self -> cursor_in_bounds self ->
  1 <= TextScreen.pos_ self <= width (TextScreen.mode self) /\
  (ScrollArea.top (TextScreen.scroll_area self) <= TextScreen.csrlin_ self
     <= ScrollArea.bottom (TextScreen.scroll_area self)
   \/ TextScreen.csrlin_ self = height (TextScreen.mode self)).
Proof.
  unfold geometry, cursor_in_bounds, TextScreen.pos_, TextScreen.csrlin_.
  destruct self. simpl. intros Hgeo [Hcol Hrow].
  split.
  - split_ifs; lia.
  - split_ifs; lia.
Qed.

Lemma pos_csrlin_in_range_witness :
  1 <= TextScreen.pos_ screen_80x25 <= width (TextScreen.mode screen_80x25) /\
  (ScrollArea.top (TextScreen.scroll_area screen_80x25) <= TextScreen.csrlin_ screen_80x25
     <= ScrollArea.bottom (TextScreen.scroll_area screen_80x25)
   \/ TextScreen.csrlin_ screen_80x25 = height (TextScreen.mode screen_80x25)).
Proof.
  apply (pos_csrlin_in_range screen_80x25 geometry_screen_80x25).
  unfold cursor_in_bounds. simpl. lia.
Defined.

(** The cell on which [write_char] puts its character is the one that
    [csrlin_] and [pos_] report. *)
Lemma write_position_is_reported
    {P : Type} `{TextPage.Ops P} (self : TextScreen.t P) (do_scroll_down : bool) :
  geometry self -> cursor_in_bounds self ->
  (TextScreen._bottom_row_allowed self = true ->
   TextScreen.current_row self = height (TextScreen.mode self)) ->
  (TextScreen.overflow self = true ->
   TextScreen.current_col self = width (TextScreen.mode self) /\
   TextScreen.current_row self < height (TextScreen.mode self)) ->
  TextScreen.current_row (write_position self do_scroll_down) = TextScreen.csrlin_ self /\
  TextScreen.current_col (write_position self do_scroll_down) = TextScreen.pos_ self.
Proof.
  unfold geometry, cursor_in_bounds, write_position, TextScreen.pos_, TextScreen.csrlin_.
  destruct self. simpl. intros Hgeo [Hcol Hrow] Hflag Hov.
  destruct overflow; simpl.
  - destruct (Hov eq_refl) as [-> Hlast]. clear Hov. rewrite Z.eqb_refl. simpl.
    split_ifs; use_trivial_premises; split; try reflexivity; try lia.
  - clear Hov. rewrite andb_false_r.
    split_ifs; use_trivial_premises; split; try reflexivity; try lia.
Qed.

(** X3: [pos_] and [csrlin_] report the cell on which the next [write_char]
    puts its character, deferred wrap included, as long as an overflowed
    cursor is above the last row of the screen. *)
Theorem pos_csrlin_report_next_cell
    {P : Type} `{TextPage.Ops P} (self : TextScreen.t P) (do_scroll_down : bool) :
  geometry self -> cursor_in_bounds self ->
  (TextScreen._bottom_row_allowed self = true ->
   TextScreen.current_row self = height (TextScreen.mode self)) ->
  (TextScreen.overflow self = true ->
   TextScreen.current_col self = width (TextScreen.mode self) /\
   TextScreen.current_row self < height (TextScreen.mode self)) ->
  TextScreen.current_row (write_position self do_scroll_down) = TextScreen.csrlin_ self /\
  TextScreen.current_col (write_position self do_scroll_down) = TextScreen.pos_ self.
Proof. apply write_position_is_reported. Qed.

(** The theorem at the end of row 3 of the 80 x 25 screen: the next
    character goes to (4, 1), which is what [csrlin_] and [pos_] report. *)
Lemma pos_csrlin_report_next_cell_witness :
  TextScreen.current_row (write_position screen_at_line_end false) = 4 /\
  TextScreen.current_col (write_position screen_at_line_end false) = 1.
Proof.
  refine (pos_csrlin_report_next_cell screen_at_line_end false _ _ _ _).
  - unfold geometry. simpl. lia.
  - unfold cursor_in_bounds. simpl. lia.
  - discriminate.
  - simpl. lia.
Defined.

Arguments TextScreen._modify_attr_on_clear {P} !self body /.

Section ClearFacts.

Context {P : Type} `{TextPage.Ops P}.
Implicit Type self : TextScreen.t P.

(** [set_pos] to a row that is not below the scroll area does not scroll:
    a row above the area is brought to its top. *)
Lemma set_pos_no_scroll self (to_row to_col : Z) (scroll_ok : bool) :
  1 <= to_col <= width (TextScreen.mode self) ->
  to_row <= ScrollArea.bottom (TextScreen.scroll_area self) ->
  (TextScreen._bottom_row_allowed self = true ->
   to_row = height (TextScreen.mode self) ->
   ScrollArea.top (TextScreen.scroll_area self) <= to_row) ->
  let self' := TextScreen.set_pos self to_row to_col scroll_ok in
  TextScreen.current_row self' = Z.max to_row (ScrollArea.top (TextScreen.scroll_area self)) /\
  TextScreen.current_col self' = to_col /\
  TextScreen.overflow self' = false /\
  same_but_cursor self' self.
Proof.
  unfold same_but_cursor. destruct self. simpl. intros Hcol Hrow Hflag. unfold_screen.
  split_ifs; use_trivial_premises; repeat split; try reflexivity; try lia.
Qed.

End ClearFacts.

(** X16: [clear_view] and [clear] hand the page one [clear_rows] (of the scroll
    area, and of rows 1 to [height]) with the foreground set to 7 unless on
    pcjr or tandy, do not scroll, put the attribute back and leave the cursor
    on column 1 of the top row of the scroll area: [clear], too, since its
    [set_pos(1, 1)] is brought into the scroll area. *)
Theorem clear_homes_cursor
    {P : Type} `{TextPage.Ops P} `{TextPage.MoreOps P} (self : TextScreen.t P) :
  geometry self ->
  let top := ScrollArea.top (TextScreen.scroll_area self) in
  let bottom := ScrollArea.bottom (TextScreen.scroll_area self) in
  let attr :=
    if TextScreen._tandytext self then TextScreen._attr self
    else Z.lor (Z.land (TextScreen._attr self) 0x70) 0x7 in
  (TextScreen._apage (TextScreen.clear_view self)
     = TextPage.clear_rows (TextScreen._apage self) top bottom attr /\
   TextScreen._apage (TextScreen.clear self)
     = TextPage.clear_rows (TextScreen._apage self) 1 (height (TextScreen.mode self)) attr) /\
  (forall self', self' = TextScreen.clear_view self \/ self' = TextScreen.clear self ->
     TextScreen._attr self' = TextScreen._attr self /\
     TextScreen.current_row self' = top /\
     TextScreen.current_col self' = 1 /\
     TextScreen.overflow self' = false /\
     TextScreen.scroll_area self' = TextScreen.scroll_area self).
Proof.
  unfold geometry. destruct self as [tandy cur row col ov area flag bar md attr page].
  simpl. intros Hgeo.
  unfold TextScreen.clear_view, TextScreen.clear. simpl.
  assert (Hview : forall a pg,
    let s := TextScreen.set_pos
      (TextScreen.Build tandy cur row col ov area flag bar md a pg)
      (ScrollArea.top area) 1 true in
    TextScreen.current_row s = ScrollArea.top area /\
    TextScreen.current_col s = 1 /\ TextScreen.overflow s = false /\
    TextScreen._apage s = pg /\ TextScreen.scroll_area s = area /\
    TextScreen._attr s = a).
  { intros a pg. cbv zeta.
    pose proof (set_pos_no_scroll (TextScreen.Build tandy cur row col ov area flag bar md a pg)
                  (ScrollArea.top area) 1 true) as Hs.
    cbv zeta in Hs. unfold same_but_cursor in Hs. simpl in Hs.
    destruct Hs as (-> & -> & -> & -> & _ & -> & -> & _); try lia.
    repeat split; lia. }
  assert (Hall : forall a pg,
    let s := TextScreen.set_pos
      (TextScreen.Build tandy cur row col ov area flag bar md a pg) 1 1 true in
    TextScreen.current_row s = ScrollArea.top area /\
    TextScreen.current_col s = 1 /\ TextScreen.overflow s = false /\
    TextScreen._apage s = pg /\ TextScreen.scroll_area s = area /\
    TextScreen._attr s = a).
  { intros a pg. cbv zeta.
    pose proof (set_pos_no_scroll (TextScreen.Build tandy cur row col ov area flag bar md a pg)
                  1 1 true) as Hs.
    cbv zeta in Hs. unfold same_but_cursor in Hs. simpl in Hs.
    destruct Hs as (-> & -> & -> & -> & _ & -> & -> & _); try lia.
    repeat split; lia. }
  cbv zeta in Hview, Hall.
  destruct tandy; simpl.
  - specialize (Hview attr (TextPage.clear_rows page (ScrollArea.top area)
                              (ScrollArea.bottom area) attr)).
    specialize (Hall attr (TextPage.clear_rows page 1 (height md) attr)).
    set (sv := TextScreen.set_pos _ (ScrollArea.top area) 1 true) in *.
    set (sa := TextScreen.set_pos _ 1 1 true) in *.
    clearbody sv sa. destruct sv, sa. simpl in *.
    destruct Hview as (-> & -> & -> & -> & -> & ->).
    destruct Hall as (-> & -> & -> & -> & -> & ->).
    split; [split; reflexivity|].
    intros self' [-> | ->]; simpl; repeat split; reflexivity.
  - specialize (Hview (Z.lor (Z.land attr 112) 7)
                  (TextPage.clear_rows page (ScrollArea.top area)
                     (ScrollArea.bottom area) (Z.lor (Z.land attr 112) 7))).
    specialize (Hall (Z.lor (Z.land attr 112) 7)
                  (TextPage.clear_rows page 1 (height md) (Z.lor (Z.land attr 112) 7))).
    set (sv := TextScreen.set_pos _ (ScrollArea.top area) 1 true) in *.
    set (sa := TextScreen.set_pos _ 1 1 true) in *.
    clearbody sv sa. destruct sv, sa. simpl in *.
    destruct Hview as (-> & -> & -> & -> & -> & ->).
    destruct Hall as (-> & -> & -> & -> & -> & ->).
    split; [split; reflexivity|].
    intros self' [-> | ->]; simpl; repeat split; reflexivity.
Qed.

(** The theorem on an 80 x 25 screen with [VIEW PRINT 5 TO 10] and the
    cursor on row 7: [clear] takes the cursor to (5, 1). *)
Lemma clear_homes_cursor_witness :
  let self :=
    TextScreen.Build false (Cursor.Build 7 3 7 1 true (0, 0)) 7 3 false
      (ScrollArea.set (ScrollArea.__init__ mode_80x25) 5 10)
      false BottomBar.__init__ mode_80x25 0x1e (PageModel.__init__ 7 80 25) in
  TextScreen._attr (TextScreen.clear self) = 0x1e /\
  TextScreen.current_row (TextScreen.clear self) = 5 /\
  TextScreen.current_col (TextScreen.clear self) = 1 /\
  TextScreen.overflow (TextScreen.clear self) = false /\
  TextScreen.scroll_area (TextScreen.clear self) = TextScreen.scroll_area self.
Proof.
  intros self.
  refine (proj2 (clear_homes_cursor self _) _ (or_intror eq_refl)).
  unfold geometry. simpl. lia.
Defined.

(** X5: [move_to_end] puts the cursor just behind the last character of the
    last row of the logical line, without scrolling; behind a full row that
    is the overflow position on the last column, so that [pos_] reports
    column 1. *)
Theorem move_to_end_position
    {P : Type} `{TextPage.Ops P} (self : TextScreen.t P) :
  let row := TextPage.find_end_of_line (TextScreen._apage self) (TextScreen.current_row self) in
  let length := TextPage.row_length (TextScreen._apage self) row in
  geometry self ->
  (ScrollArea.top (TextScreen.scroll_area self) <= row
     <= ScrollArea.bottom (TextScreen.scroll_area self)
   \/ (TextScreen._bottom_row_allowed self = true /\
       row = height (TextScreen.mode self))) ->
  0 <= length <= width (TextScreen.mode self) ->
  let self' := TextScreen.move_to_end self in
  TextScreen.current_row self' = row /\
  TextScreen.current_col self' = Z.min (length + 1) (width (TextScreen.mode self)) /\
  TextScreen.overflow self' = (length =? width (TextScreen.mode self)) /\
  TextScreen.pos_ self' = (if length =? width (TextScreen.mode self) then 1 else length + 1) /\
  TextScreen._apage self' = TextScreen._apage self.
Proof.
  intros row length Hgeo Hrow Hlen. unfold TextScreen.move_to_end, TextScreen.row_length.
  fold row. fold length.
  assert (Hw : 1 <= width (TextScreen.mode self)) by (destruct Hgeo as (_ & _ & _ & Hw); exact Hw).
  destruct (Z.eqb_spec length (width (TextScreen.mode self))) as [Heq | Hne].
  - pose proof (set_pos_lands self row length true) as Hl.
    cbv zeta in Hl. unfold same_but_cursor in Hl.
    destruct Hl as (Hr & Hc & Ho & Hf & _ & _ & Hp & Hm & _); [lia | exact Hrow |].
    cbv zeta. set (s := TextScreen.set_pos self row length true) in *. clearbody s.
    unfold TextScreen.pos_. destruct s. simpl in *. subst.
    repeat split; auto; try lia. rewrite <- Heq, Z.eqb_refl. reflexivity.
  - pose proof (set_pos_lands self row (length + 1) true) as Hl.
    cbv zeta in Hl. unfold same_but_cursor in Hl.
    destruct Hl as (Hr & Hc & Ho & Hf & _ & _ & Hp & Hm & _); [lia | exact Hrow |].
    cbv zeta. set (s := TextScreen.set_pos self row (length + 1) true) in *. clearbody s.
    unfold TextScreen.pos_. destruct s. simpl in *. subst.
    repeat split; auto; try lia. split_ifs; lia.
Qed.

(** The theorem on the 4 x 3 screen whose row 1 holds "ab": the cursor
    goes to (1, 3). *)
Lemma move_to_end_position_witness :
  TextScreen.current_row (TextScreen.move_to_end screen_4x3_dirty) = 1 /\
  TextScreen.current_col (TextScreen.move_to_end screen_4x3_dirty) = 3 /\
  TextScreen.overflow (TextScreen.move_to_end screen_4x3_dirty) = false /\
  TextScreen.pos_ (TextScreen.move_to_end screen_4x3_dirty) = 3 /\
  TextScreen._apage (TextScreen.move_to_end screen_4x3_dirty)
    = TextScreen._apage screen_4x3_dirty.
Proof.
  refine (move_to_end_position screen_4x3_dirty _ _ _).
  - unfold geometry. simpl. lia.
  - left. vm_compute. split; discriminate.
  - vm_compute. split; discriminate.
Defined.

(** X6: [tab] in overwrite mode moves the cursor to the next tab stop, the
    least column beyond the current one that is 1 modulo 8, and never
    scrolls: on the same row while the stop is on the screen; from the last
    tab interval on to the next row (on column [stop - width]) above the
    bottom of the scroll area, and on to the last column otherwise. *)
Theorem tab_overwrite_next_stop
    {P : Type} `{TextPage.Ops P} (self : TextScreen.t P) (fuel : nat) :
  geometry self -> cursor_in_bounds self ->
  let row := TextScreen.current_row self in
  let col := TextScreen.current_col self in
  let w := width (TextScreen.mode self) in
  let stop := 9 + 8 * ((col - 1) / 8) in
  (col < stop <= col + 8 /\ stop mod 8 = 1) /\
  exists self',
    TextScreen.tab fuel self true = Some self' /\
    TextScreen._apage self' = TextScreen._apage self /\
    TextScreen.overflow self' = false /\
    (TextScreen.current_row self', TextScreen.current_col self') =
      (if stop <=? w then (row, stop)
       else if row <? ScrollArea.bottom (TextScreen.scroll_area self)
            then (row + 1, stop - w)
            else (row, w)).
Proof.
  unfold geometry, cursor_in_bounds, TextScreen.tab.
  destruct self. simpl. intros Hgeo [Hcol Hrow].
  set (stop := 9 + 8 * ((current_col - 1) / 8)).
  assert (Hstop : current_col < stop <= current_col + 8 /\ stop mod 8 = 1).
  { subst stop. pose proof (Z.div_mod (current_col - 1) 8 ltac:(lia)).
    pose proof (Z.mod_pos_bound (current_col - 1) 8 ltac:(lia)).
    split; [lia|].
    replace (9 + 8 * ((current_col - 1) / 8)) with (1 + (1 + (current_col - 1) / 8) * 8) by lia.
    rewrite Z.mod_add by lia. reflexivity. }
  split; [exact Hstop|]. clearbody stop.
  eexists. split; [reflexivity|]. unfold_screen.
  split_ifs; repeat split; auto; try lia;
    try (f_equal; lia); exfalso; destruct Hrow as [? | [? ?]]; try discriminate; lia.
Qed.

(** The theorem on the 80 x 25 screen: from (1, 1) the cursor goes to
    (1, 9). *)
Lemma tab_overwrite_next_stop_witness :
  exists self',
    TextScreen.tab 0 screen_80x25 true = Some self' /\
    TextScreen._apage self' = TextScreen._apage screen_80x25 /\
    TextScreen.overflow self' = false /\
    (TextScreen.current_row self', TextScreen.current_col self') = (1, 9).
Proof.
  refine (proj2 (tab_overwrite_next_stop screen_80x25 0 geometry_screen_80x25 _)).
  unfold cursor_in_bounds. simpl. lia.
Defined.

Section BarFacts.

Context {P : Type} `{TextPage.Ops P} `{TextPage.MoreOps P}.
Implicit Type self : TextScreen.t P.

(** [redraw_bar] writes to the active page and to nothing else, also when
    it ends in [IndexError]. *)
Lemma redraw_bar_frame self :
  exists page,
    TextScreen.redraw_bar self = Done tt (TextScreen.set__apage self page) \/
    TextScreen.redraw_bar self = Failed IndexError (TextScreen.set__apage self page).
Proof.
  unfold TextScreen.redraw_bar.
  destruct self as [tandy cur row col ov area flag bar md attr page]. simpl.
  destruct (BottomBar.visible bar); [|eexists; left; reflexivity].
  generalize (TextPage.clear_rows page (height md) (height md) attr).
  generalize (seqZ 0 (width md / 8 * 8)).
  induction l as [|c l IH]; intros pg; simpl.
  - eexists. left. reflexivity.
  - destruct (BottomBar.get_char_reverse bar c) as [[ch rev]|].
    + apply IH.
    + eexists. right. reflexivity.
Qed.

(** The bar keeps 80 cells: [redraw_bar] reads the first
    [(width // 8) * 8] of them and returns normally on a screen of fewer than
    88 columns. *)
Lemma redraw_bar_done self :
  length (BottomBar._contents (TextScreen._bottom_bar self)) = 80%nat ->
  width (TextScreen.mode self) < 88 ->
  exists page,
    TextScreen.redraw_bar self = Done tt (TextScreen.set__apage self page).
Proof.
  unfold TextScreen.redraw_bar.
  destruct self as [tandy cur row col ov area flag bar md attr page]. simpl.
  intros Hlen Hw.
  destruct (BottomBar.visible bar); [|eexists; reflexivity].
  assert (Hcols : Forall (fun c => 0 <= c < 80) (seqZ 0 (width md / 8 * 8))).
  { apply Forall_seqZ. intros c Hc.
    assert (width md / 8 < 11) by (apply Z.div_lt_upper_bound; lia). lia. }
  revert Hcols.
  generalize (TextPage.clear_rows page (height md) (height md) attr).
  generalize (seqZ 0 (width md / 8 * 8)).
  induction l as [|c l IH]; intros pg Hcols; simpl.
  - eexists. reflexivity.
  - inversion Hcols as [|? ? Hc Hl]; subst.
    unfold BottomBar.get_char_reverse, py_index. rewrite Hlen.
    simpl in Hc.
    replace ((0 <=? c) && (c <? Z.of_nat 80)) with true
      by (symmetry; rewrite andb_true_iff, Z.leb_le, Z.ltb_lt; lia).
    simpl.
    destruct (lookup_lt_is_Some_2 (BottomBar._contents bar) (Z.to_nat c)) as [[ch rev] Hcell];
      [lia|].
    rewrite Hcell. apply IH. exact Hl.
Qed.

End BarFacts.

(** X20: [show_bar(on)] raises the illegal-function-call error, changing
    nothing, when the bar is to be shown while the scroll area reaches the
    last row.  Otherwise it changes nothing at all when the bar already is
    in the state asked for, and else sets the visibility and redraws the
    bar, which touches the active page only (the bar holding its 80 cells,
    on a screen of fewer than 88 columns). *)
Theorem show_bar_outcome
    {P : Type} `{TextPage.Ops P} `{TextPage.MoreOps P}
    (self : TextScreen.t P) (on : bool) :
  (on = true /\
   ScrollArea.bottom (TextScreen.scroll_area self) = height (TextScreen.mode self) ->
   TextScreen.show_bar self on = Failed (Exception IFC) self) /\
  (~ (on = true /\
      ScrollArea.bottom (TextScreen.scroll_area self) = height (TextScreen.mode self)) ->
   (BottomBar.visible (TextScreen._bottom_bar self) = on ->
    TextScreen.show_bar self on = Done tt self) /\
   (BottomBar.visible (TextScreen._bottom_bar self) <> on ->
    length (BottomBar._contents (TextScreen._bottom_bar self)) = 80%nat ->
    width (TextScreen.mode self) < 88 ->
    exists page,
      TextScreen.show_bar self on =
        Done tt
          (TextScreen.set__apage
             (TextScreen.set__bottom_bar self
                (BottomBar.Build (BottomBar._contents (TextScreen._bottom_bar self)) on))
             page))).
Proof.
  unfold TextScreen.show_bar. split.
  - intros [-> ->]. rewrite Z.eqb_refl. reflexivity.
  - intros Hnot.
    replace (on && (ScrollArea.bottom (TextScreen.scroll_area self)
                      =? height (TextScreen.mode self))) with false
      by (symmetry; apply not_true_is_false; rewrite andb_true_iff, Z.eqb_eq; exact Hnot).
    destruct self as [tandy cur row col ov area flag [contents vis] md attr page].
    simpl. split.
    + intros ->. destruct on; reflexivity.
    + intros Hvis Hlen Hw.
      replace (negb (Bool.eqb on vis)) with true
        by (destruct on, vis; try reflexivity; contradiction).
      apply (redraw_bar_done
               (TextScreen.Build tandy cur row col ov area flag
                  (BottomBar.Build contents on) md attr page)); assumption.
Qed.

(** The theorem on an 80 x 25 pcjr/tandy screen after [VIEW PRINT 1 TO 25]:
    [KEY ON] raises, changing nothing. *)
Lemma show_bar_outcome_witness :
  let self :=
    TextScreen.Build true (Cursor.Build 1 1 7 1 true (0, 0)) 1 1 false
      (ScrollArea.set (ScrollArea.__init__ mode_80x25) 1 25)
      false BottomBar.__init__ mode_80x25 7 (PageModel.__init__ 7 80 25) in
  TextScreen.show_bar self true = Failed (Exception IFC) self.
Proof.
  intros self. apply (proj1 (show_bar_outcome self true)). split; reflexivity.
Defined.

(** X17: [init_mode] with a page number on the list, for a mode of at least two
    rows and at least one column (and fewer than 88, the bar holding its 80
    cells), returns with the screen in the new mode and the scroll area and
    the cursor within it: the area starts on row 1 and ends on the row
    before the last, or on the last row when the area handed over ended
    there; the cursor is on (1, 1) with no overflow pending and the bottom
    row not allowed. *)
Theorem init_mode_establishes_bounds
    {P : Type} `{TextPage.Ops P} `{TextPage.MoreOps P}
    (self : TextScreen.t P) (new_mode : Mode) (pages : list P)
    (attr vpagenum apagenum : Z) :
  2 <= height new_mode -> 1 <= width new_mode < 88 ->
  length (BottomBar._contents (TextScreen._bottom_bar self)) = 80%nat ->
  0 <= apagenum < Z.of_nat (length pages) ->
  exists self',
    TextScreen.init_mode self new_mode pages attr vpagenum apagenum = Done tt self' /\
    TextScreen.mode self' = new_mode /\
    TextScreen._attr self' = attr /\
    ScrollArea.top (TextScreen.scroll_area self') = 1 /\
    ScrollArea.bottom (TextScreen.scroll_area self') =
      (if ScrollArea.bottom (TextScreen.scroll_area self) =? height new_mode
       then height new_mode else height new_mode - 1) /\
    geometry self' /\ unset_area_fits self' /\ cursor_in_bounds self' /\
    TextScreen.current_row self' = 1 /\
    TextScreen.current_col self' = 1 /\
    TextScreen.overflow self' = false /\
    TextScreen._bottom_row_allowed self' = false.
Proof.
  intros Hh Hw Hlen Hpage. unfold TextScreen.init_mode.
  unfold py_index.
  replace ((0 <=? apagenum) && (apagenum <? Z.of_nat (length pages))) with true
    by (symmetry; rewrite andb_true_iff, Z.leb_le, Z.ltb_lt; lia).
  simpl.
  destruct (lookup_lt_is_Some_2 pages (Z.to_nat apagenum)) as [page Hpg]; [lia|].
  rewrite Hpg.
  destruct self as [tandy cur row col ov area flag bar md a pg]. simpl in *.
  destruct (redraw_bar_done
              (TextScreen.Build tandy cur row col ov area flag bar new_mode attr page))
    as [page' Hdone]; [exact Hlen | simpl; lia |].
  rewrite Hdone. simpl.
  eexists. split; [reflexivity|].
  set (area' := ScrollArea.init_mode area new_mode).
  assert (Harea : ScrollArea.top area' = 1 /\
                  ScrollArea.bottom area' =
                    (if ScrollArea.bottom area =? height new_mode
                     then height new_mode else height new_mode - 1) /\
                  (ScrollArea.active area' = false ->
                   ScrollArea.bottom area' = height new_mode - 1)).
  { subst area'. unfold ScrollArea.init_mode, ScrollArea.bottom, ScrollArea.top,
      ScrollArea.active. destruct area as [ah aact atop abot]. simpl.
    destruct (abot =? height new_mode); simpl; repeat split; auto; discriminate. }
  destruct Harea as (Htop & Hbot & Hunset).
  rewrite Htop.
  pose proof (set_pos_lands
                (TextScreen.Build tandy cur row col ov area' flag bar new_mode attr page')
                1 1 true) as Hl.
  unfold same_but_cursor in Hl. cbv zeta in Hl.
  assert (Hb1 : 1 <= ScrollArea.bottom area') by (rewrite Hbot; split_ifs; lia).
  destruct Hl as (Hr & Hc & Ho & Hf & _ & _ & (_ & Hm & Ha & Hat & _));
    [simpl; lia | left; simpl; lia |].
  cbn [TextScreen.mode TextScreen._bottom_row_allowed] in Hf.
  rewrite (proj2 (Z.eqb_neq 1 (height new_mode))), andb_false_r in Hf by lia.
  set (s := TextScreen.set_pos _ 1 1 true) in *. clearbody s.
  destruct s. simpl in *. subst.
  unfold geometry, unset_area_fits, cursor_in_bounds. simpl.
  repeat split; auto; try lia.
  rewrite Hbot. split_ifs; lia.
Qed.

(** The theorem on the 80 x 25 screen, initialised anew for the 4 x 3
    mode with one page. *)
Lemma init_mode_establishes_bounds_witness :
  exists self',
    TextScreen.init_mode screen_80x25 mode_4x3 [PageModel.__init__ 7 4 3] 7 0 0
      = Done tt self' /\
    TextScreen.mode self' = mode_4x3 /\
    TextScreen._attr self' = 7 /\
    ScrollArea.top (TextScreen.scroll_area self') = 1 /\
    ScrollArea.bottom (TextScreen.scroll_area self') = 2 /\
    geometry self' /\ unset_area_fits self' /\ cursor_in_bounds self' /\
    TextScreen.current_row self' = 1 /\
    TextScreen.current_col self' = 1 /\
    TextScreen.overflow self' = false /\
    TextScreen._bottom_row_allowed self' = false.
Proof.
  refine (init_mode_establishes_bounds screen_80x25 mode_4x3 [PageModel.__init__ 7 4 3]
            7 0 0 _ _ _ _).
  - simpl. lia.
  - simpl. lia.
  - reflexivity.
  - simpl. lia.
Defined.

(** X21: [locate_] on its five arguments ([None] for an omitted one).  When a
    position check fails it raises the illegal-function-call error and leaves
    the screen as it was.  When they pass (with an unset scroll area as
    [unset] leaves it) the cursor is moved to exactly the row and column
    asked for, without scrolling, and the bottom row is allowed exactly when
    that row is the last one; only then are the cursor visibility and shape
    arguments checked, so that an illegal one raises the error with the
    cursor already moved. *)
Theorem locate_outcome
    {P : Type} `{TextPage.Ops P}
    (self : TextScreen.t P) (row col cursor start stop : option Z) :
  let r := default (TextScreen.current_row self) row in
  let c := default (TextScreen.current_col self) col in
  (~ locate_position_ok self r c ->
   TextScreen.locate_ [row; col; cursor; start; stop] self = Raised IFC self) /\
  (locate_position_ok self r c -> unset_area_fits self ->
   let self' := outcome_state (TextScreen.locate_ [row; col; cursor; start; stop] self) in
   TextScreen.current_row self' = r /\
   TextScreen.current_col self' = c /\
   TextScreen.overflow self' = false /\
   TextScreen._bottom_row_allowed self' = (r =? height (TextScreen.mode self)) /\
   TextScreen._apage self' = TextScreen._apage self /\
   TextScreen.scroll_area self' = TextScreen.scroll_area self /\
   (locate_cursor_ok self cursor start stop ->
    TextScreen.locate_ [row; col; cursor; start; stop] self = Returned tt self') /\
   (~ locate_cursor_ok self cursor start stop ->
    TextScreen.locate_ [row; col; cursor; start; stop] self = Raised IFC self')).
Proof.
  intros r c. split.
  - apply locate_position_error.
  - apply locate_position_accepted.
Qed.

(** The theorem on the 80 x 25 screen: [LOCATE 5, 10, 7] raises on its
    third argument with the cursor on (5, 10). *)
Lemma locate_outcome_witness :
  let o := TextScreen.locate_ [Some 5; Some 10; Some 7; None; None] screen_80x25 in
  TextScreen.current_row (outcome_state o) = 5 /\
  TextScreen.current_col (outcome_state o) = 10 /\
  o = Raised IFC (outcome_state o).
Proof.
  intros o.
  destruct (proj2 (locate_outcome screen_80x25 (Some 5) (Some 10) (Some 7) None None))
    as (Hr & Hc & _ & _ & _ & _ & _ & Hraise).
  - unfold locate_position_ok. simpl. repeat split; try lia; try (intros [? ?]; lia).
  - unfold unset_area_fits. simpl. intros _. split; reflexivity.
  - split; [exact Hr|]. split; [exact Hc|]. apply Hraise.
    unfold locate_cursor_ok. simpl. intros [? _]. lia.
Defined.

Section BottomBarFacts.

Import BottomBar.

Lemma py_index_nonneg (len : nat) (i : Z) :
  0 <= i ->
  py_index len i = if i <? Z.of_nat len then Some (Z.to_nat i) else None.
Proof.
  intros Hi. unfold py_index.
  replace (0 <=? i) with true by (symmetry; apply Z.leb_le; lia).
  replace (i <? 0) with false by (symmetry; apply Z.ltb_ge; lia).
  rewrite andb_false_r. simpl. destruct (i <? Z.of_nat len); reflexivity.
Qed.

(** The cells after [write] from a column counted from the front. *)
Lemma write_cells (s : list byte) (reverse : bool) :
  forall (self : t) (col : Z),
    0 <= col ->
    let len := length (_contents self) in
    let r := write self s col reverse in
    length (_contents (fst r)) = len /\
    visible (fst r) = visible self /\
    (snd r = true <-> s = [] \/ col + Z.of_nat (length s) <= Z.of_nat len) /\
    (forall i : nat, (i < len)%nat ->
       _contents (fst r) !! i =
         if (Z.to_nat col <=? i)%nat && (i <? Z.to_nat col + length s)%nat
         then (fun c => (c, reverse)) <$> s !! (i - Z.to_nat col)%nat
         else _contents self !! i).
Proof.
  induction s as [|c s IH]; intros self col Hcol; cbv zeta.
  - simpl. repeat split; auto.
    intros i Hi. rewrite Nat.add_0_r.
    destruct (Z.to_nat col <=? i)%nat eqn:E1, (i <? Z.to_nat col)%nat eqn:E2; simpl; auto.
    apply Nat.leb_le in E1. apply Nat.ltb_lt in E2. lia.
  - simpl. rewrite py_index_nonneg by exact Hcol.
    destruct (Z.ltb_spec col (Z.of_nat (length (_contents self)))) as [Hlt | Hge].
    + specialize (IH (Build (<[Z.to_nat col := (c, reverse)]> (_contents self)) (visible self))
                     (col + 1) ltac:(lia)).
      cbv zeta in IH. simpl in IH. rewrite length_insert in IH.
      destruct IH as (Hl & Hv & Hok & Hcells).
      split; [exact Hl|]. split; [exact Hv|]. split.
      * rewrite Hok. split.
        -- intros [-> | Hle]; right; simpl; lia.
        -- intros [Hnil | Hle]; [discriminate|]. right. lia.
      * intros i Hi. rewrite (Hcells i Hi).
        replace (Z.to_nat (col + 1)) with (S (Z.to_nat col)) by lia.
        destruct (Nat.leb_spec (S (Z.to_nat col)) i) as [H1 | H1];
          destruct (Nat.ltb_spec i (S (Z.to_nat col) + length s)) as [H2 | H2];
          destruct (Nat.leb_spec (Z.to_nat col) i) as [H3 | H3];
          destruct (Nat.ltb_spec i (Z.to_nat col + S (length s))) as [H4 | H4];
          simpl; try lia.
        -- replace (i - Z.to_nat col)%nat with (S (i - S (Z.to_nat col))) by lia.
           reflexivity.
        -- rewrite list_lookup_insert_ne by lia. reflexivity.
        -- assert (i = Z.to_nat col) as -> by lia.
           rewrite list_lookup_insert_eq by lia. rewrite Nat.sub_diag. reflexivity.
        -- rewrite list_lookup_insert_ne by lia. reflexivity.
    + simpl. split; [reflexivity|]. split; [reflexivity|]. split.
      * split; [discriminate|]. intros [Hnil | Hle]; [discriminate|]. simpl in Hle. lia.
      * intros i Hi.
        destruct (Nat.leb_spec (Z.to_nat col) i) as [H3 | H3]; simpl; [lia|reflexivity].
Qed.

(** The same, cell by cell. *)
Lemma write_fits (s : list byte) (reverse : bool) (self : t) (col : nat) :
  (col + length s <= length (_contents self))%nat ->
  let r := write self s (Z.of_nat col) reverse in
  snd r = true /\
  length (_contents (fst r)) = length (_contents self) /\
  visible (fst r) = visible self /\
  (forall m c, s !! m = Some c ->
     _contents (fst r) !! (col + m)%nat = Some (c, reverse)) /\
  (forall k, ~ (col <= k < col + length s)%nat ->
     _contents (fst r) !! k = _contents self !! k).
Proof.
  intros Hfit. cbv zeta.
  destruct (write_cells s reverse self (Z.of_nat col) ltac:(lia))
    as (Hl & Hv & Hok & Hcells).
  rewrite Nat2Z.id in Hcells.
  split; [apply Hok; right; lia|]. split; [exact Hl|]. split; [exact Hv|]. split.
  - intros m c Hm. pose proof (lookup_lt_Some _ _ _ Hm) as Hlt.
    rewrite Hcells by lia.
    replace ((col <=? col + m)%nat) with true by (symmetry; apply Nat.leb_le; lia).
    replace ((col + m <? col + length s)%nat) with true
      by (symmetry; apply Nat.ltb_lt; lia).
    simpl. replace (col + m - col)%nat with m by lia. rewrite Hm. reflexivity.
  - intros k Hk.
    destruct (Nat.lt_ge_cases k (length (_contents self))) as [Hlt | Hge].
    + rewrite Hcells by exact Hlt.
      destruct (Nat.leb_spec col k); destruct (Nat.ltb_spec k (col + length s));
        simpl; try reflexivity; lia.
    + rewrite !lookup_ge_None_2 by lia. reflexivity.
Qed.

End BottomBarFacts.

(** X18: [write] from a column counted from the front puts the characters of
    the string on the cells from that column on, each with the reverse flag
    given, and leaves the other cells alone.  It runs to its end exactly when
    the string is empty or ends within the bar; otherwise it raises
    [IndexError], and the characters that fit have been written. *)
Theorem bottom_bar_write_read (self : BottomBar.t) (s : list byte) (col : Z)
    (reverse : bool) :
  0 <= col ->
  let len := Z.of_nat (length (BottomBar._contents self)) in
  let r := BottomBar.write self s col reverse in
  (snd r = true <-> s = [] \/ col + Z.of_nat (length s) <= len) /\
  length (BottomBar._contents (fst r)) = length (BottomBar._contents self) /\
  (forall k, 0 <= k < len ->
     BottomBar.get_char_reverse (fst r) k =
       if (col <=? k) && (k <? col + Z.of_nat (length s))
       then (fun c => (c, reverse)) <$> s !! Z.to_nat (k - col)
       else BottomBar.get_char_reverse self k).
Proof.
  intros Hcol. cbv zeta.
  destruct (write_cells s reverse self col Hcol) as (Hl & Hv & Hok & Hcells).
  split; [exact Hok|]. split; [exact Hl|].
  intros k Hk. unfold BottomBar.get_char_reverse.
  rewrite Hl, !py_index_nonneg by lia.
  replace (k <? Z.of_nat (length (BottomBar._contents self))) with true
    by (symmetry; apply Z.ltb_lt; lia).
  simpl. rewrite Hcells by lia.
  destruct (Z.leb_spec col k); destruct (Z.ltb_spec k (col + Z.of_nat (length s)));
    destruct (Nat.leb_spec (Z.to_nat col) (Z.to_nat k));
    destruct (Nat.ltb_spec (Z.to_nat k) (Z.to_nat col + length s));
    simpl; try lia; try reflexivity.
  replace (Z.to_nat k - Z.to_nat col)%nat with (Z.to_nat (k - col)) by lia.
  reflexivity.
Qed.

(** The theorem on the empty bar: "RUN" written from cell 2 in reverse. *)
Lemma bottom_bar_write_read_witness :
  snd (BottomBar.write BottomBar.__init__ ["R"; "U"; "N"]%byte 2 true) = true /\
  BottomBar.get_char_reverse
    (fst (BottomBar.write BottomBar.__init__ ["R"; "U"; "N"]%byte 2 true)) 3
    = Some ("U"%byte, true).
Proof.
  destruct (bottom_bar_write_read BottomBar.__init__ ["R"; "U"; "N"]%byte 2 true)
    as (Hok & _ & Hcells); [lia|].
  split.
  - apply Hok. right. simpl. lia.
  - apply (Hcells 3). simpl. lia.
Defined.

Section UpdateBarFacts.

Import BottomBar.

(** The loop of [update_bar] over at most ten descriptions of at most six
    characters each. *)
Lemma _update_bar_from_layout (descriptions : list (list byte)) :
  forall (bar : t) (n : nat),
    length (_contents bar) = 80%nat ->
    (n + length descriptions <= 10)%nat ->
    Forall (fun text => (length text <= 6)%nat) descriptions ->
    let r := TextScreen._update_bar_from bar (Z.of_nat n) descriptions in
    snd r = true /\
    length (_contents (fst r)) = 80%nat /\
    visible (fst r) = visible bar /\
    (forall j text, descriptions !! j = Some text ->
       (forall d, TextScreen.last_digit (Z.of_nat (n + j) + 1) !! 0%nat = Some d ->
          _contents (fst r) !! (1 + 8 * (n + j))%nat = Some (d, false)) /\
       (forall m c, text !! m = Some c ->
          _contents (fst r) !! (2 + 8 * (n + j) + m)%nat = Some (c, true))) /\
    (forall k,
       (forall j text, descriptions !! j = Some text ->
          ~ (1 + 8 * (n + j) <= k < 2 + 8 * (n + j) + length text)%nat) ->
       _contents (fst r) !! k = _contents bar !! k).
Proof.
  induction descriptions as [|text ds IH]; intros bar n Hlen Hn Hall; cbv zeta.
  - simpl. repeat split; auto; intros; discriminate.
  - inversion Hall as [|? ? Htext Hds]; subst. simpl in Hn.
    cbn [TextScreen._update_bar_from].
    replace (1 + 8 * Z.of_nat n) with (Z.of_nat (1 + 8 * n)) by lia.
    destruct (write_fits (TextScreen.last_digit (Z.of_nat n + 1)) false bar (1 + 8 * n))
      as (Hok1 & Hl1 & Hv1 & Hin1 & Hout1).
    { rewrite Hlen. unfold TextScreen.last_digit. cbn [length]. lia. }
    destruct (write bar (TextScreen.last_digit (Z.of_nat n + 1)) (Z.of_nat (1 + 8 * n)) false)
      as [bar1 ok1]. cbn [fst snd] in Hok1, Hl1, Hv1, Hin1, Hout1. subst ok1.
    replace (Z.of_nat (1 + 8 * n) + 1) with (Z.of_nat (2 + 8 * n)) by lia.
    destruct (write_fits text true bar1 (2 + 8 * n)) as (Hok2 & Hl2 & Hv2 & Hin2 & Hout2).
    { rewrite Hl1, Hlen. lia. }
    destruct (write bar1 text (Z.of_nat (2 + 8 * n)) true) as [bar2 ok2].
    cbn [fst snd] in Hok2, Hl2, Hv2, Hin2, Hout2. subst ok2.
    replace (Z.of_nat n + 1) with (Z.of_nat (S n)) by lia.
    specialize (IH bar2 (S n) ltac:(congruence) ltac:(lia) Hds). cbv zeta in IH.
    destruct IH as (Hok & Hl & Hv & Hin & Hout).
    split; [exact Hok|]. split; [exact Hl|]. split; [congruence|]. split.
    + intros [|j] t Ht.
      * injection Ht as <-. rewrite Nat.add_0_r. split.
        -- intros d Hd. rewrite Hout.
           ++ rewrite Hout2 by lia.
              specialize (Hin1 0%nat d Hd). rewrite Nat.add_0_r in Hin1. exact Hin1.
           ++ intros j' t' Ht'. lia.
        -- intros m c Hm. pose proof (lookup_lt_Some _ _ _ Hm) as Hlt.
           rewrite Hout.
           ++ apply Hin2. exact Hm.
           ++ intros j' t' Ht'. lia.
      * simpl in Ht. specialize (Hin j t Ht).
        replace (n + S j)%nat with (S n + j)%nat by lia. exact Hin.
    + intros k Hk. rewrite Hout.
      * pose proof (Hk 0%nat text eq_refl) as Hk0. rewrite Nat.add_0_r in Hk0.
        rewrite Hout2 by lia. apply Hout1. unfold TextScreen.last_digit. cbn [length]. lia.
      * intros j t Ht. specialize (Hk (S j) t Ht).
        replace (n + S j)%nat with (S n + j)%nat in Hk by lia. exact Hk.
Qed.

End UpdateBarFacts.

(** X19: [update_bar] with at most ten descriptions of at most six characters
    each returns normally and lays the bar out in cells of eight: cell
    [1 + 8 i] holds the last digit of the key number [i + 1] (so "0" for key
    10), not reversed, the cells after it the description, reversed; cell 0
    is blank.  The visibility of the bar is not changed. *)
Theorem update_bar_layout
    {P : Type} (self : TextScreen.t P) (descriptions : list (list byte)) :
  (length descriptions <= 10)%nat ->
  Forall (fun text => (length text <= 6)%nat) descriptions ->
  exists bar,
    TextScreen.update_bar self descriptions
      = Done tt (TextScreen.set__bottom_bar self bar) /\
    BottomBar.visible bar = BottomBar.visible (TextScreen._bottom_bar self) /\
    BottomBar.get_char_reverse bar 0 = Some (" "%byte, false) /\
    (forall (i : nat) text, descriptions !! i = Some text ->
       BottomBar.get_char_reverse bar (1 + 8 * Z.of_nat i)
         = (fun d => (d, false)) <$> head (TextScreen.last_digit (Z.of_nat i + 1)) /\
       (forall (m : nat) c, text !! m = Some c ->
          BottomBar.get_char_reverse bar (2 + 8 * Z.of_nat i + Z.of_nat m)
            = Some (c, true))).
Proof.
  intros Hn Hall. unfold TextScreen.update_bar.
  destruct self as [tandy cur row col ov area flag bar md attr page].
  cbn [TextScreen.set__bottom_bar TextScreen._bottom_bar].
  destruct (_update_bar_from_layout descriptions (BottomBar.clear bar) 0
              eq_refl ltac:(lia) Hall) as (Hok & Hl & Hv & Hin & Hout).
  change (Z.of_nat 0) with 0 in *.
  destruct (TextScreen._update_bar_from (BottomBar.clear bar) 0 descriptions)
    as [bar' ok]. cbn [fst snd] in *. subst ok.
  exists bar'. split; [reflexivity|]. split; [exact Hv|].
  assert (Hget : forall k : nat, (k < 80)%nat ->
            BottomBar.get_char_reverse bar' (Z.of_nat k) = BottomBar._contents bar' !! k).
  { intros k Hk. unfold BottomBar.get_char_reverse.
    rewrite py_index_nonneg, Hl by lia.
    replace (Z.of_nat k <? Z.of_nat 80) with true by (symmetry; apply Z.ltb_lt; lia).
    simpl. rewrite Nat2Z.id. reflexivity. }
  split; [|intros i text Hi; split].
  - change 0 with (Z.of_nat 0). rewrite Hget by lia. rewrite Hout.
    + reflexivity.
    + intros j t Ht. lia.
  - pose proof (lookup_lt_Some _ _ _ Hi) as Hlt.
    replace (1 + 8 * Z.of_nat i) with (Z.of_nat (1 + 8 * i)) by lia.
    rewrite Hget by lia.
    destruct (Hin i text Hi) as [Hd _]. cbn [Nat.add] in Hd.
    unfold TextScreen.last_digit in *. cbn [head fmap option_fmap option_map].
    apply Hd. reflexivity.
  - intros m c Hm. pose proof (lookup_lt_Some _ _ _ Hi) as Hlt.
    pose proof (lookup_lt_Some _ _ _ Hm) as Hlm.
    assert (Ht : (length text <= 6)%nat)
      by exact (Forall_lookup_1 _ _ _ _ Hall Hi).
    replace (2 + 8 * Z.of_nat i + Z.of_nat m) with (Z.of_nat (2 + 8 * i + m)) by lia.
    rewrite Hget by lia.
    destruct (Hin i text Hi) as [_ Hc]. cbn [Nat.add] in Hc. apply Hc. exact Hm.
Qed.

(** The theorem for the first two keys of the default key list. *)
Lemma update_bar_layout_witness :
  exists bar,
    TextScreen.update_bar screen_80x25 [["L"; "I"; "S"; "T"]; ["R"; "U"; "N"]]%byte
      = Done tt (TextScreen.set__bottom_bar screen_80x25 bar) /\
    BottomBar.visible bar = BottomBar.visible (TextScreen._bottom_bar screen_80x25) /\
    BottomBar.get_char_reverse bar 0 = Some (" "%byte, false) /\
    (forall (i : nat) text,
       [["L"; "I"; "S"; "T"]; ["R"; "U"; "N"]]%byte !! i = Some text ->
       BottomBar.get_char_reverse bar (1 + 8 * Z.of_nat i)
         = (fun d => (d, false)) <$> head (TextScreen.last_digit (Z.of_nat i + 1)) /\
       (forall (m : nat) c, text !! m = Some c ->
          BottomBar.get_char_reverse bar (2 + 8 * Z.of_nat i + Z.of_nat m)
            = Some (c, true))).
Proof.
  apply (update_bar_layout screen_80x25 [["L"; "I"; "S"; "T"]; ["R"; "U"; "N"]]%byte).
  - simpl. lia.
  - repeat constructor; simpl; lia.
Defined.

Section SkipWordFacts.

Context {P : Type} `{TextPage.Ops P}.
Implicit Type self : TextScreen.t P.

(** A scanning loop of [skip_word_right] ends within the iterations that
    the cells up to the end of the scroll area allow; what it finds passes
    the test and is not before the starting cell. *)
Lemma _skip_right_ends (found : byte -> bool) self :
  forall (fuel : nat) (crow ccol : Z),
    (skip_right_fuel self crow ccol <= fuel)%nat ->
    exists res,
      TextScreen._skip_right fuel found self crow ccol = Some res /\
      (forall r c, res = Some (r, c) ->
         found (TextPage.get_char (TextScreen._apage self) r c) = true /\
         (crow < r \/ (crow = r /\ ccol <= c)) /\
         (skip_right_fuel self r c <= skip_right_fuel self crow ccol)%nat /\
         (crow <= ScrollArea.bottom (TextScreen.scroll_area self) ->
          r <= ScrollArea.bottom (TextScreen.scroll_area self)) /\
         (1 <= ccol -> 1 <= c) /\
         (1 <= width (TextScreen.mode self) -> ccol <= width (TextScreen.mode self) ->
          c <= width (TextScreen.mode self))).
Proof.
  unfold skip_right_fuel.
  set (b := ScrollArea.bottom (TextScreen.scroll_area self)).
  set (w := width (TextScreen.mode self)).
  induction fuel as [|fuel IH]; intros crow ccol Hfuel; [lia|].
  cbn [TextScreen._skip_right]. fold b w.
  destruct (found (TextPage.get_char (TextScreen._apage self) crow ccol)) eqn:Hfound.
  - eexists. split; [reflexivity|]. intros r c [= <- <-].
    repeat split; auto; lia.
  - rewrite Z.gtb_ltb, Z.geb_leb.
    destruct (Z.ltb_spec w (ccol + 1)) as [Hedge | Hin].
    + destruct (Z.leb_spec b crow) as [Hbot | Hbot].
      * eexists. split; [reflexivity|]. intros r c [=].
      * assert (Hstep : Z.max 0 (b - (crow + 1)) * (Z.max 0 w + 1) + Z.max 0 (w - 1)
                        < Z.max 0 (b - crow) * (Z.max 0 w + 1) + Z.max 0 (w - ccol)).
        { replace (Z.max 0 (b - crow)) with (Z.max 0 (b - (crow + 1)) + 1) by lia.
          rewrite Z.mul_add_distr_r.
          generalize (Z.max 0 (b - (crow + 1)) * (Z.max 0 w + 1)). intros. lia. }
        destruct (IH (crow + 1) 1 ltac:(lia)) as (res & Hres & Hprop).
        exists res. split; [exact Hres|]. intros r c ->.
        destruct (Hprop r c eq_refl) as (Hf & Hpos & Hm & Hb & Hc1 & Hcw).
        repeat split; auto; try lia.
    + assert (Hstep : Z.max 0 (w - (ccol + 1)) < Z.max 0 (w - ccol)) by lia.
      destruct (IH crow (ccol + 1) ltac:(lia)) as (res & Hres & Hprop).
      exists res. split; [exact Hres|]. intros r c ->.
      destruct (Hprop r c eq_refl) as (Hf & Hpos & Hm & Hb & Hc1 & Hcw).
      repeat split; auto; try lia.
Qed.

(** The first loop of [skip_word_left] likewise, towards the top. *)
Lemma _skip_left_ends (ALPHANUMERIC : byte -> bool) self :
  forall (fuel : nat) (crow ccol : Z),
    (skip_left_fuel self crow ccol <= fuel)%nat ->
    exists res,
      TextScreen._skip_left fuel ALPHANUMERIC self crow ccol = Some res /\
      (forall r c, res = Some (r, c) ->
         ALPHANUMERIC (TextPage.get_char (TextScreen._apage self) r c) = true /\
         (r < crow \/ (r = crow /\ c < ccol)) /\
         (skip_left_fuel self r c <= skip_left_fuel self crow ccol)%nat /\
         (ScrollArea.top (TextScreen.scroll_area self) <= crow ->
          ScrollArea.top (TextScreen.scroll_area self) <= r) /\
         (1 <= width (TextScreen.mode self) -> 1 <= c) /\
         (ccol <= width (TextScreen.mode self) + 1 -> c <= width (TextScreen.mode self))).
Proof.
  unfold skip_left_fuel.
  set (t := ScrollArea.top (TextScreen.scroll_area self)).
  set (w := width (TextScreen.mode self)).
  induction fuel as [|fuel IH]; intros crow ccol Hfuel; [lia|].
  cbn [TextScreen._skip_left]. fold t w.
  destruct (Z.ltb_spec (ccol - 1) 1) as [Hedge | Hin].
  - destruct (Z.leb_spec crow t) as [Htop | Htop].
    + eexists. split; [reflexivity|]. intros r c [=].
    + destruct (ALPHANUMERIC (TextPage.get_char (TextScreen._apage self) (crow - 1) w))
        eqn:Hfound.
      * eexists. split; [reflexivity|]. intros r c [= <- <-].
        assert (Hstep : Z.max 0 (crow - 1 - t) * (Z.max 0 w + 1) + Z.max 0 w
                        < Z.max 0 (crow - t) * (Z.max 0 w + 1) + Z.max 0 ccol).
        { replace (Z.max 0 (crow - t)) with (Z.max 0 (crow - 1 - t) + 1) by lia.
          rewrite Z.mul_add_distr_r.
          generalize (Z.max 0 (crow - 1 - t) * (Z.max 0 w + 1)). intros. lia. }
        repeat split; auto; lia.
      * assert (Hstep : Z.max 0 (crow - 1 - t) * (Z.max 0 w + 1) + Z.max 0 w
                        < Z.max 0 (crow - t) * (Z.max 0 w + 1) + Z.max 0 ccol).
        { replace (Z.max 0 (crow - t)) with (Z.max 0 (crow - 1 - t) + 1) by lia.
          rewrite Z.mul_add_distr_r.
          generalize (Z.max 0 (crow - 1 - t) * (Z.max 0 w + 1)). intros. lia. }
        destruct (IH (crow - 1) w ltac:(lia)) as (res & Hres & Hprop).
        exists res. split; [exact Hres|]. intros r c ->.
        destruct (Hprop r c eq_refl) as (Hf & Hpos & Hm & Ht & Hc1 & Hcw).
        repeat split; auto; try lia.
  - destruct (ALPHANUMERIC (TextPage.get_char (TextScreen._apage self) crow (ccol - 1)))
      eqn:Hfound.
    + eexists. split; [reflexivity|]. intros r c [= <- <-].
      repeat split; auto; lia.
    + destruct (IH crow (ccol - 1) ltac:(lia)) as (res & Hres & Hprop).
      exists res. split; [exact Hres|]. intros r c ->.
      destruct (Hprop r c eq_refl) as (Hf & Hpos & Hm & Ht & Hc1 & Hcw).
      repeat split; auto; try lia.
Qed.

(** The second loop of [skip_word_left]: it stays on alphanumeric cells
    and ends on one. *)
Lemma _skip_left_word_ends (ALPHANUMERIC : byte -> bool) self :
  forall (fuel : nat) (crow ccol : Z),
    (skip_left_fuel self crow ccol <= fuel)%nat ->
    exists r c,
      TextScreen._skip_left_word fuel ALPHANUMERIC self crow ccol = Some (r, c) /\
      (ALPHANUMERIC (TextPage.get_char (TextScreen._apage self) crow ccol) = true ->
       ALPHANUMERIC (TextPage.get_char (TextScreen._apage self) r c) = true) /\
      (r < crow \/ (r = crow /\ c <= ccol)) /\
      (ScrollArea.top (TextScreen.scroll_area self) <= crow ->
       ScrollArea.top (TextScreen.scroll_area self) <= r) /\
      (1 <= width (TextScreen.mode self) -> 1 <= ccol -> 1 <= c) /\
      (ccol <= width (TextScreen.mode self) -> c <= width (TextScreen.mode self)).
Proof.
  unfold skip_left_fuel.
  set (t := ScrollArea.top (TextScreen.scroll_area self)).
  set (w := width (TextScreen.mode self)).
  induction fuel as [|fuel IH]; intros crow ccol Hfuel; [lia|].
  cbn [TextScreen._skip_left_word]. fold t w.
  destruct (Z.ltb_spec (ccol - 1) 1) as [Hedge | Hin].
  - destruct (Z.leb_spec crow t) as [Htop | Htop].
    + exists crow, ccol. split; [reflexivity|]. repeat split; auto; lia.
    + destruct (ALPHANUMERIC (TextPage.get_char (TextScreen._apage self) (crow - 1) w))
        eqn:Hfound; simpl.
      * assert (Hstep : Z.max 0 (crow - 1 - t) * (Z.max 0 w + 1) + Z.max 0 w
                        < Z.max 0 (crow - t) * (Z.max 0 w + 1) + Z.max 0 ccol).
        { replace (Z.max 0 (crow - t)) with (Z.max 0 (crow - 1 - t) + 1) by lia.
          rewrite Z.mul_add_distr_r.
          generalize (Z.max 0 (crow - 1 - t) * (Z.max 0 w + 1)). intros. lia. }
        destruct (IH (crow - 1) w ltac:(lia)) as (r & c & Hres & Hal & Hpos & Ht & Hc1 & Hcw).
        exists r, c. split; [exact Hres|].
        repeat split; auto; try lia.
      * exists crow, ccol. split; [reflexivity|]. repeat split; auto; lia.
  - destruct (ALPHANUMERIC (TextPage.get_char (TextScreen._apage self) crow (ccol - 1)))
      eqn:Hfound; simpl.
    + destruct (IH crow (ccol - 1) ltac:(lia)) as (r & c & Hres & Hal & Hpos & Ht & Hc1 & Hcw).
      exists r, c. split; [exact Hres|].
      repeat split; auto; try lia.
    + exists crow, ccol. split; [reflexivity|]. repeat split; auto; lia.
Qed.

End SkipWordFacts.

(** X14: [skip_word_right] ends, within the iterations that the cells up to the
    end of the scroll area allow.  Either it leaves the screen as it was
    (nothing found), or it calls [set_pos] for a cell that holds an
    alphanumeric character and is not before the cursor in reading order;
    from a cursor inside the scroll area that cell is in the scroll area,
    the cursor lands exactly there and nothing scrolls. *)
Theorem skip_word_right_outcome
    {P : Type} `{TextPage.Ops P} (ALPHANUMERIC : byte -> bool)
    (self : TextScreen.t P) (fuel : nat) :
  let row := TextScreen.current_row self in
  let col := TextScreen.current_col self in
  (skip_right_fuel self row col <= fuel)%nat ->
  exists self',
    TextScreen.skip_word_right ALPHANUMERIC fuel self = Some self' /\
    (self' = self \/
     exists r c,
       self' = TextScreen.set_pos self r c true /\
       ALPHANUMERIC (TextPage.get_char (TextScreen._apage self) r c) = true /\
       (row < r \/ (row = r /\ col <= c)) /\
       (geometry self ->
        ScrollArea.top (TextScreen.scroll_area self) <= row
          <= ScrollArea.bottom (TextScreen.scroll_area self) ->
        1 <= col <= width (TextScreen.mode self) ->
        TextScreen.current_row self' = r /\
        TextScreen.current_col self' = c /\
        TextScreen._apage self' = TextScreen._apage self)).
Proof.
  intros row col Hfuel. unfold TextScreen.skip_word_right. fold row col.
  destruct (_skip_right_ends (fun c => negb (ALPHANUMERIC c)) self fuel row col Hfuel)
    as (res1 & -> & Hprop1).
  destruct res1 as [[r1 c1]|]; [|eexists; split; [reflexivity | left; reflexivity]].
  destruct (Hprop1 r1 c1 eq_refl) as (_ & Hpos1 & Hm1 & Hb1 & Hc1 & Hw1).
  destruct (_skip_right_ends ALPHANUMERIC self fuel r1 c1 ltac:(lia))
    as (res2 & -> & Hprop2).
  destruct res2 as [[r2 c2]|]; [|eexists; split; [reflexivity | left; reflexivity]].
  destruct (Hprop2 r2 c2 eq_refl) as (Hal & Hpos2 & Hm2 & Hb2 & Hc2 & Hw2).
  eexists. split; [reflexivity|]. right. exists r2, c2.
  split; [reflexivity|]. split; [exact Hal|]. split; [lia|].
  intros Hgeo Hrow Hcol.
  pose proof (set_pos_lands self r2 c2 true) as Hl. cbv zeta in Hl.
  unfold same_but_cursor in Hl.
  destruct Hl as (Hr & Hc & _ & _ & _ & _ & Hp & _); [lia | left; lia |].
  auto.
Qed.

(** X15: [skip_word_left] ends, within the iterations that the cells back to
    the start of the scroll area allow.  Either it leaves the screen as it
    was (nothing found), or it calls [set_pos] for a cell that holds an
    alphanumeric character and is before the cursor in reading order; from a
    cursor inside the scroll area that cell is in the scroll area, the
    cursor lands exactly there and nothing scrolls. *)
Theorem skip_word_left_outcome
    {P : Type} `{TextPage.Ops P} (ALPHANUMERIC : byte -> bool)
    (self : TextScreen.t P) (fuel : nat) :
  let row := TextScreen.current_row self in
  let col := TextScreen.current_col self in
  (skip_left_fuel self row col <= fuel)%nat ->
  exists self',
    TextScreen.skip_word_left ALPHANUMERIC fuel self = Some self' /\
    (self' = self \/
     exists r c,
       self' = TextScreen.set_pos self r c true /\
       ALPHANUMERIC (TextPage.get_char (TextScreen._apage self) r c) = true /\
       (r < row \/ (r = row /\ c < col)) /\
       (geometry self ->
        ScrollArea.top (TextScreen.scroll_area self) <= row
          <= ScrollArea.bottom (TextScreen.scroll_area self) ->
        1 <= col <= width (TextScreen.mode self) ->
        TextScreen.current_row self' = r /\
        TextScreen.current_col self' = c /\
        TextScreen._apage self' = TextScreen._apage self)).
Proof.
  intros row col Hfuel. unfold TextScreen.skip_word_left. fold row col.
  destruct (_skip_left_ends ALPHANUMERIC self fuel row col Hfuel)
    as (res1 & -> & Hprop1).
  destruct res1 as [[r1 c1]|]; [|eexists; split; [reflexivity | left; reflexivity]].
  destruct (Hprop1 r1 c1 eq_refl) as (Hal1 & Hpos1 & Hm1 & Ht1 & Hc1 & Hw1).
  destruct (_skip_left_word_ends ALPHANUMERIC self fuel r1 c1 ltac:(lia))
    as (r2 & c2 & -> & Hal & Hpos2 & Ht2 & Hc2 & Hw2).
  eexists. split; [reflexivity|]. right. exists r2, c2.
  split; [reflexivity|]. split; [exact (Hal Hal1)|]. split; [lia|].
  intros Hgeo Hrow Hcol.
  assert (Hw : 1 <= width (TextScreen.mode self)) by (destruct Hgeo as (_ & _ & _ & Hw); exact Hw).
  pose proof (set_pos_lands self r2 c2 true) as Hl. cbv zeta in Hl.
  unfold same_but_cursor in Hl.
  destruct Hl as (Hr & Hc & _ & _ & _ & _ & Hp & _); [lia | left; lia |].
  auto.
Qed.

(** The theorem on the 4 x 3 screen whose row 1 reads "ab Z", every
    character but the blank counting as alphanumeric. *)
Lemma skip_word_right_outcome_witness :
  exists self',
    TextScreen.skip_word_right (fun c => negb (Byte.eqb c " "%byte)) 20 screen_4x3_dirty
      = Some self' /\
    (self' = screen_4x3_dirty \/
     exists r c,
       self' = TextScreen.set_pos screen_4x3_dirty r c true /\
       negb (Byte.eqb (TextPage.get_char (TextScreen._apage screen_4x3_dirty) r c) " "%byte)
         = true /\
       (1 < r \/ (1 = r /\ 1 <= c)) /\
       (geometry screen_4x3_dirty ->
        ScrollArea.top (TextScreen.scroll_area screen_4x3_dirty) <= 1
          <= ScrollArea.bottom (TextScreen.scroll_area screen_4x3_dirty) ->
        1 <= 1 <= width (TextScreen.mode screen_4x3_dirty) ->
        TextScreen.current_row self' = r /\
        TextScreen.current_col self' = c /\
        TextScreen._apage self' = TextScreen._apage screen_4x3_dirty)).
Proof.
  apply (skip_word_right_outcome (fun c => negb (Byte.eqb c " "%byte)) screen_4x3_dirty 20).
  vm_compute. lia.
Defined.

(** The same screen with the cursor taken to (2, 1): the word to the left
    is the "Z" at the end of row 1. *)
Lemma skip_word_left_outcome_witness :
  exists self',
    TextScreen.skip_word_left (fun c => negb (Byte.eqb c " "%byte)) 20
      (TextScreen.set_pos screen_4x3_dirty 2 1 true) = Some self'.
Proof.
  destruct (skip_word_left_outcome (fun c => negb (Byte.eqb c " "%byte))
              (TextScreen.set_pos screen_4x3_dirty 2 1 true) 20) as (self' & Hs & _).
  - vm_compute. lia.
  - exists self'. exact Hs.
Defined.

(** * Typing into a row of the text page *)

Section TypingFacts.

Implicit Type self : TextScreen.t PageModel.t.

(** Inserting into a row that has spare capacity and is not
    wrap-connected changes that row of the page and nothing else. *)
Lemma _insert_at_spare_nowrap self (row col : Z) (c : byte) (attr : Z) (fuel : nat) :
  let page := TextScreen._apage self in
  let r := PageModel.get_row page row in
  let r1 := fst (TextRow.insert (PageModel._width page) r col c attr) in
  length (PageModel._rows page) = Z.to_nat (PageModel._height page) ->
  1 <= row <= PageModel._height page ->
  1 <= col <= TextRow.length r ->
  TextRow.length r < width (TextScreen.mode self) ->
  PageModel._width page = width (TextScreen.mode self) ->
  TextRow.wrap r = false ->
  TextScreen._insert_at (S fuel) self row col c attr
    = Some (TextScreen.set__apage self (PageModel.set_row page row r1), true).
Proof.
  cbv zeta.
  destruct self as [tandy cur crow ccol ov area flag bar md sattr page].
  simpl. intros Hrows Hrow Hcol Hlen Hw Hwrap.
  unfold PageModel.wraps, PageModel.row_length.
  replace (TextRow.length (PageModel.get_row page row) <? width md) with true
    by (symmetry; apply Z.ltb_lt; lia).
  rewrite insert_char_attr_fst.
  rewrite get_row_set_row_eq by assumption.
  destruct (TextRow_insert_spare (PageModel._width page) (PageModel.get_row page row)
              col c attr Hcol ltac:(lia)) as (_ & Hw1 & _).
  cbv zeta in Hw1. rewrite Hw1, Hwrap. reflexivity.
Qed.

(** Reading the characters of a row after an insertion. *)
Lemma insert_chars_lookup (l : list byte) (c : byte) (k w : nat) :
  length l = w -> (k < w)%nat ->
  let l1 := take w (take k l ++ [c] ++ drop k l) in
  l1 !! k = Some c /\
  (forall j, (j < k)%nat -> l1 !! j = l !! j) /\
  (forall j, (k <= j)%nat -> (S j < w)%nat -> l1 !! S j = l !! j).
Proof.
  intros Hlen Hk. cbv zeta. split; [|split].
  - rewrite lookup_take_lt by lia.
    rewrite lookup_app_r by (rewrite length_take; lia).
    rewrite length_take, Nat.min_l by lia. rewrite Nat.sub_diag. reflexivity.
  - intros j Hj. rewrite lookup_take_lt by lia.
    rewrite lookup_app_l by (rewrite length_take; lia).
    apply lookup_take_lt. lia.
  - intros j Hj Hjw. rewrite lookup_take_lt by lia.
    rewrite lookup_app_r by (rewrite length_take; lia).
    rewrite length_take, Nat.min_l by lia.
    replace (S j - k)%nat with (S (j - k)) by lia. simpl.
    rewrite lookup_drop. f_equal. lia.
Qed.

End TypingFacts.

(** X9: Typing one character with [insert_fullchars], on the modelled page,
    within the text of a row that has spare capacity and is not
    wrap-connected: the character is on the cursor's cell, the characters
    from there on have moved one to the right, those before it are as they
    were, the row is one longer and the cursor has moved one to the right. *)
Theorem insert_fullchars_types_char
    (self : TextScreen.t PageModel.t) (c : byte) (fuel : nat) :
  let page := TextScreen._apage self in
  let row := TextScreen.current_row self in
  let col := TextScreen.current_col self in
  page_fits self ->
  1 <= row <= PageModel._height page ->
  ScrollArea.top (TextScreen.scroll_area self) <= row
    <= ScrollArea.bottom (TextScreen.scroll_area self) ->
  PageModel.wraps page row = false ->
  1 <= col <= PageModel.row_length page row ->
  PageModel.row_length page row < width (TextScreen.mode self) ->
  exists self',
    TextScreen.insert_fullchars (S fuel) self [c] = Some self' /\
    TextScreen.current_row self' = row /\
    TextScreen.current_col self' = col + 1 /\
    PageModel.row_length (TextScreen._apage self') row = PageModel.row_length page row + 1 /\
    PageModel.get_char (TextScreen._apage self') row col = c /\
    (forall k, 1 <= k < col ->
       PageModel.get_char (TextScreen._apage self') row k = PageModel.get_char page row k) /\
    (forall k, col <= k < width (TextScreen.mode self) ->
       PageModel.get_char (TextScreen._apage self') row (k + 1)
         = PageModel.get_char page row k).
Proof.
  intros page row col [Hwf Hwidth] Hrow Harea Hwrap Hcol Hlen.
  fold page in Hwf, Hwidth.
  pose proof Hwf as (Hw1 & Hh0 & Hrows & Hall).
  unfold PageModel.wraps, PageModel.row_length in *.
  cbn [TextScreen.insert_fullchars].
  rewrite (_insert_at_spare_nowrap self (TextScreen.current_row self)
             (TextScreen.current_col self) c (TextScreen._attr self) fuel)
    by assumption.
  fold page row col.
  set (r := PageModel.get_row page row) in *.
  set (r1 := fst (TextRow.insert (PageModel._width page) r col c (TextScreen._attr self))).
  destruct (TextRow_insert_spare (PageModel._width page) r col c (TextScreen._attr self)
              Hcol ltac:(lia)) as (Hl1 & _ & Hc1).
  cbv zeta in Hl1, Hc1. fold r1 in Hl1, Hc1.
  set (s1 := TextScreen.set__apage self (PageModel.set_row page row r1)).
  assert (Hs1 : TextScreen.current_row s1 = row /\ TextScreen.current_col s1 = col /\
                TextScreen.mode s1 = TextScreen.mode self /\
                TextScreen.scroll_area s1 = TextScreen.scroll_area self /\
                TextScreen._apage s1 = PageModel.set_row page row r1).
  { subst s1 row col page. destruct self. simpl. auto. }
  destruct Hs1 as (Hr1 & Hcol1 & Hm1 & Ha1 & Hp1).
  unfold TextScreen.incr_pos. rewrite Hr1, Hcol1.
  change (TextPage.get_charwidth (TextScreen._apage s1) row col) with 1.
  change (if 1 =? 0 then 1 else 1) with 1.
  pose proof (set_pos_lands s1 row (col + 1) false) as Hl. cbv zeta in Hl.
  unfold same_but_cursor in Hl. rewrite Hm1, Ha1 in Hl.
  destruct Hl as (Hr & Hc & _ & _ & _ & _ & Hp & _); [lia | left; exact Harea |].
  eexists. split; [reflexivity|].
  split; [exact Hr|]. split; [exact Hc|].
  rewrite Hp, Hp1.
  assert (Hget : PageModel.get_row (PageModel.set_row page row r1) row = r1)
    by (apply get_row_set_row_eq; assumption).
  unfold PageModel.row_length, PageModel.get_char. rewrite Hget. fold r.
  pose proof (wf_get_row_chars page row Hwf) as Hchars. fold r in Hchars.
  destruct (insert_chars_lookup (TextRow.chars r) c (Z.to_nat (col - 1))
              (Z.to_nat (PageModel._width page)) Hchars ltac:(lia))
    as (Hat & Hbefore & Hafter).
  cbv zeta in Hat, Hbefore, Hafter. rewrite <- Hc1 in Hat, Hbefore, Hafter.
  split; [exact Hl1|]. split; [|split].
  - replace (1 <=? col) with true by (symmetry; apply Z.leb_le; lia).
    rewrite Hat. reflexivity.
  - intros k Hk.
    replace (1 <=? k) with true by (symmetry; apply Z.leb_le; lia).
    rewrite Hbefore by lia. reflexivity.
  - intros k Hk.
    replace (1 <=? k + 1) with true by (symmetry; apply Z.leb_le; lia).
    replace (1 <=? k) with true by (symmetry; apply Z.leb_le; lia).
    replace (Z.to_nat (k + 1 - 1)) with (S (Z.to_nat (k - 1))) by lia.
    rewrite Hafter by lia. reflexivity.
Qed.

(** The theorem on the 4 x 3 screen whose row 1 reads "ab": typing "x"
    at (1, 1) gives "xab" and takes the cursor to (1, 2). *)
Lemma insert_fullchars_types_char_witness :
  exists self',
    TextScreen.insert_fullchars 1 screen_4x3_dirty ["x"%byte] = Some self' /\
    TextScreen.current_row self' = 1 /\
    TextScreen.current_col self' = 1 + 1 /\
    PageModel.row_length (TextScreen._apage self') 1 = 2 + 1 /\
    PageModel.get_char (TextScreen._apage self') 1 1 = "x"%byte /\
    (forall k, 1 <= k < 1 ->
       PageModel.get_char (TextScreen._apage self') 1 k
         = PageModel.get_char (TextScreen._apage screen_4x3_dirty) 1 k) /\
    (forall k, 1 <= k < 4 ->
       PageModel.get_char (TextScreen._apage self') 1 (k + 1)
         = PageModel.get_char (TextScreen._apage screen_4x3_dirty) 1 k).
Proof.
  refine (insert_fullchars_types_char screen_4x3_dirty "x"%byte 0 _ _ _ _ _ _).
  - unfold page_fits, PageModel.wf. simpl. repeat split; try lia.
    repeat constructor.
  - simpl. lia.
  - simpl. lia.
  - reflexivity.
  - vm_compute. split; discriminate.
  - vm_compute. reflexivity.
Defined.

(** * What [write_char] writes *)

Section WriteCharFacts.

Context {P : Type} `{TextPage.Ops P}.
Implicit Type self : TextScreen.t P.

Lemma check_pos_keeps_page self scroll_ok :
  cursor_in_bounds self ->
  TextScreen._apage (fst (TextScreen.check_pos self scroll_ok)) = TextScreen._apage self /\
  TextScreen._attr (fst (TextScreen.check_pos self scroll_ok)) = TextScreen._attr self.
Proof.
  unfold cursor_in_bounds. destruct self. simpl. intros [Hcol Hrow]. unfold_screen.
  split_ifs; try (split; reflexivity);
    exfalso; destruct Hrow as [?|[? ?]]; try discriminate; lia.
Qed.

Lemma check_pos_attr self scroll_ok :
  TextScreen._attr (fst (TextScreen.check_pos self scroll_ok)) = TextScreen._attr self.
Proof. destruct self. unfold_screen. split_ifs; reflexivity. Qed.

Lemma _check_wrap_attr self do_scroll_down :
  TextScreen._attr (TextScreen._check_wrap self do_scroll_down) = TextScreen._attr self.
Proof. destruct self. unfold_screen. split_ifs; reflexivity. Qed.

Lemma write_position_attr self do_scroll_down :
  TextScreen._attr (write_position self do_scroll_down) = TextScreen._attr self.
Proof.
  unfold write_position. rewrite check_pos_attr, _check_wrap_attr.
  destruct self. simpl. split_ifs; reflexivity.
Qed.

(** [write_char] writes one cell: the page after it is the page at the
    moment of writing with the character put on the cursor's cell. *)
Lemma write_char_page self char do_scroll_down :
  geometry self -> 1 <= TextScreen.current_col self ->
  let placed := write_position self do_scroll_down in
  TextScreen._apage (TextScreen.write_char self char do_scroll_down) =
    TextPage.put_char_attr (TextScreen._apage placed) (TextScreen.current_row placed)
      (TextScreen.current_col placed) char (TextScreen._attr self) true /\
  TextScreen._attr (TextScreen.write_char self char do_scroll_down) = TextScreen._attr self.
Proof.
  intros Hgeo Hcol. cbv zeta. rewrite write_char_unfold.
  destruct (write_position_in_bounds self do_scroll_down Hgeo Hcol) as [Hb Hg].
  pose proof (write_position_attr self do_scroll_down) as Hattr.
  set (s3 := write_position self do_scroll_down) in *. cbv zeta.
  set (s5 := if _ <? _ then _ else _).
  assert (Hs5 : cursor_in_bounds s5 /\
                TextScreen._attr s5 = TextScreen._attr self /\
                TextScreen._apage s5 =
                  TextPage.put_char_attr (TextScreen._apage s3) (TextScreen.current_row s3)
                    (TextScreen.current_col s3) char (TextScreen._attr self) true).
  { subst s5. rewrite <- Hattr. unfold cursor_in_bounds in *.
    destruct s3. simpl in *. destruct Hb as [Hc Hr].
    split_ifs; simpl; repeat split; auto; lia. }
  destruct Hs5 as (Hb5 & Ha5 & Hp5).
  destruct (check_pos_keeps_page s5 true Hb5) as [-> ->]. auto.
Qed.

End WriteCharFacts.

Section PageModelFacts.

Implicit Type p : PageModel.t.

Lemma wf_blank_row (w attr : Z) :
  length (TextRow.chars (TextRow.blank w attr)) = Z.to_nat w.
Proof. unfold TextRow.blank. simpl. apply length_replicate. Qed.

Lemma wf_scroll_up p from_row to_row attr :
  PageModel.wf p -> PageModel.wf (PageModel.scroll_up p from_row to_row attr).
Proof.
  intros Hwf. pose proof Hwf as (Hw & Hh & Hrows & Hall).
  destruct (scroll_up_dims p from_row to_row attr Hrows) as (Hw' & Hh' & Hl').
  unfold PageModel.wf. rewrite Hw', Hh', Hl'.
  repeat split; auto.
  unfold PageModel.scroll_up. destruct (_ && _); [|exact Hall]. simpl.
  apply Forall_app_2; [apply Forall_take; exact Hall|].
  apply Forall_app_2; [apply Forall_drop, Forall_take; exact Hall|].
  apply Forall_cons_2; [apply wf_blank_row | apply Forall_drop; exact Hall].
Qed.

Lemma wf_scroll_down p from_row to_row attr :
  PageModel.wf p -> PageModel.wf (PageModel.scroll_down p from_row to_row attr).
Proof.
  intros Hwf. pose proof Hwf as (Hw & Hh & Hrows & Hall).
  destruct (scroll_down_dims p from_row to_row attr Hrows) as (Hw' & Hh' & Hl').
  unfold PageModel.wf. rewrite Hw', Hh', Hl'.
  repeat split; auto.
  unfold PageModel.scroll_down. destruct (_ && _); [|exact Hall]. simpl.
  apply Forall_app_2; [apply Forall_take; exact Hall|].
  apply Forall_cons_2; [simpl; apply (wf_blank_row _ attr)|].
  apply Forall_app_2; [apply Forall_drop, Forall_take; exact Hall|].
  apply Forall_drop. exact Hall.
Qed.

Lemma wf_set_row p row r :
  PageModel.wf p -> length (TextRow.chars r) = Z.to_nat (PageModel._width p) ->
  PageModel.wf (PageModel.set_row p row r).
Proof.
  intros Hwf Hr. pose proof Hwf as (Hw & Hh & Hrows & Hall).
  destruct (set_row_dims p row r) as (Hw' & Hh' & Hl').
  unfold PageModel.wf. rewrite Hw', Hh', Hl'.
  repeat split; auto.
  unfold PageModel.set_row. destruct (PageModel.on_page p row); [|exact Hall]. simpl.
  apply Forall_insert; assumption.
Qed.

Lemma wf_set_wrap p row wrap :
  PageModel.wf p -> PageModel.wf (PageModel.set_wrap p row wrap).
Proof.
  intros Hwf. unfold PageModel.set_wrap. apply wf_set_row; [exact Hwf|].
  simpl. apply wf_get_row_chars. exact Hwf.
Qed.

(** Reading back the character just put on a cell of the page. *)
Lemma get_char_put_char_attr p row col c attr adjust_end :
  PageModel.wf p ->
  1 <= row <= PageModel._height p -> 1 <= col <= PageModel._width p ->
  PageModel.get_char (PageModel.put_char_attr p row col c attr adjust_end) row col = c.
Proof.
  intros Hwf Hrow Hcol. pose proof Hwf as (Hw & Hh & Hrows & Hall).
  unfold PageModel.put_char_attr, PageModel.get_char.
  replace (col <=? PageModel._width p) with true by (symmetry; apply Z.leb_le; lia).
  replace (1 <=? col) with true by (symmetry; apply Z.leb_le; lia).
  rewrite get_row_set_row_eq by assumption.
  unfold TextRow.put.
  replace (1 <=? col) with true by (symmetry; apply Z.leb_le; lia).
  simpl. rewrite list_lookup_insert_eq; [reflexivity|].
  rewrite (wf_get_row_chars p row Hwf). lia.
Qed.

End PageModelFacts.

Section ReadBackFacts.

Lemma write_position_keeps_page {P : Type} `{TextPage.Ops P}
    (self : TextScreen.t P) (do_scroll_down : bool) :
  cursor_in_bounds self -> TextScreen.overflow self = false ->
  TextScreen._apage (write_position self do_scroll_down) = TextScreen._apage self.
Proof.
  unfold cursor_in_bounds, write_position. destruct self. simpl.
  intros [Hcol Hrow] ->. simpl.
  split_ifs; try reflexivity;
    exfalso; destruct Hrow as [?|[? ?]]; try discriminate; lia.
Qed.

(** The page on which [write_char] puts its character is a well-formed
    page of the same dimensions. *)
Lemma write_position_page_wf (self : TextScreen.t PageModel.t) (do_scroll_down : bool) :
  PageModel.wf (TextScreen._apage self) ->
  geometry self -> cursor_in_bounds self ->
  (TextScreen._bottom_row_allowed self = true ->
   TextScreen.current_row self = height (TextScreen.mode self)) ->
  (TextScreen.overflow self = true ->
   TextScreen.current_col self = width (TextScreen.mode self) /\
   TextScreen.current_row self < height (TextScreen.mode self)) ->
  let page := TextScreen._apage (write_position self do_scroll_down) in
  PageModel.wf page /\
  PageModel._height page = PageModel._height (TextScreen._apage self) /\
  PageModel._width page = PageModel._width (TextScreen._apage self).
Proof.
  intros Hwf Hgeo Hb Hflag Hov. cbv zeta.
  destruct (TextScreen.overflow self) eqn:Hover.
  - destruct (Hov eq_refl) as [Hcol Hlast].
    destruct (next_write_position_wraps self do_scroll_down Hgeo Hb Hflag Hover Hcol Hlast)
      as (_ & _ & _ & Hpage).
    rewrite Hpage. clear Hpage.
    set (p1 := if do_scroll_down && _ then _ else TextScreen._apage self).
    assert (H1 : PageModel.wf p1 /\
                 PageModel._height p1 = PageModel._height (TextScreen._apage self) /\
                 PageModel._width p1 = PageModel._width (TextScreen._apage self)).
    { subst p1. destruct (do_scroll_down && _); [|auto].
      split; [apply wf_scroll_down; exact Hwf|].
      destruct Hwf as (_ & _ & Hrows & _).
      destruct (scroll_down_dims (TextScreen._apage self)
                  (TextScreen.current_row self + 1)
                  (ScrollArea.bottom (TextScreen.scroll_area self))
                  (TextScreen._attr self) Hrows) as (Hw' & Hh' & _).
      auto. }
    destruct H1 as (Hwf1 & Hh1 & Hw1).
    set (p2 := TextPage.set_wrap p1 (TextScreen.current_row self) true).
    assert (H2 : PageModel.wf p2 /\
                 PageModel._height p2 = PageModel._height (TextScreen._apage self) /\
                 PageModel._width p2 = PageModel._width (TextScreen._apage self)).
    { subst p2. split; [apply wf_set_wrap; exact Hwf1|].
      change (TextPage.set_wrap p1 (TextScreen.current_row self) true)
        with (PageModel.set_wrap p1 (TextScreen.current_row self) true).
      unfold PageModel.set_wrap.
      destruct (set_row_dims p1 (TextScreen.current_row self)
                  (TextRow.Build
                     (TextRow.chars (PageModel.get_row p1 (TextScreen.current_row self)))
                     (TextRow.attrs (PageModel.get_row p1 (TextScreen.current_row self)))
                     (TextRow.length (PageModel.get_row p1 (TextScreen.current_row self)))
                     true)) as (Hw' & Hh' & _).
      rewrite Hw', Hh'. auto. }
    destruct H2 as (Hwf2 & Hh2 & Hw2).
    destruct (_ <? _); [auto|].
    split; [apply wf_scroll_up; exact Hwf2|].
    destruct Hwf2 as (_ & _ & Hrows & _).
    destruct (scroll_up_dims p2 (ScrollArea.top (TextScreen.scroll_area self))
                (ScrollArea.bottom (TextScreen.scroll_area self))
                (TextScreen._attr self) Hrows) as (Hw' & Hh' & _).
    change TextPage.scroll_up with PageModel.scroll_up.
    rewrite Hw', Hh'. auto.
  - rewrite (write_position_keeps_page self do_scroll_down Hb Hover). auto.
Qed.

End ReadBackFacts.

(** X8: On the modelled page, the character that [write_char] writes can be
    read back from the cell that [csrlin_] and [pos_] reported before the
    call, deferred wrap and scrolling included, as long as an overflowed
    cursor is above the last row of the screen. *)
Theorem write_char_read_back
    (self : TextScreen.t PageModel.t) (char : byte) (do_scroll_down : bool) :
  page_fits self ->
  PageModel._height (TextScreen._apage self) = height (TextScreen.mode self) ->
  geometry self -> cursor_in_bounds self ->
  (TextScreen._bottom_row_allowed self = true ->
   TextScreen.current_row self = height (TextScreen.mode self)) ->
  (TextScreen.overflow self = true ->
   TextScreen.current_col self = width (TextScreen.mode self) /\
   TextScreen.current_row self < height (TextScreen.mode self)) ->
  PageModel.get_char
    (TextScreen._apage (TextScreen.write_char self char do_scroll_down))
    (TextScreen.csrlin_ self) (TextScreen.pos_ self) = char.
Proof.
  intros [Hwf Hwidth] Hheight Hgeo Hb Hflag Hov.
  assert (Hcol : 1 <= TextScreen.current_col self) by (destruct Hb as [? _]; lia).
  destruct (write_char_page self char do_scroll_down Hgeo Hcol) as [-> _].
  destruct (write_position_is_reported self do_scroll_down Hgeo Hb Hflag Hov) as [<- <-].
  destruct (write_position_page_wf self do_scroll_down Hwf Hgeo Hb Hflag Hov)
    as (Hwf' & Hh' & Hw').
  destruct (write_position_in_bounds self do_scroll_down Hgeo Hcol) as [Hb' Hg'].
  destruct (write_position_frame self do_scroll_down) as [Hm Ha].
  change TextPage.put_char_attr with PageModel.put_char_attr.
  apply get_char_put_char_attr; [exact Hwf' | |].
  - rewrite Hh', Hheight. unfold cursor_in_bounds, geometry in *.
    rewrite Hm, Ha in *. lia.
  - rewrite Hw', Hwidth. unfold cursor_in_bounds in Hb'. rewrite Hm in Hb'. lia.
Qed.

(** The theorem at the end of row 3 of the 80 x 25 screen: the character
    written next is read back from (4, 1). *)
Lemma write_char_read_back_witness :
  PageModel.get_char
    (TextScreen._apage (TextScreen.write_char screen_at_line_end "A"%byte false)) 4 1
    = "A"%byte.
Proof.
  refine (write_char_read_back screen_at_line_end "A"%byte false _ _ _ _ _ _).
  - unfold page_fits, PageModel.wf. simpl. repeat split; try lia.
    repeat constructor.
  - reflexivity.
  - unfold geometry. simpl. lia.
  - unfold cursor_in_bounds. simpl. lia.
  - discriminate.
  - simpl. lia.
Defined.

(** X7: [write_char] writes one cell and scrolls at most before it writes:
    the page after the call is the page at the moment of writing (after the
    deferred wrap and the scrolling that it may bring) with the character
    and the current attribute put on the cursor's cell; the [check_pos] that
    ends the call does not touch the page, and the attribute is kept. *)
Theorem write_char_writes_one_cell
    {P : Type} `{TextPage.Ops P}
    (self : TextScreen.t P) (char : byte) (do_scroll_down : bool) :
  geometry self -> 1 <= TextScreen.current_col self ->
  let placed := write_position self do_scroll_down in
  TextScreen._apage (TextScreen.write_char self char do_scroll_down) =
    TextPage.put_char_attr (TextScreen._apage placed) (TextScreen.current_row placed)
      (TextScreen.current_col placed) char (TextScreen._attr self) true /\
  TextScreen._attr (TextScreen.write_char self char do_scroll_down) = TextScreen._attr self.
Proof. apply write_char_page. Qed.

(** The theorem on the 80 x 25 screen. *)
Lemma write_char_writes_one_cell_witness :
  TextScreen._apage (TextScreen.write_char screen_80x25 "A"%byte false) =
    TextPage.put_char_attr (TextScreen._apage (write_position screen_80x25 false))
      (TextScreen.current_row (write_position screen_80x25 false))
      (TextScreen.current_col (write_position screen_80x25 false)) "A"%byte 7 true /\
  TextScreen._attr (TextScreen.write_char screen_80x25 "A"%byte false) = 7.
Proof.
  refine (write_char_writes_one_cell screen_80x25 "A"%byte false geometry_screen_80x25 _).
  simpl. lia.
Defined.

(** X4: The cursor keys on halfwidth cells.  [incr_pos] moves one column to
    the right and, from the last column, to column 1 of the next row, except
    on the bottom row of the scroll area, where the cursor stays on the last
    column; [decr_pos] moves one column to the left and, from column 1, to
    the last column of the row above, except on the top row, where it stays.
    Neither scrolls. *)
Theorem incr_decr_pos_steps
    {P : Type} `{TextPage.Ops P} (self : TextScreen.t P) :
  let row := TextScreen.current_row self in
  let col := TextScreen.current_col self in
  let w := width (TextScreen.mode self) in
  geometry self ->
  1 <= col <= w ->
  ScrollArea.top (TextScreen.scroll_area self) <= row
    <= ScrollArea.bottom (TextScreen.scroll_area self) ->
  TextScreen._bottom_row_allowed self = false ->
  (TextPage.get_charwidth (TextScreen._apage self) row col = 1 ->
   (TextScreen.current_row (TextScreen.incr_pos self),
    TextScreen.current_col (TextScreen.incr_pos self)) =
     (if col <? w then (row, col + 1)
      else if row <? ScrollArea.bottom (TextScreen.scroll_area self) then (row + 1, 1)
      else (row, w)) /\
   TextScreen._apage (TextScreen.incr_pos self) = TextScreen._apage self) /\
  (TextPage.get_charwidth (TextScreen._apage self) row (col - 1) = 1 ->
   (TextScreen.current_row (TextScreen.decr_pos self),
    TextScreen.current_col (TextScreen.decr_pos self)) =
     (if 1 <? col then (row, col - 1)
      else if ScrollArea.top (TextScreen.scroll_area self) <? row then (row - 1, w)
      else (row, 1)) /\
   TextScreen._apage (TextScreen.decr_pos self) = TextScreen._apage self).
Proof.
  unfold geometry, TextScreen.incr_pos, TextScreen.decr_pos.
  destruct self. simpl. intros Hgeo Hcol Hrow ->. split.
  - intros ->. simpl. unfold_screen.
    split_ifs; split; try reflexivity; try (f_equal; lia); lia.
  - intros ->. simpl. unfold_screen.
    split_ifs; split; try reflexivity; try (f_equal; lia); lia.
Qed.

(** The theorem at the end of row 3 of the 80 x 25 screen: the cursor
    goes on to (4, 1). *)
Lemma incr_decr_pos_steps_witness :
  (TextScreen.current_row (TextScreen.incr_pos screen_at_line_end),
   TextScreen.current_col (TextScreen.incr_pos screen_at_line_end)) = (4, 1) /\
  TextScreen._apage (TextScreen.incr_pos screen_at_line_end)
    = TextScreen._apage screen_at_line_end.
Proof.
  refine (proj1 (incr_decr_pos_steps screen_at_line_end _ _ _ _) _).
  - unfold geometry. simpl. lia.
  - simpl. lia.
  - simpl. lia.
  - reflexivity.
  - reflexivity.
Defined.

Section BackspaceFacts.

Implicit Type self : TextScreen.t PageModel.t.

(** Deleting within the text of a row that is not wrap-connected changes
    that row of the page and nothing else. *)
Lemma _delete_at_nowrap self (row col : Z) (fuel : nat) :
  let page := TextScreen._apage self in
  let r := PageModel.get_row page row in
  TextRow.wrap r = false -> col <= TextRow.length r ->
  TextScreen._delete_at (S fuel) self row col false
    = Some (TextScreen.set__apage self
              (PageModel.set_row page row
                 (TextRow.delete r col (TextScreen._attr self) None))).
Proof.
  cbv zeta. destruct self as [tandy cur crow ccol ov area flag bar md sattr page].
  simpl. intros Hwrap Hcol.
  unfold PageModel.wraps, PageModel.row_length, PageModel.delete_char_attr.
  rewrite Hwrap. simpl.
  replace (col >? TextRow.length (PageModel.get_row page row)) with false
    by (symmetry; rewrite Z.gtb_ltb; apply Z.ltb_ge; lia).
  reflexivity.
Qed.

End BackspaceFacts.

(** X10: Typing a character and taking it back, on the modelled page, within
    the text of a row that has spare capacity and is not wrap-connected:
    [insert_fullchars] of one character followed by [backspace] leaves the
    cursor where it was and the row with its old length and its old
    characters up to that length (all its characters, when the cells behind
    the logical end were blank), unless the prompt stops the backspace. *)
Theorem type_then_backspace
    (self : TextScreen.t PageModel.t) (c : byte) (fuel : nat)
    (prompt_row furthest_left : Z) :
  let page := TextScreen._apage self in
  let row := TextScreen.current_row self in
  let col := TextScreen.current_col self in
  let r := PageModel.get_row page row in
  page_fits self ->
  1 <= row <= PageModel._height page ->
  ScrollArea.top (TextScreen.scroll_area self) <= row
    <= ScrollArea.bottom (TextScreen.scroll_area self) ->
  TextRow.wrap r = false ->
  1 <= col <= TextRow.length r ->
  TextRow.length r < width (TextScreen.mode self) ->
  col + 1 <> furthest_left \/ row <> prompt_row ->
  exists self1 self2,
    TextScreen.insert_fullchars (S fuel) self [c] = Some self1 /\
    TextScreen.backspace (S fuel) self1 prompt_row furthest_left = Some self2 /\
    TextScreen.current_row self2 = row /\
    TextScreen.current_col self2 = col /\
    let r2 := PageModel.get_row (TextScreen._apage self2) row in
    TextRow.length r2 = TextRow.length r /\
    take (Z.to_nat (TextRow.length r)) (TextRow.chars r2)
      = take (Z.to_nat (TextRow.length r)) (TextRow.chars r) /\
    (blank_beyond_end r (width (TextScreen.mode self)) ->
     TextRow.chars r2 = TextRow.chars r).
Proof.
  intros page row col r [Hwf Hwidth] Hrow Harea Hwrap Hcol Hlen Hprompt.
  fold page in Hwf, Hwidth.
  pose proof Hwf as (Hw1 & Hh0 & Hrows & Hall).
  (* the insertion *)
  cbn [TextScreen.insert_fullchars].
  rewrite (_insert_at_spare_nowrap self (TextScreen.current_row self)
             (TextScreen.current_col self) c (TextScreen._attr self) fuel)
    by assumption.
  fold page row col r.
  set (r1 := fst (TextRow.insert (PageModel._width page) r col c (TextScreen._attr self))).
  destruct (TextRow_insert_spare (PageModel._width page) r col c (TextScreen._attr self)
              Hcol ltac:(lia)) as (Hl1 & Hwr1 & _).
  cbv zeta in Hl1, Hwr1. fold r1 in Hl1, Hwr1.
  set (page1 := PageModel.set_row page row r1).
  set (s0 := TextScreen.set__apage self page1).
  assert (Hs0 : TextScreen.current_row s0 = row /\ TextScreen.current_col s0 = col /\
                TextScreen.mode s0 = TextScreen.mode self /\
                TextScreen.scroll_area s0 = TextScreen.scroll_area self /\
                TextScreen._attr s0 = TextScreen._attr self /\
                TextScreen._apage s0 = page1).
  { subst s0 row col page. destruct self. simpl. repeat split; reflexivity. }
  destruct Hs0 as (Hr0 & Hc0 & Hm0 & Ha0 & Hat0 & Hp0).
  unfold TextScreen.incr_pos. rewrite Hr0, Hc0.
  change (TextPage.get_charwidth (TextScreen._apage s0) row col) with 1.
  change (if 1 =? 0 then 1 else 1) with 1.
  pose proof (set_pos_lands s0 row (col + 1) false) as Hl. cbv zeta in Hl.
  unfold same_but_cursor in Hl. rewrite Hm0, Ha0 in Hl.
  destruct Hl as (Hr1 & Hc1 & _ & _ & _ & _ & Hp1 & Hm1 & Ha1 & Hat1 & _);
    [lia | left; exact Harea |].
  set (s1 := TextScreen.set_pos s0 row (col + 1) false) in *.
  exists s1. eexists. split; [reflexivity|].
  (* the backspace *)
  unfold TextScreen.backspace. rewrite Hr1, Hc1.
  replace ((negb (col + 1 =? furthest_left) || negb (row =? prompt_row))
           && ((col + 1 >? 1) || (row >? TextPage.find_start_of_line (TextScreen._apage s1) row)))
    with true.
  2:{ symmetry. apply andb_true_iff. split.
      - apply orb_true_iff. destruct Hprompt as [Hp | Hp].
        + left. apply negb_true_iff, Z.eqb_neq. exact Hp.
        + right. apply negb_true_iff, Z.eqb_neq. exact Hp.
      - apply orb_true_iff. left. rewrite Z.gtb_ltb. apply Z.ltb_lt. lia. }
  unfold TextScreen.decr_pos. rewrite Hr1, Hc1.
  change (TextPage.get_charwidth (TextScreen._apage s1) row (col + 1 - 1)) with 1.
  change (if 1 =? 0 then 2 else if 1 =? 2 then 3 else 1) with 1.
  replace (col + 1 - 1) with col by lia.
  pose proof (set_pos_lands s1 row col false) as Hl2. cbv zeta in Hl2.
  unfold same_but_cursor in Hl2. rewrite Hm1, Ha1 in Hl2.
  destruct Hl2 as (Hr2 & Hc2 & _ & _ & _ & _ & Hp2 & Hm2 & Ha2 & Hat2 & _);
    [lia | left; exact Harea |].
  set (s2 := TextScreen.set_pos s1 row col false) in *.
  unfold TextScreen.delete_fullchar. rewrite Hr2, Hc2.
  change (TextPage.get_charwidth (TextScreen._apage s2) row col) with 1.
  change (1 >? 0) with true. change (1 =? 2) with false. cbv iota.
  assert (Hpage2 : TextScreen._apage s2 = page1) by congruence.
  assert (Hget1 : PageModel.get_row page1 row = r1)
    by (apply get_row_set_row_eq; assumption).
  rewrite (_delete_at_nowrap s2 row col fuel)
    by (rewrite Hpage2, Hget1; first [congruence | lia]).
  split; [reflexivity|].
  fold s2. rewrite Hpage2, Hget1.
  assert (Hfinal : TextScreen.current_row
                     (TextScreen.set__apage s2
                        (PageModel.set_row page1 row
                           (TextRow.delete r1 col (TextScreen._attr s2) None))) = row /\
                   TextScreen.current_col
                     (TextScreen.set__apage s2
                        (PageModel.set_row page1 row
                           (TextRow.delete r1 col (TextScreen._attr s2) None))) = col /\
                   TextScreen._apage
                     (TextScreen.set__apage s2
                        (PageModel.set_row page1 row
                           (TextRow.delete r1 col (TextScreen._attr s2) None)))
                     = PageModel.set_row page1 row
                         (TextRow.delete r1 col (TextScreen._attr s2) None)).
  { clearbody s2. destruct s2. simpl in *. auto. }
  destruct Hfinal as (-> & -> & ->).
  split; [reflexivity|]. split; [reflexivity|].
  cbv zeta.
  rewrite get_row_set_row_eq.
  - pose proof (wf_get_row_chars page row Hwf) as Hchars. fold r in Hchars.
    destruct (TextRow_insert_delete (PageModel._width page) r col c
                (TextScreen._attr self) (TextScreen._attr s2) Hchars Hcol ltac:(lia))
      as (Hlen2 & _ & Htake & Hall2).
    cbv zeta in Hlen2, Htake, Hall2. fold r1 in Hlen2, Htake, Hall2.
    split; [exact Hlen2|]. split; [exact Htake|].
    intros Hblank. apply Hall2. unfold blank_beyond_end in Hblank.
    rewrite Hwidth. exact Hblank.
  - subst page1. destruct (set_row_dims page row r1) as (_ & -> & ->). exact Hrows.
  - subst page1. destruct (set_row_dims page row r1) as (_ & -> & _). exact Hrow.
Qed.

(** The theorem on the 4 x 3 screen whose row 1 reads "ab": "x" typed
    at (1, 1) and taken back. *)
Lemma type_then_backspace_witness :
  exists self1 self2,
    TextScreen.insert_fullchars 1 screen_4x3_dirty ["x"%byte] = Some self1 /\
    TextScreen.backspace 1 self1 1 1 = Some self2 /\
    TextScreen.current_row self2 = 1 /\
    TextScreen.current_col self2 = 1 /\
    let r2 := PageModel.get_row (TextScreen._apage self2) 1 in
    TextRow.length r2 = 2 /\
    take 2 (TextRow.chars r2) = ["a"; "b"]%byte /\
    (blank_beyond_end (PageModel.get_row (TextScreen._apage screen_4x3_dirty) 1) 4 ->
     TextRow.chars r2 = ["a"; "b"; " "; "Z"]%byte).
Proof.
  refine (type_then_backspace screen_4x3_dirty "x"%byte 0 1 1 _ _ _ _ _ _ _).
  - unfold page_fits, PageModel.wf. simpl. repeat split; try lia.
    repeat constructor.
  - simpl. lia.
  - simpl. lia.
  - reflexivity.
  - vm_compute. split; discriminate.
  - vm_compute. reflexivity.
  - left. simpl. lia.
Defined.

(** * Editing keys *)

Section DeleteFacts.

(** Reading the characters of a row after a deletion. *)
Lemma delete_chars_lookup (l : list byte) (fill : byte) (k n : nat) :
  (k < n)%nat -> (n <= length l)%nat ->
  let l1 := take k l ++ drop (S k) (take n l) ++ [fill] ++ drop n l in
  length l1 = length l /\
  (forall j, (j < k)%nat -> l1 !! j = l !! j) /\
  (forall j, (k <= j)%nat -> (S j < n)%nat -> l1 !! j = l !! S j) /\
  l1 !! (n - 1)%nat = Some fill /\
  (forall j, (n <= j)%nat -> l1 !! j = l !! j).
Proof.
  intros Hk Hn. cbv zeta.
  assert (Hlen1 : length (take k l) = k) by (rewrite length_take; lia).
  assert (Hlen2 : length (drop (S k) (take n l)) = (n - S k)%nat)
    by (rewrite length_drop, length_take; lia).
  split; [|split; [|split; [|split]]].
  - rewrite !length_app, Hlen1, Hlen2, length_drop. simpl. lia.
  - intros j Hj. rewrite lookup_app_l by lia. apply lookup_take_lt. lia.
  - intros j Hj Hjn. rewrite lookup_app_r by lia. rewrite Hlen1.
    rewrite lookup_app_l by lia.
    rewrite lookup_drop, lookup_take_lt by lia. f_equal. lia.
  - rewrite lookup_app_r by lia. rewrite Hlen1.
    rewrite lookup_app_r by lia. rewrite Hlen2.
    replace (n - 1 - k - (n - S k))%nat with 0%nat by lia. reflexivity.
  - intros j Hj. rewrite lookup_app_r by lia. rewrite Hlen1.
    rewrite lookup_app_r by lia. rewrite Hlen2.
    replace (j - k - (n - S k))%nat with (S (j - n)) by lia. simpl.
    rewrite lookup_drop. f_equal. lia.
Qed.

End DeleteFacts.

(** X11: Deleting the character under the cursor with [delete_fullchar], on
    the modelled page, within the text of a row that is not wrap-connected:
    the characters behind the cursor move one to the left, a blank comes in
    at the logical end, the row is one shorter, the characters before the
    cursor and behind the logical end are as they were, and the cursor stays
    where it is. *)
Theorem delete_fullchar_deletes_char
    (self : TextScreen.t PageModel.t) (fuel : nat) :
  let page := TextScreen._apage self in
  let row := TextScreen.current_row self in
  let col := TextScreen.current_col self in
  let len := PageModel.row_length page row in
  PageModel.wf page ->
  1 <= row <= PageModel._height page ->
  PageModel.wraps page row = false ->
  1 <= col <= len -> len <= PageModel._width page ->
  exists self',
    TextScreen.delete_fullchar (S fuel) self = Some self' /\
    TextScreen.current_row self' = row /\
    TextScreen.current_col self' = col /\
    PageModel.row_length (TextScreen._apage self') row = len - 1 /\
    (forall k, 1 <= k < col ->
       PageModel.get_char (TextScreen._apage self') row k = PageModel.get_char page row k) /\
    (forall k, col <= k < len ->
       PageModel.get_char (TextScreen._apage self') row k
         = PageModel.get_char page row (k + 1)) /\
    PageModel.get_char (TextScreen._apage self') row len = " "%byte /\
    (forall k, len < k ->
       PageModel.get_char (TextScreen._apage self') row k = PageModel.get_char page row k).
Proof.
  intros page row col len Hwf Hrow Hwrap Hcol Hlen.
  pose proof Hwf as (Hw1 & Hh0 & Hrows & Hall).
  unfold PageModel.wraps, PageModel.row_length in *.
  unfold TextScreen.delete_fullchar. fold page row col.
  change (TextPage.get_charwidth page row col) with 1.
  change (1 >? 0) with true. change (1 =? 2) with false. cbv iota.
  pose proof (_delete_at_nowrap self row col fuel Hwrap (proj2 Hcol)) as Hd.
  cbv zeta in Hd. rewrite Hd. clear Hd. fold page.
  set (r := PageModel.get_row page row) in *.
  set (r1 := TextRow.delete r col (TextScreen._attr self) None).
  eexists. split; [reflexivity|].
  assert (Hs : forall pg,
            TextScreen.current_row (TextScreen.set__apage self pg) = row /\
            TextScreen.current_col (TextScreen.set__apage self pg) = col /\
            TextScreen._apage (TextScreen.set__apage self pg) = pg).
  { intros pg. subst row col. destruct self. simpl. auto. }
  destruct (Hs (PageModel.set_row page row r1)) as (-> & -> & ->).
  split; [reflexivity|]. split; [reflexivity|].
  unfold PageModel.get_char.
  rewrite get_row_set_row_eq by assumption. fold r.
  pose proof (wf_get_row_chars page row Hwf) as Hchars. fold r in Hchars.
  assert (Hr1 : TextRow.length r1 = len - 1 /\
                TextRow.chars r1 =
                  take (Z.to_nat (col - 1)) (TextRow.chars r)
                    ++ drop (S (Z.to_nat (col - 1))) (take (Z.to_nat len) (TextRow.chars r))
                    ++ [" "%byte] ++ drop (Z.to_nat len) (TextRow.chars r)).
  { subst r1. unfold TextRow.delete. fold len.
    replace ((1 <=? col) && (col <=? len)) with true
      by (symmetry; rewrite andb_true_iff, !Z.leb_le; lia).
    simpl. split; reflexivity. }
  destruct Hr1 as [Hl1 Hc1].
  destruct (delete_chars_lookup (TextRow.chars r) " "%byte (Z.to_nat (col - 1))
              (Z.to_nat len) ltac:(lia) ltac:(lia))
    as (_ & Hbefore & Hafter & Hfill & Hrest).
  cbv zeta in Hbefore, Hafter, Hfill, Hrest.
  rewrite <- Hc1 in Hbefore, Hafter, Hfill, Hrest.
  split; [exact Hl1|]. split; [|split; [|split]].
  - intros k Hk.
    replace (1 <=? k) with true by (symmetry; apply Z.leb_le; lia).
    rewrite Hbefore by lia. reflexivity.
  - intros k Hk.
    replace (1 <=? k) with true by (symmetry; apply Z.leb_le; lia).
    replace (1 <=? k + 1) with true by (symmetry; apply Z.leb_le; lia).
    rewrite Hafter by lia.
    replace (Z.to_nat (k + 1 - 1)) with (S (Z.to_nat (k - 1))) by lia. reflexivity.
  - replace (1 <=? len) with true by (symmetry; apply Z.leb_le; lia).
    replace (Z.to_nat (len - 1)) with (Z.to_nat len - 1)%nat by lia.
    rewrite Hfill. reflexivity.
  - intros k Hk.
    replace (1 <=? k) with true by (symmetry; apply Z.leb_le; lia).
    rewrite Hrest by lia. reflexivity.
Qed.

(** The theorem on the 4 x 3 screen whose row 1 reads "ab": deleting at
    (1, 1) leaves "b". *)
Lemma delete_fullchar_deletes_char_witness :
  exists self',
    TextScreen.delete_fullchar 1 screen_4x3_dirty = Some self' /\
    TextScreen.current_row self' = 1 /\
    TextScreen.current_col self' = 1 /\
    PageModel.row_length (TextScreen._apage self') 1 = 2 - 1 /\
    (forall k, 1 <= k < 1 ->
       PageModel.get_char (TextScreen._apage self') 1 k
         = PageModel.get_char (TextScreen._apage screen_4x3_dirty) 1 k) /\
    (forall k, 1 <= k < 2 ->
       PageModel.get_char (TextScreen._apage self') 1 k
         = PageModel.get_char (TextScreen._apage screen_4x3_dirty) 1 (k + 1)) /\
    PageModel.get_char (TextScreen._apage self') 1 2 = " "%byte /\
    (forall k, 2 < k ->
       PageModel.get_char (TextScreen._apage self') 1 k
         = PageModel.get_char (TextScreen._apage screen_4x3_dirty) 1 k).
Proof.
  refine (delete_fullchar_deletes_char screen_4x3_dirty 0 _ _ _ _ _).
  - unfold PageModel.wf. simpl. repeat split; try lia. repeat constructor.
  - simpl. lia.
  - reflexivity.
  - vm_compute. split; discriminate.
  - vm_compute. discriminate.
Defined.

(** * Clearing to the end of the line, and the line feed *)

Section ClearFromFacts.

Context {P : Type} `{TextPage.Ops P}.
Implicit Type self : TextScreen.t P.

(** One [scroll] hands the page one [scroll_up] and moves the cursor only. *)
Lemma scroll_frame self (from_row : Z) :
  let s := TextScreen.scroll self (Some from_row) in
  TextScreen._apage s
    = TextPage.scroll_up (TextScreen._apage self) from_row
        (ScrollArea.bottom (TextScreen.scroll_area self)) (TextScreen._attr self) /\
  TextScreen.mode s = TextScreen.mode self /\
  TextScreen.scroll_area s = TextScreen.scroll_area self /\
  TextScreen._attr s = TextScreen._attr self /\
  TextScreen._bottom_row_allowed s = TextScreen._bottom_row_allowed self.
Proof.
  destruct self. unfold TextScreen.scroll, TextScreen._move_cursor. simpl.
  destruct (_ >? from_row); simpl; [destruct (is_text_mode _)|]; simpl;
    repeat split; reflexivity.
Qed.

(** So does a run of them. *)
Lemma scroll_rows_frame (rows : list Z) self :
  let s := foldl (fun self row => TextScreen.scroll self (Some row)) self rows in
  TextScreen._apage s
    = foldl (fun p row =>
               TextPage.scroll_up p row
                 (ScrollArea.bottom (TextScreen.scroll_area self)) (TextScreen._attr self))
            (TextScreen._apage self) rows /\
  TextScreen.mode s = TextScreen.mode self /\
  TextScreen.scroll_area s = TextScreen.scroll_area self /\
  TextScreen._attr s = TextScreen._attr self /\
  TextScreen._bottom_row_allowed s = TextScreen._bottom_row_allowed self.
Proof.
  cbv zeta. revert self. induction rows as [|row rows IH]; intros self.
  - simpl. repeat split; reflexivity.
  - cbn [foldl].
    destruct (scroll_frame self row) as (Hp & Hm & Ha & Hat & Hf). cbv zeta in *.
    destruct (IH (TextScreen.scroll self (Some row))) as (Hp' & Hm' & Ha' & Hat' & Hf').
    rewrite Hp', Hm', Ha', Hat', Hf', Hp, Hm, Ha, Hat, Hf.
    repeat split; reflexivity.
Qed.

End ClearFromFacts.

(** X12: [clear_from(srow, scol)], for a position on the screen: the page gets
    one [clear_row_from] and then one [scroll_up] to the bottom of the scroll
    area for each further row of the logical line, from its last row
    upwards; wherever the cursor was, it ends on [(srow, scol)] with the
    overflow flag off, and the geometry and the attribute are kept.
    [clear_line] is [clear_from] at the first row of the logical line. *)
Theorem clear_from_outcome
    {P : Type} `{TextPage.Ops P} `{TextPage.MoreOps P}
    (self : TextScreen.t P) (srow scol : Z) :
  let top := ScrollArea.top (TextScreen.scroll_area self) in
  let bottom := ScrollArea.bottom (TextScreen.scroll_area self) in
  let end_row := TextPage.find_end_of_line (TextScreen._apage self) srow in
  1 <= scol <= width (TextScreen.mode self) ->
  (top <= srow <= bottom
   \/ (TextScreen._bottom_row_allowed self = true /\
       srow = height (TextScreen.mode self))) ->
  let self' := TextScreen.clear_from self srow scol in
  TextScreen._apage self'
    = foldl (fun p row => TextPage.scroll_up p row bottom (TextScreen._attr self))
        (TextPage.clear_row_from (TextScreen._apage self) srow scol (TextScreen._attr self))
        (reverse (seqZ (srow + 1) (end_row - srow))) /\
  TextScreen.current_row self' = srow /\
  TextScreen.current_col self' = scol /\
  TextScreen.overflow self' = false /\
  TextScreen.mode self' = TextScreen.mode self /\
  TextScreen.scroll_area self' = TextScreen.scroll_area self /\
  TextScreen._attr self' = TextScreen._attr self /\
  (forall the_row,
     TextPage.find_start_of_line (TextScreen._apage self) the_row = srow ->
     TextScreen.clear_line self the_row scol = self').
Proof.
  intros top bottom end_row Hcol Hrow self'.
  split; [|split; [|split; [|split; [|split; [|split; [|split]]]]]];
    try (intros the_row Hstart; unfold TextScreen.clear_line; rewrite Hstart; reflexivity).
  all: subst self'; unfold TextScreen.clear_from; fold end_row.
  all: set (rows := reverse (seqZ (srow + 1) (end_row - srow))).
  all: set (s0 := TextScreen.set__apage self
                    (TextPage.clear_row_from (TextScreen._apage self) srow scol
                       (TextScreen._attr self))).
  all: destruct (scroll_rows_frame rows s0) as (Hp & Hm & Ha & Hat & Hf);
    cbv zeta in Hp, Hm, Ha, Hat, Hf.
  all: assert (Hs0 : TextScreen._apage s0
                  = TextPage.clear_row_from (TextScreen._apage self) srow scol
                      (TextScreen._attr self) /\
                TextScreen.mode s0 = TextScreen.mode self /\
                TextScreen.scroll_area s0 = TextScreen.scroll_area self /\
                TextScreen._attr s0 = TextScreen._attr self /\
                TextScreen._bottom_row_allowed s0 = TextScreen._bottom_row_allowed self)
    by (subst s0; destruct self; simpl; repeat split; reflexivity).
  all: destruct Hs0 as (Hp0 & Hm0 & Ha0 & Hat0 & Hf0).
  all: rewrite Hp0, Ha0, Hat0 in Hp; rewrite Hm0 in Hm; rewrite Ha0 in Ha;
    rewrite Hat0 in Hat; rewrite Hf0 in Hf.
  all: set (s1 := foldl _ s0 rows) in *.
  all: destruct (set_pos_lands s1 srow scol true) as (Hr & Hc & Ho & _ & _ & _ & Hsame);
    [rewrite Hm; exact Hcol
    |rewrite Ha, Hf, Hm; exact Hrow|].
  all: cbv zeta in Hr, Hc, Ho, Hsame; unfold same_but_cursor in Hsame.
  all: destruct Hsame as (Hsp & Hsm & Hsa & Hsat & _).
  - rewrite Hsp. exact Hp.
  - exact Hr.
  - exact Hc.
  - exact Ho.
  - congruence.
  - congruence.
  - congruence.
Qed.

(** The theorem on the 4 x 3 screen whose row 1 reads "ab": clearing from
    (1, 2). *)
Lemma clear_from_outcome_witness :
  let self := screen_4x3_dirty in
  let self' := TextScreen.clear_from self 1 2 in
  TextScreen._apage self'
    = foldl (fun p row => TextPage.scroll_up p row 3 (TextScreen._attr self))
        (TextPage.clear_row_from (TextScreen._apage self) 1 2 (TextScreen._attr self))
        (reverse (seqZ (1 + 1)
                    (TextPage.find_end_of_line (TextScreen._apage self) 1 - 1))) /\
  TextScreen.current_row self' = 1 /\
  TextScreen.current_col self' = 2 /\
  TextScreen.overflow self' = false /\
  TextScreen.mode self' = TextScreen.mode self /\
  TextScreen.scroll_area self' = TextScreen.scroll_area self /\
  TextScreen._attr self' = TextScreen._attr self /\
  (forall the_row,
     TextPage.find_start_of_line (TextScreen._apage self) the_row = 1 ->
     TextScreen.clear_line self the_row 2 = self').
Proof.
  refine (clear_from_outcome screen_4x3_dirty 1 2 _ _).
  - simpl. lia.
  - left. simpl. lia.
Defined.

(** X13: [line_feed] with the cursor at or behind the logical end of its row.
    If the logical line reaches the bottom of the scroll area and starts at
    its top or above, nothing happens.  If the logical line ends above the
    bottom of the scroll area, the rows below the cursor's move down by one
    [scroll_down] from the next row, the cursor's row is marked as wrapping,
    and the cursor goes to column 1 of the next row. *)
Theorem line_feed_at_line_end
    {P : Type} `{TextPage.Ops P} `{TextPage.MoreOps P}
    (self : TextScreen.t P) (fuel : nat) :
  let top := ScrollArea.top (TextScreen.scroll_area self) in
  let bottom := ScrollArea.bottom (TextScreen.scroll_area self) in
  let page := TextScreen._apage self in
  let row := TextScreen.current_row self in
  let end_row := TextPage.find_end_of_line page row in
  geometry self ->
  TextPage.row_length page row <= TextScreen.current_col self ->
  (bottom <= end_row -> TextPage.find_start_of_line page row <= top ->
   TextScreen.line_feed fuel self = Some self) /\
  (end_row < bottom -> top <= row <= end_row ->
   exists self',
     TextScreen.line_feed fuel self = Some self' /\
     TextScreen._apage self'
       = TextPage.set_wrap
           (TextPage.scroll_down page (row + 1) bottom (TextScreen._attr self)) row true /\
     TextScreen.current_row self' = row + 1 /\
     TextScreen.current_col self' = 1 /\
     TextScreen.overflow self' = false).
Proof.
  intros top bottom page row end_row Hgeo Hlen.
  unfold geometry in Hgeo. fold top bottom in Hgeo.
  unfold TextScreen.line_feed, TextScreen.row_length. fold page row end_row bottom top.
  replace (TextScreen.current_col self <? TextPage.row_length page row) with false
    by (symmetry; apply Z.ltb_ge; exact Hlen).
  split.
  - intros Hend Hstart.
    replace (end_row >=? bottom) with true
      by (symmetry; rewrite Z.geb_leb; apply Z.leb_le; exact Hend).
    replace (TextPage.find_start_of_line page row >? top) with false
      by (symmetry; rewrite Z.gtb_ltb; apply Z.ltb_ge; exact Hstart).
    reflexivity.
  - intros Hend Hrow.
    replace (end_row >=? bottom) with false
      by (symmetry; rewrite Z.geb_leb; apply Z.leb_gt; exact Hend).
    eexists. split; [reflexivity|].
    replace (row <? height (TextScreen.mode self)) with true
      by (symmetry; apply Z.ltb_lt; lia).
    set (s1 := TextScreen.set_wrap (TextScreen.scroll_down self (row + 1)) _ true).
    assert (Hs1 : TextScreen.current_row (TextScreen.scroll_down self (row + 1)) = row /\
                  TextScreen._apage s1
                    = TextPage.set_wrap
                        (TextPage.scroll_down page (row + 1) bottom (TextScreen._attr self))
                        row true /\
                  TextScreen.current_row s1 = row /\
                  TextScreen.mode s1 = TextScreen.mode self /\
                  TextScreen.scroll_area s1 = TextScreen.scroll_area self).
    { subst s1 page row bottom. destruct self. simpl.
      unfold TextScreen.scroll_down. simpl.
      replace (current_row >=? current_row + 1) with false
        by (symmetry; rewrite Z.geb_leb; apply Z.leb_gt; lia).
      simpl. repeat split; reflexivity. }
    destruct Hs1 as (Hr0 & Hp1 & Hr1 & Hm1 & Ha1).
    rewrite Hr1.
    destruct (set_pos_lands s1 (row + 1) 1 true) as (Hr & Hc & Ho & _ & _ & _ & Hsame).
    + rewrite Hm1. lia.
    + left. rewrite Ha1. fold top bottom. lia.
    + cbv zeta in Hr, Hc, Ho, Hsame. unfold same_but_cursor in Hsame.
      destruct Hsame as (Hsp & _).
      rewrite Hsp, Hp1. repeat split; assumption.
Qed.

(** The theorem on the empty 80 x 25 screen with the cursor on (1, 1). *)
Lemma line_feed_at_line_end_witness :
  let self := screen_80x25 in
  let page := TextScreen._apage self in
  (24 <= TextPage.find_end_of_line page 1 ->
   TextPage.find_start_of_line page 1 <= 1 ->
   TextScreen.line_feed 1 self = Some self) /\
  (TextPage.find_end_of_line page 1 < 24 ->
   1 <= 1 <= TextPage.find_end_of_line page 1 ->
   exists self',
     TextScreen.line_feed 1 self = Some self' /\
     TextScreen._apage self'
       = TextPage.set_wrap
           (TextPage.scroll_down page (1 + 1) 24 (TextScreen._attr self)) 1 true /\
     TextScreen.current_row self' = 1 + 1 /\
     TextScreen.current_col self' = 1 /\
     TextScreen.overflow self' = false).
Proof.
  refine (line_feed_at_line_end screen_80x25 1 _ _).
  - unfold geometry. simpl. lia.
  - vm_compute. discriminate.
Defined.

(** * Further properties of the pixel page *)

Section PutRectCells.

Import ByteMatrix.

Lemma wf_setslice (m value m' : ByteMatrix.t) (y0 y1 x0 x1 : Z) :
  wf m -> setslice m y0 y1 x0 x1 value = Some m' -> wf m'.
Proof.
  intros (Hh & Hw & Hrows & Hall). unfold setslice.
  destruct (_ && _); [|discriminate]. intros [= <-].
  unfold wf. simpl. repeat split; auto.
  - rewrite length_imap. exact Hrows.
  - apply Forall_lookup_2. intros i row. rewrite list_lookup_imap.
    destruct (_rows m !! i) as [r|] eqn:Hr; simpl; [|discriminate].
    intros [= <-]. pose proof (Forall_lookup_1 _ _ _ _ Hall Hr) as Hlen.
    destruct (in_slice y0 y1 i); [rewrite length_imap|]; exact Hlen.
Qed.

(** Two well-formed matrices of one shape with the same cells are one
    matrix. *)
Lemma matrix_ext (m1 m2 : ByteMatrix.t) :
  wf m1 -> wf m2 -> _height m1 = _height m2 -> _width m1 = _width m2 ->
  (forall i j, cell (_rows m1) i j = cell (_rows m2) i j) ->
  m1 = m2.
Proof.
  intros (Hh1 & Hw1 & Hrows1 & Hall1) (Hh2 & Hw2 & Hrows2 & Hall2) Hh Hw Hcells.
  destruct m1 as [h1 w1 rows1], m2 as [h2 w2 rows2]. simpl in *. subst.
  f_equal. apply list_eq. intros i.
  destruct (rows1 !! i) as [r1|] eqn:Hr1, (rows2 !! i) as [r2|] eqn:Hr2.
  - f_equal. apply list_eq. intros j.
    specialize (Hcells i j). unfold cell in Hcells. rewrite Hr1, Hr2 in Hcells.
    exact Hcells.
  - apply lookup_lt_Some in Hr1. apply lookup_ge_None in Hr2. lia.
  - apply lookup_ge_None in Hr1. apply lookup_lt_Some in Hr2. lia.
  - reflexivity.
Qed.

Variables (m array : ByteMatrix.t) (x0 y0 x1 y1 : Z).
Hypothesis Hwf : wf m.
Hypothesis Hx : 0 <= x0 <= x1 /\ x1 < _width m.
Hypothesis Hy : 0 <= y0 <= y1 /\ y1 < _height m.
Hypothesis Harray : wf array.
Hypothesis Hah : _height array = y1 - y0 + 1.
Hypothesis Haw : _width array = x1 - x0 + 1.

(** The result of an operation of the table, cell by cell. *)
Lemma operation_result (mask : Z) (token : PixelPage.operation_token) :
  exists r,
    PixelPage._init_operations mask token
      (getslice m y0 (y1 + 1) x0 (x1 + 1)) array = Some r /\
    _height r = _height array /\ _width r = _width array /\
    (forall i j c, cell (_rows m) i j = Some c ->
       in_slice y0 (y1 + 1) i = true -> in_slice x0 (x1 + 1) j = true ->
       exists a, cell (_rows array) (i - Z.to_nat y0) (j - Z.to_nat x0) = Some a /\
                 cell (_rows r) (i - Z.to_nat y0) (j - Z.to_nat x0)
                   = Some (pixel_operation mask token c a)).
Proof.
  destruct (rect_shape m array x0 y0 x1 y1 Hx Hy Hah Haw) as [Hsh Hsw].
  assert (Helt : forall f,
    exists r,
      elementwise f (getslice m y0 (y1 + 1) x0 (x1 + 1)) array = Some r /\
      _height r = _height array /\ _width r = _width array /\
      (forall i j c, cell (_rows m) i j = Some c ->
         in_slice y0 (y1 + 1) i = true -> in_slice x0 (x1 + 1) j = true ->
         exists a, cell (_rows array) (i - Z.to_nat y0) (j - Z.to_nat x0) = Some a /\
                   cell (_rows r) (i - Z.to_nat y0) (j - Z.to_nat x0) = Some (f c a))).
  { intros f. eexists. split.
    { unfold elementwise. simpl. rewrite Hsh, Hsw, !Z.eqb_refl. reflexivity. }
    simpl. split; [first [exact Hsh | reflexivity]|].
    split; [first [exact Hsw | reflexivity]|].
    intros i j c Hc Hi Hj.
    destruct (cell_array_in_rect m array x0 y0 x1 y1 Hx Hy Harray Hah Haw i j Hi Hj)
      as [a Ha].
    exists a. split; [exact Ha|].
    rewrite cell_zip_with, Ha.
    pose proof (cell_in_rect m x0 y0 x1 y1 Hx Hy i j c Hc Hi Hj) as Hs.
    unfold getslice in Hs. simpl in Hs. rewrite Hs. reflexivity. }
  destruct token; simpl.
  - exists array. split; [reflexivity|]. split; [reflexivity|]. split; [reflexivity|].
    intros i j c Hc Hi Hj.
    destruct (cell_array_in_rect m array x0 y0 x1 y1 Hx Hy Harray Hah Haw i j Hi Hj)
      as [a Ha].
    exists a. split; exact Ha.
  - eexists. split; [reflexivity|]. simpl. split; [reflexivity|]. split; [reflexivity|].
    intros i j c Hc Hi Hj.
    destruct (cell_array_in_rect m array x0 y0 x1 y1 Hx Hy Harray Hah Haw i j Hi Hj)
      as [a Ha].
    exists a. split; [exact Ha|].
    unfold cell in *. rewrite list_lookup_fmap.
    destruct (_rows array !! (i - Z.to_nat y0)%nat) as [row|]; simpl in *; [|discriminate].
    rewrite list_lookup_fmap, Ha. reflexivity.
  - apply Helt.
  - apply Helt.
  - apply Helt.
Qed.

(** The matrix after the rectangle has taken the result. *)
Lemma put_rect_cells (mask : Z) (token : PixelPage.operation_token) :
  exists r m1,
    PixelPage._init_operations mask token
      (getslice m y0 (y1 + 1) x0 (x1 + 1)) array = Some r /\
    setslice m y0 (y1 + 1) x0 (x1 + 1) r = Some m1 /\
    wf m1 /\ _height m1 = _height m /\ _width m1 = _width m /\
    (forall i j,
       cell (_rows m1) i j =
         match cell (_rows m) i j with
         | Some c =>
           Some (if in_slice y0 (y1 + 1) i && in_slice x0 (x1 + 1) j
                 then pixel_operation mask token c
                        (default 0 (cell (_rows array) (i - Z.to_nat y0) (j - Z.to_nat x0)))
                 else c)
         | None => None
         end).
Proof.
  destruct (rect_shape m array x0 y0 x1 y1 Hx Hy Hah Haw) as [Hsh Hsw].
  destruct (operation_result mask token) as (r & Hop & Hrh & Hrw & Hcells).
  assert (Hset : exists m1, setslice m y0 (y1 + 1) x0 (x1 + 1) r = Some m1).
  { unfold setslice. rewrite Hsh, Hsw, Hrh, Hrw, !Z.eqb_refl. eexists. reflexivity. }
  destruct Hset as [m1 Hset].
  exists r, m1. split; [exact Hop|]. split; [exact Hset|].
  split; [exact (wf_setslice m r m1 _ _ _ _ Hwf Hset)|].
  destruct (setslice_rows m x0 y0 x1 y1 r m1 Hset) as (Hh1 & Hw1 & Hrows).
  split; [exact Hh1|]. split; [exact Hw1|].
  intros i j. rewrite Hrows.
  rewrite (cell_imap_imap y0 y1
             (fun i j c => if in_slice x0 (x1 + 1) j
                           then default c (cell (_rows r) (i - Z.to_nat y0) (j - Z.to_nat x0))
                           else c)).
  destruct (cell (_rows m) i j) as [c|] eqn:Hc; [|reflexivity]. f_equal.
  destruct (in_slice y0 (y1 + 1) i) eqn:Hi; [|reflexivity].
  destruct (in_slice x0 (x1 + 1) j) eqn:Hj; [|reflexivity]. simpl.
  destruct (Hcells i j c Hc Hi Hj) as (a & Ha & Hr). rewrite Hr, Ha. reflexivity.
Qed.

End PutRectCells.

Section PutRectPixels.

Variables (p : PixelPage.t) (x0 y0 x1 y1 : Z) (array : ByteMatrix.t).
Hypothesis Hwf : PixelPage.wf p.
Hypothesis Hx : 0 <= x0 <= x1 /\ x1 < PixelPage.width p.
Hypothesis Hy : 0 <= y0 <= y1 /\ y1 < PixelPage.height p.
Hypothesis Harray : ByteMatrix.wf array.
Hypothesis Hah : ByteMatrix._height array = y1 - y0 + 1.
Hypothesis Haw : ByteMatrix._width array = x1 - x0 + 1.

(** [put_rect], pixel by pixel. *)
Lemma put_rect_by_pixel (token : PixelPage.operation_token) :
  exists p' r,
    PixelPage.put_rect p x0 y0 x1 y1 array token = Some (p', r) /\
    PixelPage.wf p' /\
    PixelPage.width p' = PixelPage.width p /\
    PixelPage.height p' = PixelPage.height p /\
    PixelPage._mask p' = PixelPage._mask p /\
    (forall x y,
       PixelPage.get_pixel p' x y =
         if in_rect x0 y0 x1 y1 x y
         then pixel_operation (PixelPage._mask p) token (PixelPage.get_pixel p x y)
                (array_pixel array (x - x0) (y - y0))
         else PixelPage.get_pixel p x y).
Proof.
  destruct Hwf as (Hwfm & Hh & Hw).
  assert (Hxm : 0 <= x0 <= x1 /\ x1 < ByteMatrix._width (PixelPage._buffer p))
    by (rewrite Hw; exact Hx).
  assert (Hym : 0 <= y0 <= y1 /\ y1 < ByteMatrix._height (PixelPage._buffer p))
    by (rewrite Hh; exact Hy).
  destruct (put_rect_cells (PixelPage._buffer p) array x0 y0 x1 y1 Hwfm Hxm Hym
              Harray Hah Haw (PixelPage._mask p) token)
    as (r & m1 & Hop & Hset & Hwf1 & Hh1 & Hw1 & Hcells).
  exists (PixelPage.set_buffer p m1), r.
  unfold PixelPage.put_rect, PixelPage._operations. rewrite Hop. simpl.
  rewrite Hset. simpl. split; [reflexivity|].
  split; [unfold PixelPage.wf; simpl; split; [exact Hwf1 | split; congruence]|].
  split; [reflexivity|]. split; [reflexivity|]. split; [reflexivity|].
  intros x y. unfold PixelPage.get_pixel, in_rect. simpl.
  destruct (ByteMatrix.valid_index (PixelPage._buffer p) y x) eqn:Hv.
  - assert (Hv1 : ByteMatrix.valid_index m1 y x = true).
    { unfold ByteMatrix.valid_index in *. rewrite Hh1, Hw1. exact Hv. }
    rewrite (getitem_cell _ _ _ Hv), (getitem_cell _ _ _ Hv1), Hcells.
    apply valid_index_spec in Hv. destruct Hv as [Hyv Hxv].
    destruct (wf_cell_is_Some (PixelPage._buffer p) (Z.to_nat y) (Z.to_nat x) Hwfm
                ltac:(lia) ltac:(lia)) as [c Hc].
    rewrite Hc. unfold ByteMatrix.in_slice.
    rewrite !Z2Nat.id by lia.
    replace (y <? y1 + 1) with (y <=? y1) by (destruct (Z.leb_spec y y1), (Z.ltb_spec y (y1 + 1)); try reflexivity; lia).
    replace (x <? x1 + 1) with (x <=? x1) by (destruct (Z.leb_spec x x1), (Z.ltb_spec x (x1 + 1)); try reflexivity; lia).
    destruct (Z.leb_spec x0 x), (Z.leb_spec x x1), (Z.leb_spec y0 y), (Z.leb_spec y y1);
      simpl; try reflexivity.
    f_equal. unfold array_pixel.
    rewrite getitem_cell by (apply valid_index_spec; lia).
    replace (Z.to_nat (y - y0)) with (Z.to_nat y - Z.to_nat y0)%nat by lia.
    replace (Z.to_nat (x - x0)) with (Z.to_nat x - Z.to_nat x0)%nat by lia.
    reflexivity.
  - assert (Hv1 : ByteMatrix.valid_index m1 y x = false).
    { unfold ByteMatrix.valid_index in *. rewrite Hh1, Hw1. exact Hv. }
    unfold ByteMatrix.getitem. rewrite Hv, Hv1.
    apply not_true_iff_false in Hv. rewrite valid_index_spec in Hv.
    destruct (Z.leb_spec x0 x), (Z.leb_spec x x1), (Z.leb_spec y0 y), (Z.leb_spec y y1);
      simpl; try reflexivity.
    exfalso. apply Hv. lia.
Qed.

End PutRectPixels.

(** X25: [put_rect] with any operation, pixel by pixel: for a rectangle on the
    grid and a well-formed source array of its shape the call succeeds; a
    pixel of the rectangle becomes what the operation makes of its old
    attribute and of the source array's attribute at the same offset (the
    source attribute for PSET, its complement under the mask for PRESET, the
    bitwise AND, OR, XOR with the old attribute otherwise); every pixel
    outside the rectangle keeps its attribute.  Nothing is masked on the
    way. *)
Theorem put_rect_pixels
    (p : PixelPage.t) (x0 y0 x1 y1 : Z) (array : ByteMatrix.t)
    (token : PixelPage.operation_token) :
  PixelPage.wf p ->
  0 <= x0 <= x1 /\ x1 < PixelPage.width p ->
  0 <= y0 <= y1 /\ y1 < PixelPage.height p ->
  ByteMatrix.wf array ->
  ByteMatrix._height array = y1 - y0 + 1 ->
  ByteMatrix._width array = x1 - x0 + 1 ->
  exists p' r,
    PixelPage.put_rect p x0 y0 x1 y1 array token = Some (p', r) /\
    PixelPage.wf p' /\
    PixelPage.width p' = PixelPage.width p /\
    PixelPage.height p' = PixelPage.height p /\
    PixelPage._mask p' = PixelPage._mask p /\
    (forall x y,
       PixelPage.get_pixel p' x y =
         if in_rect x0 y0 x1 y1 x y
         then pixel_operation (PixelPage._mask p) token (PixelPage.get_pixel p x y)
                (array_pixel array (x - x0) (y - y0))
         else PixelPage.get_pixel p x y).
Proof. intros. apply put_rect_by_pixel; assumption. Qed.

(** The theorem on a 4 x 3 page of 2 bits per pixel: a 2 x 2 array put
    with PRESET on the rectangle (1, 0)-(2, 1). *)
Lemma put_rect_pixels_witness :
  exists p' r,
    PixelPage.put_rect (PixelPage.__init__ 4 3 2) 1 0 2 1
      (ByteMatrix.Build 2 2 [[1; 2]; [3; 0]]) PixelPage.PRESET = Some (p', r) /\
    PixelPage.wf p' /\
    PixelPage.width p' = 4 /\
    PixelPage.height p' = 3 /\
    PixelPage._mask p' = 3 /\
    (forall x y,
       PixelPage.get_pixel p' x y =
         if in_rect 1 0 2 1 x y
         then pixel_operation 3 PixelPage.PRESET
                (PixelPage.get_pixel (PixelPage.__init__ 4 3 2) x y)
                (array_pixel (ByteMatrix.Build 2 2 [[1; 2]; [3; 0]]) (x - 1) (y - 0))
         else PixelPage.get_pixel (PixelPage.__init__ 4 3 2) x y).
Proof.
  apply (put_rect_pixels (PixelPage.__init__ 4 3 2) 1 0 2 1
           (ByteMatrix.Build 2 2 [[1; 2]; [3; 0]]) PixelPage.PRESET).
  - apply wf___init__; lia.
  - simpl; lia.
  - simpl; lia.
  - unfold ByteMatrix.wf; simpl. repeat split; try lia. repeat constructor.
  - reflexivity.
  - reflexivity.
Defined.

Section PutRectTwice.

Import ByteMatrix.

Lemma pixel_operation_idempotent mask token old new :
  token <> PixelPage.XOR ->
  pixel_operation mask token (pixel_operation mask token old new) new
    = pixel_operation mask token old new.
Proof.
  intros Hx. destruct token; simpl; try reflexivity.
  - rewrite <- Z.land_assoc, Z.land_diag. reflexivity.
  - rewrite <- Z.lor_assoc, Z.lor_diag. reflexivity.
  - contradiction.
Qed.

End PutRectTwice.

(** X27: [put_rect] with PSET, PRESET, AND or OR is idempotent: a second call
    with the same rectangle and the same source array succeeds and leaves
    the page that the first call left. *)
Theorem put_rect_idempotent
    (p : PixelPage.t) (x0 y0 x1 y1 : Z) (array : ByteMatrix.t)
    (token : PixelPage.operation_token) :
  token <> PixelPage.XOR ->
  PixelPage.wf p ->
  0 <= x0 <= x1 /\ x1 < PixelPage.width p ->
  0 <= y0 <= y1 /\ y1 < PixelPage.height p ->
  ByteMatrix.wf array ->
  ByteMatrix._height array = y1 - y0 + 1 ->
  ByteMatrix._width array = x1 - x0 + 1 ->
  exists p1 r1 r2,
    PixelPage.put_rect p x0 y0 x1 y1 array token = Some (p1, r1) /\
    PixelPage.put_rect p1 x0 y0 x1 y1 array token = Some (p1, r2).
Proof.
  intros Htoken (Hwfm & Hh & Hw) Hx Hy Harray Hah Haw.
  rewrite <- Hw in Hx. rewrite <- Hh in Hy.
  destruct (put_rect_cells (PixelPage._buffer p) array x0 y0 x1 y1 Hwfm Hx Hy
              Harray Hah Haw (PixelPage._mask p) token)
    as (r1 & m1 & Hop1 & Hset1 & Hwf1 & Hh1 & Hw1 & Hcells1).
  rewrite <- Hw1 in Hx. rewrite <- Hh1 in Hy.
  destruct (put_rect_cells m1 array x0 y0 x1 y1 Hwf1 Hx Hy
              Harray Hah Haw (PixelPage._mask p) token)
    as (r2 & m2 & Hop2 & Hset2 & Hwf2 & Hh2 & Hw2 & Hcells2).
  assert (Heq : m2 = m1).
  { apply matrix_ext; auto. intros i j. rewrite Hcells2, Hcells1.
    destruct (ByteMatrix.cell (ByteMatrix._rows (PixelPage._buffer p)) i j) as [c|];
      [|reflexivity].
    f_equal. destruct (_ && _); [|reflexivity].
    apply pixel_operation_idempotent. exact Htoken. }
  subst m2.
  exists (PixelPage.set_buffer p m1), r1, r2.
  unfold PixelPage.put_rect, PixelPage._operations. rewrite Hop1. simpl.
  rewrite Hset1. simpl. split; [reflexivity|].
  rewrite Hop2. simpl. rewrite Hset2. reflexivity.
Qed.

(** The theorem on a 4 x 3 page: a 2 x 2 array put with OR. *)
Lemma put_rect_idempotent_witness :
  exists p1 r1 r2,
    PixelPage.put_rect (PixelPage.__init__ 4 3 2) 1 0 2 1
      (ByteMatrix.Build 2 2 [[1; 2]; [3; 0]]) PixelPage.OR = Some (p1, r1) /\
    PixelPage.put_rect p1 1 0 2 1
      (ByteMatrix.Build 2 2 [[1; 2]; [3; 0]]) PixelPage.OR = Some (p1, r2).
Proof.
  apply (put_rect_idempotent (PixelPage.__init__ 4 3 2) 1 0 2 1
           (ByteMatrix.Build 2 2 [[1; 2]; [3; 0]]) PixelPage.OR).
  - discriminate.
  - apply wf___init__; lia.
  - simpl; lia.
  - simpl; lia.
  - unfold ByteMatrix.wf; simpl. repeat split; try lia. repeat constructor.
  - reflexivity.
  - reflexivity.
Defined.

Section GetRectFacts.

Import ByteMatrix.

Lemma length_slice {A} (lo hi : Z) (l : list A) :
  length (slice lo hi l) = Z.to_nat (slice_size lo hi (Z.of_nat (length l))).
Proof.
  unfold slice, slice_size. rewrite length_take, length_drop. lia.
Qed.

Lemma wf_getslice (m : ByteMatrix.t) (y0 y1 x0 x1 : Z) :
  wf m -> wf (getslice m y0 y1 x0 x1).
Proof.
  intros (Hh & Hw & Hrows & Hall). unfold wf, getslice. simpl.
  split; [unfold slice_size; lia|]. split; [unfold slice_size; lia|]. split.
  - rewrite length_fmap, length_slice, Hrows, Z2Nat.id by lia. reflexivity.
  - apply Forall_fmap.
    assert (Hsub : Forall (fun row : list Z => length row = Z.to_nat (_width m))
                     (slice y0 y1 (_rows m)))
      by (unfold slice; apply Forall_take, Forall_drop; exact Hall).
    eapply List.Forall_impl; [|exact Hsub]. intros row Hrow.
    unfold compose. rewrite length_slice, Hrow, Z2Nat.id by lia. reflexivity.
Qed.

End GetRectFacts.

(** X26: [get_rect] after [put_rect] with PSET on the same rectangle returns
    the source array. *)
Theorem put_rect_pset_get_rect
    (p : PixelPage.t) (x0 y0 x1 y1 : Z) (array : ByteMatrix.t) :
  PixelPage.wf p ->
  0 <= x0 <= x1 /\ x1 < PixelPage.width p ->
  0 <= y0 <= y1 /\ y1 < PixelPage.height p ->
  ByteMatrix.wf array ->
  ByteMatrix._height array = y1 - y0 + 1 ->
  ByteMatrix._width array = x1 - x0 + 1 ->
  exists p' r,
    PixelPage.put_rect p x0 y0 x1 y1 array PixelPage.PSET = Some (p', r) /\
    PixelPage.get_rect p' x0 y0 x1 y1 = array.
Proof.
  intros (Hwfm & Hh & Hw) Hx Hy Harray Hah Haw.
  rewrite <- Hw in Hx. rewrite <- Hh in Hy.
  destruct (put_rect_cells (PixelPage._buffer p) array x0 y0 x1 y1 Hwfm Hx Hy
              Harray Hah Haw (PixelPage._mask p) PixelPage.PSET)
    as (r1 & m1 & Hop1 & Hset1 & Hwf1 & Hh1 & Hw1 & Hcells1).
  exists (PixelPage.set_buffer p m1), r1.
  unfold PixelPage.put_rect, PixelPage._operations. rewrite Hop1. simpl.
  rewrite Hset1. simpl. split; [reflexivity|].
  unfold PixelPage.get_rect. simpl.
  apply matrix_ext.
  - apply wf_getslice. exact Hwf1.
  - exact Harray.
  - simpl. rewrite Hh1, Hah. unfold ByteMatrix.slice_size. lia.
  - simpl. rewrite Hw1, Haw. unfold ByteMatrix.slice_size. lia.
  - intros a b. rewrite cell_getslice by lia.
    destruct (bool_decide (Z.of_nat a < y1 + 1 - y0)) eqn:Ha;
      destruct (bool_decide (Z.of_nat b < x1 + 1 - x0)) eqn:Hb; simpl.
    + apply bool_decide_eq_true_1 in Ha, Hb.
      rewrite Hcells1.
      destruct (wf_cell_is_Some (PixelPage._buffer p) (Z.to_nat y0 + a) (Z.to_nat x0 + b)
                  Hwfm ltac:(lia) ltac:(lia)) as [c Hc].
      rewrite Hc.
      replace (ByteMatrix.in_slice y0 (y1 + 1) (Z.to_nat y0 + a)) with true
        by (symmetry; apply in_slice_spec; lia).
      replace (ByteMatrix.in_slice x0 (x1 + 1) (Z.to_nat x0 + b)) with true
        by (symmetry; apply in_slice_spec; lia).
      simpl.
      replace (Z.to_nat y0 + a - Z.to_nat y0)%nat with a by lia.
      replace (Z.to_nat x0 + b - Z.to_nat x0)%nat with b by lia.
      destruct (wf_cell_is_Some array a b Harray ltac:(lia) ltac:(lia)) as [v Hv].
      rewrite Hv. reflexivity.
    + apply bool_decide_eq_false_1 in Hb.
      symmetry. unfold ByteMatrix.cell.
      destruct (ByteMatrix._rows array !! a) as [row|] eqn:Hrow; simpl; [|reflexivity].
      apply lookup_ge_None_2. rewrite (wf_row_length array a row Harray Hrow). lia.
    + apply bool_decide_eq_false_1 in Ha.
      symmetry. unfold ByteMatrix.cell.
      destruct Harray as (_ & _ & Hlen & _).
      rewrite (lookup_ge_None_2 (ByteMatrix._rows array) a) by lia. reflexivity.
    + apply bool_decide_eq_false_1 in Ha.
      symmetry. unfold ByteMatrix.cell.
      destruct Harray as (_ & _ & Hlen & _).
      rewrite (lookup_ge_None_2 (ByteMatrix._rows array) a) by lia. reflexivity.
Qed.

(** The theorem on a 4 x 3 page. *)
Lemma put_rect_pset_get_rect_witness :
  exists p' r,
    PixelPage.put_rect (PixelPage.__init__ 4 3 2) 1 0 2 1
      (ByteMatrix.Build 2 2 [[1; 2]; [3; 0]]) PixelPage.PSET = Some (p', r) /\
    PixelPage.get_rect p' 1 0 2 1 = ByteMatrix.Build 2 2 [[1; 2]; [3; 0]].
Proof.
  apply (put_rect_pset_get_rect (PixelPage.__init__ 4 3 2) 1 0 2 1
           (ByteMatrix.Build 2 2 [[1; 2]; [3; 0]])).
  - apply wf___init__; lia.
  - simpl; lia.
  - simpl; lia.
  - unfold ByteMatrix.wf; simpl. repeat split; try lia. repeat constructor.
  - reflexivity.
  - reflexivity.
Defined.

(** X23: [put_pixel] changes one pixel: every other pixel reads as before, and
    the page keeps its dimensions. *)
Theorem put_pixel_other_pixels (p : PixelPage.t) (x y attr x' y' : Z) :
  PixelPage.wf p -> (x', y') <> (x, y) ->
  PixelPage.get_pixel (fst (PixelPage.put_pixel p x y attr)) x' y'
    = PixelPage.get_pixel p x' y' /\
  PixelPage.wf (fst (PixelPage.put_pixel p x y attr)).
Proof.
  intros Hwf Hne. pose proof Hwf as ((Hh0 & Hw0 & Hrows & Hall) & Hh & Hw).
  unfold PixelPage.put_pixel, ByteMatrix.setitem.
  destruct (ByteMatrix.valid_index (PixelPage._buffer p) y x) eqn:Hv; simpl;
    [|split; [reflexivity | exact Hwf]].
  apply valid_index_spec in Hv. destruct Hv as [Hy Hx].
  split.
  - unfold PixelPage.get_pixel, ByteMatrix.getitem, ByteMatrix.valid_index. simpl.
    destruct (_ && _ && _ && _) eqn:Hv'; [|reflexivity].
    repeat (apply andb_prop in Hv'; destruct Hv' as [Hv' ?]).
    destruct (decide (Z.to_nat y' = Z.to_nat y)) as [Heq | Hney].
    + rewrite Heq, list_lookup_alter_eq.
      destruct (ByteMatrix._rows (PixelPage._buffer p) !! Z.to_nat y) as [row|]; simpl;
        [|reflexivity].
      rewrite list_lookup_insert_ne; [reflexivity|].
      intros Hxx. apply Hne. f_equal; lia.
    + rewrite list_lookup_alter_ne by congruence. reflexivity.
  - unfold PixelPage.wf, ByteMatrix.wf. simpl. repeat split; auto.
    + rewrite length_alter. exact Hrows.
    + apply Forall_lookup_2. intros i row Hrow.
      destruct (decide (i = Z.to_nat y)) as [-> | Hi].
      * rewrite list_lookup_alter_eq in Hrow.
        destruct (ByteMatrix._rows (PixelPage._buffer p) !! Z.to_nat y) as [row0|] eqn:Hr0;
          simpl in Hrow; [|discriminate].
        injection Hrow as <-. rewrite length_insert.
        exact (Forall_lookup_1 _ _ _ _ Hall Hr0).
      * rewrite list_lookup_alter_ne in Hrow by congruence.
        exact (Forall_lookup_1 _ _ _ _ Hall Hrow).
Qed.

(** The theorem on a 4 x 3 page: writing (1, 2) leaves (2, 2) alone. *)
Lemma put_pixel_other_pixels_witness :
  PixelPage.get_pixel (fst (PixelPage.put_pixel (PixelPage.__init__ 4 3 2) 1 2 3)) 2 2
    = PixelPage.get_pixel (PixelPage.__init__ 4 3 2) 2 2 /\
  PixelPage.wf (fst (PixelPage.put_pixel (PixelPage.__init__ 4 3 2) 1 2 3)).
Proof.
  apply (put_pixel_other_pixels (PixelPage.__init__ 4 3 2) 1 2 3 2 2).
  - apply wf___init__; lia.
  - intros [=].
Defined.

(** X24: [get_rect] of a rectangle on the grid is a well-formed matrix of the
    rectangle's shape whose cells are the pixels of the rectangle. *)
Theorem get_rect_pixels (p : PixelPage.t) (x0 y0 x1 y1 : Z) :
  PixelPage.wf p ->
  0 <= x0 <= x1 /\ x1 < PixelPage.width p ->
  0 <= y0 <= y1 /\ y1 < PixelPage.height p ->
  let rect := PixelPage.get_rect p x0 y0 x1 y1 in
  ByteMatrix.wf rect /\
  ByteMatrix._height rect = y1 - y0 + 1 /\
  ByteMatrix._width rect = x1 - x0 + 1 /\
  (forall dx dy, 0 <= dx <= x1 - x0 -> 0 <= dy <= y1 - y0 ->
     ByteMatrix.getitem rect dy dx = Some (PixelPage.get_pixel p (x0 + dx) (y0 + dy))).
Proof.
  intros (Hwfm & Hh & Hw) Hx Hy. cbv zeta. unfold PixelPage.get_rect.
  split; [apply wf_getslice; exact Hwfm|].
  assert (Hsh : ByteMatrix._height
                  (ByteMatrix.getslice (PixelPage._buffer p) y0 (y1 + 1) x0 (x1 + 1))
                = y1 - y0 + 1)
    by (simpl; rewrite Hh; unfold ByteMatrix.slice_size; lia).
  assert (Hsw : ByteMatrix._width
                  (ByteMatrix.getslice (PixelPage._buffer p) y0 (y1 + 1) x0 (x1 + 1))
                = x1 - x0 + 1)
    by (simpl; rewrite Hw; unfold ByteMatrix.slice_size; lia).
  split; [exact Hsh|]. split; [exact Hsw|].
  intros dx dy Hdx Hdy.
  rewrite getitem_cell by (apply valid_index_spec; rewrite Hsh, Hsw; lia).
  rewrite cell_getslice by lia.
  rewrite !bool_decide_eq_true_2 by lia. simpl.
  unfold PixelPage.get_pixel.
  rewrite getitem_cell by (apply valid_index_spec; lia).
  replace (Z.to_nat (y0 + dy)) with (Z.to_nat y0 + Z.to_nat dy)%nat by lia.
  replace (Z.to_nat (x0 + dx)) with (Z.to_nat x0 + Z.to_nat dx)%nat by lia.
  destruct (wf_cell_is_Some (PixelPage._buffer p) (Z.to_nat y0 + Z.to_nat dy)
              (Z.to_nat x0 + Z.to_nat dx) Hwfm ltac:(lia) ltac:(lia)) as [c Hc].
  rewrite Hc. reflexivity.
Qed.

(** The theorem on a 4 x 3 page. *)
Lemma get_rect_pixels_witness :
  let rect := PixelPage.get_rect (PixelPage.__init__ 4 3 2) 1 0 2 1 in
  ByteMatrix.wf rect /\
  ByteMatrix._height rect = 1 - 0 + 1 /\
  ByteMatrix._width rect = 2 - 1 + 1 /\
  (forall dx dy, 0 <= dx <= 2 - 1 -> 0 <= dy <= 1 - 0 ->
     ByteMatrix.getitem rect dy dx
       = Some (PixelPage.get_pixel (PixelPage.__init__ 4 3 2) (1 + dx) (0 + dy))).
Proof.
  apply (get_rect_pixels (PixelPage.__init__ 4 3 2) 1 0 2 1).
  - apply wf___init__; lia.
  - simpl; lia.
  - simpl; lia.
Defined.

(** * The dispatch of the built-in functions *)

Section DispatchFacts.

Import Functions.

Lemma lookup_In {V : Type} (token : String.string) (d : list (String.string * V)) (v : V) :
  lookup String.eqb token d = Some v -> In (token, v) d.
Proof.
  induction d as [|[k w] d IH]; simpl; [discriminate|].
  destruct (String.eqb_spec k token) as [-> | Hne].
  - intros [= ->]. left. reflexivity.
  - intros Hl. right. apply IH. exact Hl.
Qed.

(** Every record of [_bare] leads to a call, but for the record of
    [tk.PMAP]. *)
Lemma _bare_records :
  forallb (fun entry : String.string * list item =>
    match take 3 (snd entry) with
    | [narity; fn; to_type] =>
      if equals narity 0 then negb (String.eqb (fst entry) Functions.PMAP)
      else if equals narity 1 && truthy to_type
           then negb (String.eqb (fst entry) Functions.PMAP)
      else if equals narity 1 then negb (String.eqb (fst entry) Functions.PMAP)
      else if greater narity 1 then
        match drop 3 (snd entry) with
        | [conv; optional] => negb (String.eqb (fst entry) Functions.PMAP)
        | _ => String.eqb (fst entry) Functions.PMAP
        end
      else negb (String.eqb (fst entry) Functions.PMAP)
    | _ => false
    end) _bare = true.
Proof. vm_compute. reflexivity. Qed.

End DispatchFacts.

(** X28: [parse_function] on the tokens of [_bare]: every token leads to one
    of the calls, except [tk.PMAP], whose record has four fields instead of
    five (the result type is missing), so that unpacking [fn_record[3:]]
    raises [ValueError] before an argument is parsed.  On a token of
    [_with_presign] followed by a character that has no record it raises the
    syntax error; on any other token, [KeyError]. *)
Theorem parse_function_dispatch (token : String.string) (presign : option String.string) :
  (forall fn_record,
     Functions.lookup String.eqb token Functions._bare = Some fn_record ->
     (token = Functions.PMAP /\
      Functions.parse_function token presign = Functions.ValueError) \/
     (token <> Functions.PMAP /\
      exists c, Functions.parse_function token presign = Functions.Calls c)) /\
  (Functions.lookup String.eqb token Functions._bare = None ->
   match Functions.lookup String.eqb token Functions._with_presign with
   | Some fndict =>
     Functions.lookup Functions.presign_eqb presign fndict = None ->
     Functions.parse_function token presign = Functions.RunError_STX
   | None => Functions.parse_function token presign = Functions.KeyError
   end).
Proof.
  split.
  - intros fn_record Hl. unfold Functions.parse_function. rewrite Hl.
    pose proof (proj1 (forallb_forall _ _) _bare_records (token, fn_record)
                  (lookup_In token Functions._bare fn_record Hl)) as Hrec.
    cbn [fst snd] in Hrec.
    destruct (take 3 fn_record) as [|narity [|fn [|to_type [|x l]]]]; try discriminate.
    destruct (String.eqb_spec token Functions.PMAP) as [Heq | Hne].
    + left. split; [exact Heq|].
      destruct (Functions.equals narity 0); [discriminate|].
      destruct (Functions.equals narity 1 && Functions.truthy to_type); [discriminate|].
      destruct (Functions.equals narity 1); [discriminate|].
      destruct (Functions.greater narity 1); [|discriminate].
      destruct (drop 3 fn_record) as [|conv [|optional [|y l]]];
        try reflexivity; discriminate.
    + right. split; [exact Hne|].
      destruct (Functions.equals narity 0); [eexists; reflexivity|].
      destruct (Functions.equals narity 1 && Functions.truthy to_type);
        [eexists; reflexivity|].
      destruct (Functions.equals narity 1); [eexists; reflexivity|].
      destruct (Functions.greater narity 1); [|eexists; reflexivity].
      destruct (drop 3 fn_record) as [|conv [|optional [|y l]]];
        try discriminate. eexists. reflexivity.
  - intros Hl. unfold Functions.parse_function. rewrite Hl.
    destruct (Functions.lookup String.eqb token Functions._with_presign) as [fndict|];
      [|reflexivity].
    intros ->. reflexivity.
Qed.

(** The theorem for [PMAP]. *)
Lemma parse_function_dispatch_witness :
  (Functions.PMAP = Functions.PMAP /\
   Functions.parse_function Functions.PMAP None = Functions.ValueError) \/
  (Functions.PMAP <> Functions.PMAP /\
   exists c, Functions.parse_function Functions.PMAP None = Functions.Calls c).
Proof.
  refine (proj1 (parse_function_dispatch Functions.PMAP None) _ _).
  vm_compute. reflexivity.
Defined.

Section ArgumentListFacts.

Import Functions.

Context {S E V : Type} `{Parser S E V}.

Lemma _parse_required_length (pairs : list ((V -> E + V) * list String.string)) :
  forall (arg : list V) (ins : S) (args : list V) (ins' : S),
    _parse_required pairs arg ins = Parsed args ins' ->
    length args = (length arg + length pairs)%nat.
Proof.
  induction pairs as [|[conv sep] pairs IH]; intros arg ins args ins'; simpl.
  - intros [= <- _]. lia.
  - destruct (require_read ins sep) as [[] ins1 | e ins1]; [|discriminate].
    destruct (parse_expression ins1) as [v ins2 | e ins2]; [|discriminate].
    destruct (conv v) as [e | v']; [discriminate|].
    intros Hrec. rewrite (IH _ _ _ _ Hrec), length_app. simpl. lia.
Qed.

Lemma required_pairs_length {A B : Type} (conversions : list A) (first sep : B) :
  length (zip (removelast conversions)
            (removelast ([first] ++ replicate (length conversions - 1) sep)))
    = (length conversions - 1)%nat.
Proof.
  rewrite length_zip, !removelast_firstn_len, !length_take, length_app.
  simpl. rewrite length_replicate. lia.
Qed.

End ArgumentListFacts.

(** X29: [parse_argument_list], when it returns, returns one argument for each
    conversion, or one less when the last argument is optional.  The
    arguments before the last are always parsed; with exactly one conversion
    and [optional] the list may be empty, and then no closing parenthesis is
    read. *)
Theorem parse_argument_list_arity
    {S E V : Type} `{Functions.Parser S E V}
    (ins : S) (conversions : list (V -> E + V)) (optional : bool)
    (args : list V) (ins' : S) :
  Functions.parse_argument_list ins conversions optional = Functions.Parsed args ins' ->
  length args = length conversions \/
  (optional = true /\ (length args + 1)%nat = length conversions).
Proof.
  unfold Functions.parse_argument_list.
  destruct (Functions._parse_required _ [] ins) as [arg ins1 | e ins1] eqn:Hreq;
    [|discriminate].
  apply _parse_required_length in Hreq.
  rewrite required_pairs_length in Hreq. simpl in Hreq.
  assert (Hclose : forall (arg0 : list V) (ins0 : S) (seps : list String.string),
    match arg0 with
    | [] => Functions.Parsed arg0 ins0
    | _ :: _ =>
      match Functions.require_read ins0 seps with
      | Functions.Parsed _ ins2 => Functions.Parsed arg0 ins2
      | Functions.Failed e ins2 => Functions.Failed e ins2
      end
    end = Functions.Parsed args ins' -> arg0 = args).
  { intros arg0 ins0 seps. destruct arg0 as [|v arg0].
    - intros [= <- _]. reflexivity.
    - destruct (Functions.require_read ins0 _) as [[] ins2 | e ins2]; [|discriminate].
      intros [= <- _]. reflexivity. }
  destruct (Functions.skip_blank_read_if ins1 _) as [ins2 [sep|]].
  - destruct (List.last (Some <$> conversions) None) as [conv|] eqn:Hlast;
      [|discriminate].
    destruct (Functions.parse_expression ins2) as [v ins3 | e ins3]; [|discriminate].
    destruct (conv v) as [e | v']; [discriminate|].
    intros Hc. apply Hclose in Hc. subst args.
    left. rewrite length_app, Hreq. simpl.
    destruct conversions as [|conv0 rest]; [discriminate Hlast|]. simpl. lia.
  - destruct optional; [|discriminate].
    intros Hc. apply Hclose in Hc. subst args.
    destruct conversions as [|conv0 rest].
    + left. simpl in *. lia.
    + right. split; [reflexivity|]. simpl in *. lia.
Qed.

(** The theorem on the code [(1,2)] with two conversions. *)
Lemma parse_argument_list_arity_witness :
  length Functions.example_values = length Functions.example_conversions \/
  (false = true /\
   (length Functions.example_values + 1)%nat = length Functions.example_conversions).
Proof.
  apply (parse_argument_list_arity Functions.example_arguments
           Functions.example_conversions false Functions.example_values []).
  vm_compute. reflexivity.
Defined.
